(** * CloneMentor Pro: capture -> classify -> verify pipeline

    A shallow embedding of the fidelity verifier
    ([server/core/fidelity-verifier.js]), the visual Elementor converter
    ([server/core/visual-elementor-converter.js]), the visual scraper
    ([server/core/visual-scraper.js]) and the [/scan] route
    ([server/routes/clone.js]).

    Conventions.
    - JavaScript numbers are modelled by exact rationals ([Q]); the scores
      the code computes are compared up to [Qeq].  Where the rounding of
      the code's doubles decides a branch or a bound (the overall score,
      the mean of the screenshot scores), the function is also given in
      double arithmetic, module [Double].  Strings are strings of 8-bit
      characters.
    - [Math.random], the clock, browser navigation, screenshots and the
      other answers of the headless browser are inputs of the model: a
      draw sequence, a time stamp, an outcome (a value or a thrown error)
      for each request the code makes.
    - The objects the code builds with object literals, searches and
      cleans generically are values of the type [Js]: property lists in
      insertion order.  The captured element tree is a record with the
      properties the code reads.
    - The converter is one object for the whole process: its state (the
      color and font sets, the number of random draws) is threaded through
      the calls by a state monad.

    Part I holds the definitions, one module per source file; Part II the
    properties, claim by claim. *)

From Stdlib Require Import List String Ascii Bool Arith ZArith QArith Qround Qminmax Qabs.
From Stdlib Require Import Qpower DecimalString Lia Lqa.
From Stdlib Require Floats.
Set Warnings "-register-all,-inexact-float".
Import ListNotations.

Local Open Scope string_scope.
Local Open Scope Q_scope.

(* ================================================================== *)
(** * Part I: definitions *)
(* ================================================================== *)

(** ** Numbers and strings, as the JavaScript built-ins behave *)

Module JsLib.

Definition Qlt_bool (a b : Q) : bool := negb (Qle_bool b a).

(** [Math.round]: the nearest integer, halves rounded up. *)
Definition Math_round (x : Q) : Z := Qfloor (x + (1 # 2)).

Definition Math_floor (x : Q) : Z := Qfloor x.

Definition ofnat (n : nat) : Q := inject_Z (Z.of_nat n).

Definition is_space (c : ascii) : bool :=
  let n := nat_of_ascii c in
  ((n =? 32) || (n =? 9) || (n =? 10) || (n =? 11) || (n =? 12) || (n =? 13))%nat.

Fixpoint trim_left (s : string) : string :=
  match s with
  | String c r => if is_space c then trim_left r else s
  | EmptyString => EmptyString
  end.

Fixpoint rev_string (s acc : string) : string :=
  match s with
  | String c r => rev_string r (String c acc)
  | EmptyString => acc
  end.

(** [String.prototype.trim] *)
Definition trim (s : string) : string :=
  rev_string (trim_left (rev_string (trim_left s) "")) "".

(** Truthiness of a string: non-empty. *)
Definition str_truthy (s : string) : bool := negb (s =? "")%string.

Definition lower_ascii (c : ascii) : ascii :=
  let n := nat_of_ascii c in
  if ((65 <=? n) && (n <=? 90))%nat then ascii_of_nat (n + 32) else c.

Definition upper_ascii (c : ascii) : ascii :=
  let n := nat_of_ascii c in
  if ((97 <=? n) && (n <=? 122))%nat then ascii_of_nat (n - 32) else c.

Fixpoint map_string (f : ascii -> ascii) (s : string) : string :=
  match s with
  | String c r => String (f c) (map_string f r)
  | EmptyString => EmptyString
  end.

Definition toLowerCase : string -> string := map_string lower_ascii.
Definition toUpperCase : string -> string := map_string upper_ascii.

(** [hay.includes(needle)] on strings. *)
Fixpoint includes (needle hay : string) : bool :=
  if String.prefix needle hay then true
  else match hay with
       | String _ r => includes needle r
       | EmptyString => false
       end.

(** [[...].includes(s)] on a literal array of strings. *)
Definition mem (s : string) (l : list string) : bool :=
  existsb (String.eqb s) l.

(** [chars.charAt(i)]: the empty string when [i] is out of range. *)
Definition charAt (s : string) (i : Z) : string :=
  if (i <? 0)%Z then ""
  else match String.get (Z.to_nat i) s with
       | Some c => String c ""
       | None => ""
       end.

(** The double quote, as a string. *)
Definition dq : string := String (ascii_of_nat 34) EmptyString.

Definition digit_of (c : ascii) : option Z :=
  let n := nat_of_ascii c in
  if ((48 <=? n) && (n <=? 57))%nat then Some (Z.of_nat (n - 48)) else None.

(** Read the decimal digits at the head of [s], after [acc]: the value,
    how many digits were read, and what follows them. *)
Fixpoint read_digits (s : string) (acc : Z) (n : nat) : Z * nat * string :=
  match s with
  | String c r =>
      match digit_of c with
      | Some d => read_digits r (acc * 10 + d)%Z (S n)
      | None => (acc, n, s)
      end
  | EmptyString => (acc, n, s)
  end.

Definition read_sign (s : string) : bool * string :=
  match s with
  | String "-"%char r => (true, r)
  | String "+"%char r => (false, r)
  | _ => (false, s)
  end.

(** [parseInt(s)] of a string, in base ten: [None] is [NaN].  (Computed
    styles such as ["16px"] or ["normal"]; the hexadecimal prefix is not
    modelled.) *)
Definition parseInt (s : string) : option Z :=
  let '(neg, r) := read_sign (trim_left s) in
  let '(v, n, _) := read_digits r 0%Z 0%nat in
  if (n =? 0)%nat then None else Some (if neg then (- v)%Z else v).

(** [parseInt(x)] of a number: its integer part. *)
Definition parseInt_num (q : Q) : Z := Z.quot (Qnum q) (Zpos (Qden q)).

(** [parseFloat(s)]: digits with an optional fraction; [None] is [NaN].
    (Exponents are not modelled.) *)
Definition parseFloat (s : string) : option Q :=
  let '(neg, r) := read_sign (trim_left s) in
  let '(v, n, rest) := read_digits r 0%Z 0%nat in
  let '(num, m, scale) :=
    match rest with
    | String "."%char f =>
        let '(w, m, _) := read_digits f v 0%nat in
        (w, m, Pos.pow 10 (Pos.of_nat m))
    | _ => (v, 0%nat, 1%positive)
    end in
  if ((n =? 0) && (m =? 0))%nat then None
  else
    let q := if (m =? 0)%nat then inject_Z num else num # scale in
    Some (if neg then - q else q).
End JsLib.
Import JsLib.

(** ** What a step that may throw does *)

Inductive outcome (A : Type) : Type :=
| Returns (a : A)
| Throws (message : string).
Arguments Returns {A} a.
Arguments Throws {A} message.

(** What the code asks of the browser page while navigating. *)
Inductive Action : Type :=
| Goto (waitUntil : list string) (timeout : Z)
| Delay (ms : Z).

(** One call of the progress callback. *)
Record ProgressEvent : Type := mkEvent { phase : string; progress : Q }.

(* ------------------------------------------------------------------ *)
(** ** The fidelity verifier *)
(* ------------------------------------------------------------------ *)

Module Verifier.

Inductive Device : Type := desktop | tablet | mobile.

(** [const devices = ['desktop', 'tablet', 'mobile']] *)
Definition devices : list Device := [desktop; tablet; mobile].

(** An object handed to the structural comparison, by the properties the
    comparison reads: numeric own properties (the counts of
    [extractPageStructure]: [elementCount], [textNodes], ...), and the
    tree properties of a captured element ([tagName], [textContent],
    [layout.width]/[layout.height], [children]).  A property that is
    absent is [None] (for the counts: not in the list). *)
Inductive Structure : Type :=
  mkStructure {
      counts : list (string * Q);
      tagName : option string;
      textContent : option string;
      rect : option (Q * Q);
      children : option (list Structure)
    }.

(** [originalStructure[metric]] *)
Fixpoint prop (metric : string) (l : list (string * Q)) : option Q :=
  match l with
  | [] => None
  | (k, v) :: r => if (k =? metric)%string then Some v else prop metric r
  end.

(** The test [countInElement] applies to one element for [type]. *)
Definition counts_as (type : string) (element : Structure) : bool :=
  let tag := option_map toLowerCase (tagName element) in
  let tag_in (l : list string) :=
    match tag with Some t => mem t l | None => false end in
  if (type =? "images")%string then tag_in ["img"]
  else if (type =? "sections")%string then
    tag_in ["section"; "header"; "footer"; "main"; "article"]
  else if (type =? "containers")%string then tag_in ["div"]
  else if (type =? "headings")%string then
    tag_in ["h1"; "h2"; "h3"; "h4"; "h5"; "h6"]
  else if (type =? "links")%string then tag_in ["a"]
  else if (type =? "textNodes")%string then
    match textContent element with
    | Some t => str_truthy (trim t)
    | None => false
    end
  else false.

Fixpoint countInElement (type : string) (element : Structure) : nat :=
  (if counts_as type element then 1 else 0)%nat +
  match children element with
  | Some cs =>
      (fix each (l : list Structure) : nat :=
         match l with
         | [] => 0%nat
         | c :: r => (countInElement type c + each r)%nat
         end) cs
  | None => 0%nat
  end.

Definition countElementsInStructure (structure : option Structure)
           (type : string) : nat :=
  match structure with
  | None => 0%nat
  | Some s => countInElement type s
  end.

Definition hasValidContent (structure : option Structure) : bool :=
  match structure with
  | None => false
  | Some _ =>
      let hasText := (0 <? countElementsInStructure structure "textNodes")%nat in
      let hasElements := (0 <? countElementsInStructure structure "containers")%nat in
      let hasImages := (0 <? countElementsInStructure structure "images")%nat in
      let hasHeadings := (0 <? countElementsInStructure structure "headings")%nat in
      hasText || hasElements || hasImages || hasHeadings
  end.

Definition metrics : list string :=
  ["elementCount"; "textNodes"; "images"; "sections"; "containers";
   "headings"; "links"].

(** One round of [metrics.forEach]: the score and the number of checks
    after looking at [metric]. *)
Definition check_metric (originalStructure clonedStructure : Structure)
           (acc : Q * nat) (metric : string) : Q * nat :=
  let '(score, checks) := acc in
  match prop metric (counts originalStructure) with
  | None => (score, checks)
  | Some original =>
      let cloned := ofnat (countElementsInStructure (Some clonedStructure) metric) in
      let score' :=
        if Qeq_bool original 0 && Qeq_bool cloned 0 then score + 1
        else if Qeq_bool original 0 || Qeq_bool cloned 0 then score + (3 # 10)
        else
          let ratio := Qmin original cloned / Qmax original cloned in
          let adjustedScore := Qmin 1 (ratio * (14 # 10)) in
          score + adjustedScore in
      (score', S checks)
  end.

Definition compareStructuralFidelity
           (originalStructure clonedStructure : option Structure) : Q :=
  match originalStructure, clonedStructure with
  | None, None => 8 # 10
  | Some o, Some c =>
      let '(score, checks) := fold_left (check_metric o c) metrics (0, 0%nat) in
      let score :=
        if (checks <? 3)%nat && Qlt_bool 0 score
        then Qmin (score * (13 # 10)) (ofnat checks) else score in
      let finalScore :=
        if (0 <? checks)%nat then score / ofnat checks else 6 # 10 in
      if hasValidContent clonedStructure
      then Qmin (finalScore * (12 # 10)) 1
      else finalScore
  | _, _ =>
      if match clonedStructure with Some _ => hasValidContent clonedStructure
                               | None => false end
      then 7 # 10 else 4 # 10
  end.

(** A screenshot is a [Buffer] of encoded image bytes, or missing. *)
Definition Buffer : Type := list Byte.byte.

Definition compareScreenshots (originalBuffer cloneBuffer : option Buffer) : Q :=
  match originalBuffer, cloneBuffer with
  | Some o, Some c =>
      let lo := ofnat (List.length o) in
      let lc := ofnat (List.length c) in
      let sizeDifference := Qabs (lo - lc) in
      let averageSize := (lo + lc) / 2 in
      if Qeq_bool averageSize 0 then 1 # 10
      else
        let sizeRatio := sizeDifference / averageSize in
        if Qlt_bool sizeRatio (5 # 100) then 8 # 10
        else if Qlt_bool sizeRatio (15 # 100) then 6 # 10
        else if Qlt_bool sizeRatio (3 # 10) then 4 # 10
        else if Qlt_bool sizeRatio (5 # 10) then 3 # 10
        else 1 # 10
  | _, _ => 2 # 10
  end.

(** One entry of the array [captureLayoutStructure] returns (and
    [extractResponsiveFromClone] imitates). *)
Record LayoutEntry : Type :=
  mkEntry { le_tagName : option string; le_width : Q; le_height : Q }.

(** The result of [captureOriginalSite] / [renderClonedStructure]. *)
Record Capture : Type :=
  mkCapture {
      screenshots : Device -> option Buffer;
      responsive : Device -> option (list LayoutEntry);
      structure : option Structure
    }.

(** The mean of the screenshot scores, in exact arithmetic.  The code
    adds and divides doubles, where three scores of 0.8 have the mean
    0.8000000000000002: [Double.compareVisualFidelity] below. *)
Definition compareVisualFidelity (original clone : Capture) : Q :=
  let '(totalScore, comparisons) :=
    fold_left
      (fun (acc : Q * nat) device =>
         let '(totalScore, comparisons) := acc in
         match screenshots original device, screenshots clone device with
         | Some o, Some c =>
             (totalScore + compareScreenshots (Some o) (Some c), S comparisons)
         | _, _ => acc
         end)
      devices (0, 0%nat) in
  if (0 <? comparisons)%nat then totalScore / ofnat comparisons else 0.

Definition compareLayoutArrays
           (originalLayout clonedLayout : option (list LayoutEntry)) : Q :=
  match originalLayout, clonedLayout with
  | None, None => 7 # 10
  | Some o, Some c =>
      let lo := List.length o in
      let lc := List.length c in
      if ((lo =? 0) && (lc =? 0))%nat then 1
      else if ((lo =? 0) || (lc =? 0))%nat then 5 # 10
      else
        let ratio := ofnat (Nat.min lo lc) / ofnat (Nat.max lo lc) in
        if Qle_bool (8 # 10) ratio then 1
        else if Qle_bool (6 # 10) ratio then 9 # 10
        else if Qle_bool (4 # 10) ratio then 8 # 10
        else if Qle_bool (2 # 10) ratio then 7 # 10
        else 6 # 10
  | _, _ => 5 # 10
  end.

Definition compareResponsiveness
           (originalResponsive clonedResponsive
            : option (Device -> option (list LayoutEntry))) : Q :=
  match originalResponsive, clonedResponsive with
  | None, None => 8 # 10
  | Some o, Some c =>
      let '(totalScore, comparisons) :=
        fold_left
          (fun (acc : Q * nat) device =>
             let '(totalScore, comparisons) := acc in
             match o device, c device with
             | Some lo, Some lc =>
                 (totalScore + compareLayoutArrays (Some lo) (Some lc),
                  S comparisons)
             | None, None => acc
             | _, _ => (totalScore + (5 # 10), S comparisons)
             end)
          devices (0, 0%nat) in
      if (comparisons =? 0)%nat then 75 # 100
      else
        let totalScore :=
          if (comparisons <? 2)%nat
          then Qmin (totalScore * (12 # 10)) (ofnat comparisons)
          else totalScore in
        totalScore / ofnat comparisons
  | _, _ => 7 # 10
  end.

(** The verification report, by the fields the pipeline reads back. *)
Record Report : Type :=
  mkReport {
      fidelityScore : Q;
      responsiveScore : Q;
      visualScore : Q;
      structuralScore : Q;
      passed : bool;
      fallback : bool;             (* details.fallback *)
      error : option string
    }.

(** The overall score, in exact arithmetic.  The code adds the products
    in doubles and tests the rounded sum against 0.6:
    [Double.calculateOverallScore] below. *)
Definition calculateOverallScore (report : Report) : Q :=
  let weights_visual := 3 # 10 in
  let weights_structural := 5 # 10 in
  let weights_responsive := 2 # 10 in
  let weightedScore :=
    visualScore report * weights_visual +
    structuralScore report * weights_structural +
    responsiveScore report * weights_responsive in
  if Qlt_bool weightedScore (6 # 10) &&
     (Qlt_bool (4 # 10) (structuralScore report) ||
      Qlt_bool (4 # 10) (visualScore report))
  then Qmax (6 # 10) (weightedScore * (13 # 10))
  else Qmax (5 # 10) weightedScore.

(** The weighted sum as the specification writes it (structural 0.5,
    visual 0.3, responsive 0.2), to compare [calculateOverallScore] with. *)
Definition weightedSum (r : Report) : Q :=
  (5 # 10) * structuralScore r + (3 # 10) * visualScore r +
  (2 # 10) * responsiveScore r.

(** [this.toleranceThreshold = 0.45] *)
Definition toleranceThreshold : Q := 45 # 100.

(** The scanned data, by the properties the verifier reads. *)
Record LayoutData : Type := mkLayoutData { ld_structure : option Structure }.

Record VisualStructure : Type :=
  mkVisualStructure {
      vs_structure : option Structure;   (* visualStructure.structure *)
      vs_self : Structure                (* visualStructure, read as a structure *)
    }.

Record Assets : Type :=
  mkAssets { images_length : option nat; fonts_length : option nat }.

Record ScannedData : Type :=
  mkScanned {
      visualStructure : option VisualStructure;
      pageInfo_title : option string;
      assets : option Assets;
      responsiveLayouts : option (Device -> option LayoutData)
    }.

Definition validateScannedContent (scannedData : option ScannedData) : bool :=
  match scannedData with
  | None => false
  | Some d =>
      let structure_ind :=
        match visualStructure d with
        | Some vs =>
            match vs_structure vs with
            | Some s => hasValidContent (Some s)
            | None => false
            end
        | None => false
        end in
      let metadata_ind :=
        match pageInfo_title d with
        | Some t => (0 <? String.length t)%nat
        | None => false
        end in
      let images_ind :=
        match assets d with
        | Some a => match images_length a with
                    | Some n => (2 <? n)%nat | None => false end
        | None => false
        end in
      let fonts_ind :=
        match assets d with
        | Some a => match fonts_length a with
                    | Some n => (1 <? n)%nat | None => false end
        | None => false
        end in
      let qualityIndicators :=
        ((if structure_ind then ["structure"] else []) ++
         (if metadata_ind then ["metadata"] else []) ++
         (if images_ind then ["images"] else []) ++
         (if fonts_ind then ["fonts"] else []))%list in
      mem "structure" qualityIndicators &&
      (2 <=? List.length qualityIndicators)%nat
  end.

(** [extractElements]: the entries pushed for [el] and its descendants. *)
Fixpoint extractElements (el : Structure) : list LayoutEntry :=
  ((match rect el with
    | Some (w, h) =>
        if Qlt_bool 0 w && Qlt_bool 0 h
        then [mkEntry (option_map toLowerCase (tagName el)) w h] else []
    | None => []
    end) ++
   match children el with
   | Some cs =>
       (fix each (l : list Structure) : list LayoutEntry :=
          match l with
          | [] => []
          | c :: r => extractElements c ++ each r
          end) cs
   | None => []
   end)%list.

Definition extractResponsiveFromClone (scannedData : ScannedData)
  : Device -> option (list LayoutEntry) :=
  match responsiveLayouts scannedData with
  | Some layouts =>
      fun device =>
        match layouts device with
        | Some layoutData =>
            match ld_structure layoutData with
            | Some s => Some (extractElements s)
            | None => None
            end
        | None => None
        end
  | None => fun _ => None
  end.

(** The headless browser, as the verifier meets it: whether
    [puppeteer.launch] and [browser.newPage] succeed, what [page.goto]
    does for a given [waitUntil], what the screenshot and layout capture
    after a successful navigation yields, and what rendering the clone
    yields. *)
Record Browser : Type :=
  mkBrowser {
      launch : outcome unit;
      newPage : outcome unit;
      goto : list string -> outcome unit;
      captureAfterNavigation : outcome Capture;
      renderPreview : ScannedData -> outcome Capture
    }.

(** [captureOriginalSite]: the navigation requests made, in order, and
    the result. *)
Definition captureOriginalSite (b : Browser) : list Action * outcome Capture :=
  match newPage b with
  | Throws e => ([], Throws e)
  | Returns _ =>
      let s1 := Goto ["networkidle0"] 60000%Z in
      let s2 := Goto ["networkidle2"] 45000%Z in
      let s3 := Goto ["domcontentloaded"] 30000%Z in
      match goto b ["networkidle0"] with
      | Returns _ => ([s1], captureAfterNavigation b)
      | Throws error =>
          match goto b ["networkidle2"] with
          | Returns _ => ([s1; s2], captureAfterNavigation b)
          | Throws error2 =>
              match goto b ["domcontentloaded"] with
              | Returns _ => ([s1; s2; s3; Delay 3000%Z], captureAfterNavigation b)
              | Throws error3 => ([s1; s2; s3], Throws error3)
              end
          end
      end
  end.

Definition renderClonedStructure (b : Browser) (scannedData : option ScannedData)
  : outcome Capture :=
  match newPage b with
  | Throws e => Throws e
  | Returns _ =>
      match scannedData with
      | None => Throws "TypeError: Cannot read properties of null"
      | Some d => renderPreview b d
      end
  end.

(** The [catch] block of [verifyFidelity]. *)
Definition fallbackReport (scannedData : option ScannedData) (message : string)
  : Report :=
  let hasValidContent := validateScannedContent scannedData in
  if hasValidContent then
    let r := mkReport 0 (20 # 100) (15 # 100) (25 # 100) false false (Some message) in
    let score := calculateOverallScore r in
    mkReport score (20 # 100) (15 # 100) (25 # 100)
             (Qle_bool toleranceThreshold score) true (Some message)
  else
    let r := mkReport 0 (10 # 100) (5 # 100) (10 # 100) false false (Some message) in
    let score := calculateOverallScore r in
    mkReport score (10 # 100) (5 # 100) (10 # 100) false true (Some message).

(** [verifyFidelity]: the progress events delivered to the callback, in
    order, and what the call does. *)
Definition verifyFidelity (b : Browser) (scannedData : option ScannedData)
  : list ProgressEvent * outcome Report :=
  match launch b with
  | Throws e => ([], Throws e)
  | Returns _ =>
      let e0 := [mkEvent "preparing_verification" 5;
                 mkEvent "capturing_original" 20] in
      match snd (captureOriginalSite b) with
      | Throws message => (e0, Returns (fallbackReport scannedData message))
      | Returns originalCapture =>
          let e1 := (e0 ++ [mkEvent "rendering_clone" 40])%list in
          match renderClonedStructure b scannedData, scannedData with
          | Throws message, _ =>
              (e1, Returns (fallbackReport scannedData message))
          | Returns _, None =>
              (e1, Returns (fallbackReport scannedData "TypeError"))
          | Returns cloneCapture, Some d =>
              let visual := compareVisualFidelity originalCapture cloneCapture in
              let clonedStructure :=
                match visualStructure d with
                | Some vs =>
                    match vs_structure vs with
                    | Some s => Some s
                    | None => Some (vs_self vs)
                    end
                | None => None
                end in
              let structural :=
                compareStructuralFidelity (structure originalCapture)
                                          clonedStructure in
              let clonedResponsive := extractResponsiveFromClone d in
              let responsive_ :=
                compareResponsiveness (Some (responsive originalCapture))
                                      (Some clonedResponsive) in
              let r := mkReport 0 responsive_ visual structural false false None in
              let score := calculateOverallScore r in
              ((e1 ++ [mkEvent "analyzing_visual_diff" 60;
                       mkEvent "analyzing_structure" 75;
                       mkEvent "analyzing_responsiveness" 85;
                       mkEvent "calculating_final_score" 95])%list,
               Returns (mkReport score responsive_ visual structural
                                 (Qle_bool toleranceThreshold score) false None))
          end
      end
  end.

(** The content-quality predicate as the specification words it: a
    structurally valid capture and at least one secondary signal (a
    usable title, or a non-trivial asset count), to compare
    [validateScannedContent] with. *)
Definition contentQuality (scannedData : option ScannedData) : bool :=
  match scannedData with
  | None => false
  | Some d =>
      let validCapture :=
        match visualStructure d with
        | Some vs => match vs_structure vs with
                     | Some s => hasValidContent (Some s)
                     | None => false
                     end
        | None => false
        end in
      let usableTitle :=
        match pageInfo_title d with
        | Some t => negb (t =? "")%string
        | None => false
        end in
      let assetCount :=
        match assets d with
        | Some a =>
            match images_length a with Some n => (3 <=? n)%nat | None => false end
            || match fonts_length a with Some n => (2 <=? n)%nat | None => false end
        | None => false
        end in
      validCapture && (usableTitle || assetCount)
  end.

(** *** The detailed analysis of a report *)

Definition getVisualRecommendation (score : Q) : string :=
  if Qle_bool (9 # 10) score then
    "Visual fidelity is excellent. The clone accurately represents the original design."
  else if Qle_bool (8 # 10) score then
    "Visual fidelity is good with minor differences in styling or layout."
  else if Qle_bool (7 # 10) score then
    "Visual fidelity is acceptable but may need refinement in colors, spacing, or typography."
  else
    "Visual fidelity needs significant improvement. Major differences detected in layout and styling.".

Definition getStructuralRecommendation (score : Q) : string :=
  if Qle_bool (9 # 10) score then
    "Structural fidelity is excellent. All major elements have been captured correctly."
  else if Qle_bool (8 # 10) score then
    "Structural fidelity is good with most elements properly captured."
  else if Qle_bool (7 # 10) score then
    "Structural fidelity is acceptable but some elements may be missing or incorrectly mapped."
  else
    "Structural fidelity needs improvement. Many elements may be missing or incorrectly structured.".

Definition getResponsiveRecommendation (score : Q) : string :=
  if Qle_bool (9 # 10) score then
    "Responsive behavior is excellent across all devices."
  else if Qle_bool (8 # 10) score then
    "Responsive behavior is good with minor layout differences on some devices."
  else if Qle_bool (7 # 10) score then
    "Responsive behavior is acceptable but may need adjustment for optimal mobile/tablet display."
  else
    "Responsive behavior needs significant improvement. Layout may break on different screen sizes.".

Definition getOverallRecommendation (score : Q) : string :=
  if Qle_bool (95 # 100) score then
    "Exceptional fidelity! This clone is ready for production use."
  else if Qle_bool (9 # 10) score then
    "Excellent fidelity with minor areas for improvement."
  else if Qle_bool (8 # 10) score then
    "Good fidelity suitable for most use cases with some refinement needed."
  else if Qle_bool (7 # 10) score then
    "Acceptable fidelity but requires optimization before production use."
  else
    "Fidelity score too low for reliable use. Significant improvements needed.".

Record Analysis : Type :=
  mkAxis { score : Q; status : string; recommendation : string }.

Record DetailedAnalysis : Type :=
  mkDetails {
      visualAnalysis : Analysis;
      structuralAnalysis : Analysis;
      responsiveAnalysis : Analysis;
      overallRecommendation : string
    }.

Definition generateDetailedAnalysis (report : Report) : DetailedAnalysis :=
  let status_of (s : Q) :=
    if Qle_bool (9 # 10) s then "excellent"
    else if Qle_bool (8 # 10) s then "good"
    else if Qle_bool (7 # 10) s then "acceptable"
    else "needs improvement" in
  mkDetails
    (mkAxis (visualScore report) (status_of (visualScore report))
                (getVisualRecommendation (visualScore report)))
    (mkAxis (structuralScore report) (status_of (structuralScore report))
                (getStructuralRecommendation (structuralScore report)))
    (mkAxis (responsiveScore report) (status_of (responsiveScore report))
                (getResponsiveRecommendation (responsiveScore report)))
    (getOverallRecommendation (fidelityScore report)).

(** *** What the browser reports *)

(** The counts [extractPageStructure] takes in the page are numbers of
    elements: none is negative. *)
Definition counted (s : Structure) : bool :=
  forallb (fun kv => Qle_bool 0 (snd kv)) (counts s).

(** The number of elements of a captured tree. *)
Fixpoint nodes (element : Structure) : nat :=
  S match children element with
    | Some cs =>
        (fix each (l : list Structure) : nat :=
           match l with
           | [] => 0%nat
           | c :: r => (nodes c + each r)%nat
           end) cs
    | None => 0%nat
    end.

End Verifier.

(* ------------------------------------------------------------------ *)
(** ** The scores in double-precision arithmetic *)
(* ------------------------------------------------------------------ *)

(** JavaScript numbers are IEEE 754 doubles.  [calculateOverallScore]
    tests a rounded sum against 0.6, and [compareVisualFidelity] divides
    a rounded total: the branch taken and the mean returned depend on the
    rounding.  These functions are given here over the binary64 numbers
    of the kernel ([float]), operation by operation in the order of the
    code; a decimal literal denotes the nearest double, as in JavaScript. *)
Module Double.
Import Floats.

(** [Math.max] of two numbers: [NaN] if either is, and [+0] above [-0]. *)
Definition Math_max (a b : float) : float :=
  if is_nan a || is_nan b then nan
  else if (a <? b)%float then b
  else if (b <? a)%float then a
  else if get_sign a then b else a.

Definition calculateOverallScore
           (visualScore structuralScore responsiveScore : float) : float :=
  let weightedScore :=
    (visualScore * 0.3 + structuralScore * 0.5 + responsiveScore * 0.2)%float in
  if (weightedScore <? 0.6)%float &&
     ((0.4 <? structuralScore)%float || (0.4 <? visualScore)%float)
  then Math_max 0.6 (weightedScore * 1.3)%float
  else Math_max 0.5 weightedScore.

(** A length or a count as a number (exact below 2^53, which no buffer
    length reaches). *)
Definition of_nat (n : nat) : float := of_uint63 (Uint63.of_Z (Z.of_nat n)).

Definition compareScreenshots
           (originalBuffer cloneBuffer : option Verifier.Buffer) : float :=
  match originalBuffer, cloneBuffer with
  | Some o, Some c =>
      let sizeDifference :=
        abs (of_nat (List.length o) - of_nat (List.length c))%float in
      let averageSize :=
        ((of_nat (List.length o) + of_nat (List.length c)) / 2)%float in
      if (averageSize =? 0)%float then 0.1%float
      else
        let sizeRatio := (sizeDifference / averageSize)%float in
        if (sizeRatio <? 0.05)%float then 0.8%float
        else if (sizeRatio <? 0.15)%float then 0.6%float
        else if (sizeRatio <? 0.3)%float then 0.4%float
        else if (sizeRatio <? 0.5)%float then 0.3%float
        else 0.1%float
  | _, _ => 0.2%float
  end.

Definition compareVisualFidelity (original clone : Verifier.Capture) : float :=
  let '(totalScore, comparisons) :=
    fold_left
      (fun (acc : float * nat) device =>
         let '(totalScore, comparisons) := acc in
         match Verifier.screenshots original device,
               Verifier.screenshots clone device with
         | Some o, Some c =>
             ((totalScore + compareScreenshots (Some o) (Some c))%float,
              S comparisons)
         | _, _ => acc
         end)
      Verifier.devices (0%float, 0%nat) in
  if (0 <? comparisons)%nat then (totalScore / of_nat comparisons)%float
  else 0%float.

(** *** What a double is worth

    The value of a finite double as a rational, and the rounding of an
    exact positive result [m * 2^e] to the nearest double, ties to even:
    to the multiple of [2 ^ target m e] nearest to it. *)
Definition pow2 (e : Z) : Q := (2 # 1) ^ e.

Definition SF2Q (x : spec_float) : Q :=
  match x with
  | S754_finite s m e =>
      (if s then - inject_Z (Zpos m) else inject_Z (Zpos m)) * pow2 e
  | _ => 0
  end.

Definition value (x : float) : Q := SF2Q (Prim2SF x).





End Double.

(* ------------------------------------------------------------------ *)
(** ** JavaScript values *)
(* ------------------------------------------------------------------ *)

(** The values the converter builds and cleans: [undefined], [null],
    booleans, numbers ([NaN] apart), strings, arrays, and objects as the
    list of their own properties in insertion order. *)
Inductive Js : Type :=
| JUndefined
| JNull
| JBool (b : bool)
| JNum (q : Q)
| JNaN
| JStr (s : string)
| JArr (items : list Js)
| JObj (props : list (string * Js)).

Module JsVal.

Definition truthy (v : Js) : bool :=
  match v with
  | JUndefined | JNull | JNaN => false
  | JBool b => b
  | JNum q => negb (Qeq_bool q 0)
  | JStr s => str_truthy s
  | JArr _ | JObj _ => true
  end.

Fixpoint lookup (k : string) (ps : list (string * Js)) : Js :=
  match ps with
  | [] => JUndefined
  | (k', v) :: r => if (k' =? k)%string then v else lookup k r
  end.

(** [v.k] (or [v?.k]): [undefined] when [v] has no such own property. *)
Definition get (k : string) (v : Js) : Js :=
  match v with
  | JObj ps => lookup k ps
  | _ => JUndefined
  end.

Fixpoint update (k : string) (x : Js) (ps : list (string * Js))
  : list (string * Js) :=
  match ps with
  | [] => [(k, x)]
  | (k', v) :: r =>
      if (k' =? k)%string then (k, x) :: r else (k', v) :: update k x r
  end.

(** [v.k = x] on an object: the property keeps its place when it
    exists, and is added last when it does not. *)
Definition set (k : string) (x : Js) (v : Js) : Js :=
  match v with
  | JObj ps => JObj (update k x ps)
  | _ => v
  end.

(** [v.length] of an array, [v?.length || 0] otherwise. *)
Definition length_or_0 (v : Js) : nat :=
  match v with
  | JArr l => List.length l
  | _ => 0%nat
  end.

Definition items_of (v : Js) : list Js :=
  match v with
  | JArr l => l
  | _ => []
  end.

Definition is_array (v : Js) : bool :=
  match v with JArr _ => true | _ => false end.

(** [typeof v === 'object' && v !== null] *)
Definition is_object (v : Js) : bool :=
  match v with JArr _ | JObj _ => true | _ => false end.

Definition str_is (s : string) (v : Js) : bool :=
  match v with JStr t => (t =? s)%string | _ => false end.

(** No object inside [v], at any depth, has an own property [k]. *)
Fixpoint lacks_key (k : string) (v : Js) : bool :=
  match v with
  | JObj props =>
      (fix each (l : list (string * Js)) : bool :=
         match l with
         | [] => true
         | (key, value) :: r =>
             negb (key =? k)%string && lacks_key k value && each r
         end) props
  | JArr items =>
      (fix each (l : list Js) : bool :=
         match l with
         | [] => true
         | value :: r => lacks_key k value && each r
         end) items
  | _ => true
  end.

End JsVal.
Import JsVal.

(* ------------------------------------------------------------------ *)
(** ** JSON *)
(* ------------------------------------------------------------------ *)

Module Json.

Definition Z_toString (z : Z) : string := NilZero.string_of_int (Z.to_int z).

(** The digits of [num / den] after the point, [fuel] of them at most. *)
Fixpoint fraction_digits (fuel : nat) (num den : Z) : string :=
  match fuel with
  | O => ""
  | S fuel' =>
      if (num =? 0)%Z then ""
      else Z_toString (num * 10 / den)
           ++ fraction_digits fuel' ((num * 10) mod den) den
  end.

(** A number as [JSON.stringify] writes it: an integer in decimal, any
    other rational with its fraction digits (seventeen at most). *)
Definition Number_toString (q : Q) : string :=
  let n := Qnum q in
  let d := Zpos (Qden q) in
  if (n mod d =? 0)%Z then Z_toString (n / d)
  else
    (if (n <? 0)%Z then "-" else "")
    ++ Z_toString (Z.abs n / d) ++ "."
    ++ fraction_digits 17 (Z.abs n mod d) d.

Definition backslash : string := String (ascii_of_nat 92) EmptyString.

Definition hex_digit (n : nat) : string :=
  String.substring n 1 "0123456789abcdef".

Definition escape_char (c : ascii) : string :=
  let n := nat_of_ascii c in
  if (n =? 34)%nat then backslash ++ dq
  else if (n =? 92)%nat then backslash ++ backslash
  else if (n =? 8)%nat then backslash ++ "b"
  else if (n =? 9)%nat then backslash ++ "t"
  else if (n =? 10)%nat then backslash ++ "n"
  else if (n =? 12)%nat then backslash ++ "f"
  else if (n =? 13)%nat then backslash ++ "r"
  else if (n <? 32)%nat
       then backslash ++ "u00" ++ hex_digit (n / 16) ++ hex_digit (n mod 16)
  else String c EmptyString.

Fixpoint escape (s : string) : string :=
  match s with
  | String c r => escape_char c ++ escape r
  | EmptyString => EmptyString
  end.

Definition quote (s : string) : string := dq ++ escape s ++ dq.

(** [JSON.stringify(v)]; [None] is the [undefined] it returns for
    [undefined]. *)
Fixpoint stringify (v : Js) : option string :=
  match v with
  | JUndefined => None
  | JNull | JNaN => Some "null"
  | JBool true => Some "true"
  | JBool false => Some "false"
  | JNum q => Some (Number_toString q)
  | JStr s => Some (quote s)
  | JArr items =>
      let parts :=
        (fix each (l : list Js) : list string :=
           match l with
           | [] => []
           | x :: r =>
               match stringify x with
               | Some t => t
               | None => "null"
               end :: each r
           end) items in
      Some ("[" ++ String.concat "," parts ++ "]")
  | JObj props =>
      let parts :=
        (fix each (l : list (string * Js)) : list string :=
           match l with
           | [] => []
           | (k, x) :: r =>
               match stringify x with
               | Some t => (quote k ++ ":" ++ t) :: each r
               | None => each r
               end
           end) props in
      Some ("{" ++ String.concat "," parts ++ "}")
  end.

(** [JSON.stringify(v).length] *)
Definition size (v : Js) : nat :=
  match stringify v with
  | Some t => String.length t
  | None => 0%nat
  end.

(** [JSON.parse(JSON.stringify(v))]: the value read back.  Properties
    holding [undefined] are gone, [undefined] and [NaN] in other places
    are [null]. *)
Fixpoint roundtrip (v : Js) : Js :=
  match v with
  | JUndefined | JNaN => JNull
  | JArr items =>
      JArr ((fix each (l : list Js) : list Js :=
               match l with
               | [] => []
               | x :: r => roundtrip x :: each r
               end) items)
  | JObj props =>
      JObj ((fix each (l : list (string * Js)) : list (string * Js) :=
               match l with
               | [] => []
               | (k, JUndefined) :: r => each r
               | (k, x) :: r => (k, roundtrip x) :: each r
               end) props)
  | _ => v
  end.

End Json.

(* ------------------------------------------------------------------ *)
(** ** The visual Elementor converter *)
(* ------------------------------------------------------------------ *)

Module Converter.

(** *** The captured element tree ([mapElement] of the visual scraper) *)

Record Spacing : Type :=
  mkSpacing { top : string; right : string; bottom : string; left : string }.

(** The computed layout of an element, by the properties the converter
    reads.  Computed styles are strings; an absent one is [""]. *)
Record Layout : Type :=
  mkLayout {
      x : Q; y : Q; width : Q; height : Q;
      position : string; display : string;
      backgroundColor : string; backgroundImage : string;
      backgroundSize : string; backgroundPosition : string;
      padding : option Spacing; margin : option Spacing;
      color : string; fontFamily : string; fontSize : string;
      fontWeight : string; lineHeight : string; textAlign : string;
      border : string; borderColor : string; borderRadius : string;
      boxShadow : string; flexDirection : string
    }.

Record Attributes : Type :=
  mkAttributes {
      src : option string; href : option string; alt : option string;
      type_ : option string; value : option string;
      placeholder : option string
    }.

Inductive ElementNode : Type :=
  mkNode {
      tagName : string;
      className : string;
      textContent : string;
      innerHTML : string;
      outerHTML : string;
      attributes : option Attributes;
      layout : option Layout;
      children : option (list ElementNode)
    }.

(** [element.children && element.children.length > 0] *)
Definition kids (element : ElementNode) : list ElementNode :=
  match children element with Some l => l | None => [] end.

(** [attributes?.k || dflt] *)
Definition attr (p : Attributes -> option string) (element : ElementNode)
           (dflt : string) : string :=
  match attributes element with
  | Some a => match p a with
              | Some s => if str_truthy s then s else dflt
              | None => dflt
              end
  | None => dflt
  end.

(** An element as [mapElement] records it: with its computed layout and
    the array of its children, at every depth. *)
Fixpoint captured (element : ElementNode) : bool :=
  match layout element, children element with
  | Some _, Some cs =>
      (fix each (l : list ElementNode) : bool :=
         match l with
         | [] => true
         | c :: r => captured c && each r
         end) cs
  | _, _ => false
  end.

(** *** The converter's state and its random identifiers *)

(** [this.globalColors], [this.globalFonts] (sets, in insertion order),
    and how many times [Math.random] has been called. *)
Record St : Type :=
  mkSt { draws : nat; globalColors : list string; globalFonts : list string }.

(** [new VisualElementorConverter()] *)
Definition constructor : St := mkSt 0 [] [].

Definition M (A : Type) : Type := St -> A * St.

Definition ret {A} (a : A) : M A := fun s => (a, s).

Definition bind {A B} (m : M A) (k : A -> M B) : M B :=
  fun s => let '(a, s') := m s in k a s'.

Notation "x <- m ;; k" := (bind m (fun x => k))
  (at level 61, m at next level, right associativity).

Fixpoint mapM {A B} (f : A -> M B) (l : list A) : M (list B) :=
  match l with
  | [] => ret []
  | a :: r => b <- f a ;; bs <- mapM f r ;; ret (b :: bs)
  end.

Section WithRandom.

(** [random n]: what the [n]-th call of [Math.random()] returns. *)
Variable random : nat -> Q.

Definition Math_random : M Q :=
  fun s => (random (draws s),
            mkSt (S (draws s)) (globalColors s) (globalFonts s)).

Definition chars : string := "abcdefghijklmnopqrstuvwxyz0123456789".

(** [for (let i = 0; i < 8; i++) result += chars.charAt(...)], with
    [n] rounds left. *)
Fixpoint generateElementId_loop (n : nat) (result : string) : M string :=
  match n with
  | O => ret result
  | S n' =>
      r <- Math_random ;;
      generateElementId_loop n'
        (result ++ charAt chars (Math_floor (r * ofnat (String.length chars))))
  end.

Definition generateElementId : M string := generateElementId_loop 8 "".

(** An identifier as the template format wants it: eight characters,
    each a lowercase letter or a digit. *)
Definition id_char (c : ascii) : bool :=
  let n := nat_of_ascii c in
  ((97 <=? n) && (n <=? 122) || (48 <=? n) && (n <=? 57))%nat.

Fixpoint all_chars (p : ascii -> bool) (s : string) : bool :=
  match s with
  | String c r => p c && all_chars p r
  | EmptyString => true
  end.

Definition well_formed_id (s : string) : bool :=
  (String.length s =? 8)%nat && all_chars id_char s.

(** *** Settings synthesis *)

Definition jstr (s : string) : Js := JStr s.
Definition jnum (z : Z) : Js := JNum (inject_Z z).

(** [parseInt(s)], [NaN] included. *)
Definition jint (s : string) : Js :=
  match parseInt s with Some z => jnum z | None => JNaN end.

(** [parseInt(s) || 0] *)
Definition jint_or_0 (s : string) : Js :=
  match parseInt s with Some z => jnum z | None => jnum 0 end.

Definition jfloat (s : string) : Js :=
  match parseFloat s with Some q => JNum q | None => JNaN end.

(** [{...base, k1: v1, ...}] *)
Definition spread (base : Js) (extra : list (string * Js)) : Js :=
  fold_left (fun o kv => set (fst kv) (snd kv) o) extra base.

Definition convertSpacing (spacing : option Spacing) : Js :=
  match spacing with
  | None =>
      JObj [("top", jnum 0); ("right", jnum 0); ("bottom", jnum 0);
            ("left", jnum 0); ("unit", jstr "px")]
  | Some sp =>
      JObj [("top", jint_or_0 (top sp)); ("right", jint_or_0 (right sp));
            ("bottom", jint_or_0 (bottom sp)); ("left", jint_or_0 (left sp));
            ("unit", jstr "px"); ("isLinked", JBool false)]
  end.

Definition skip (n : nat) (s : string) : string :=
  String.substring n (String.length s - n) s.

Definition is_quote (c : ascii) : bool :=
  let n := nat_of_ascii c in ((n =? 39) || (n =? 34))%nat.

(** The longest prefix without a quote, and what follows it. *)
Fixpoint unquoted_run (s : string) : string * string :=
  match s with
  | String c r =>
      if is_quote c then ("", s)
      else let '(a, b) := unquoted_run r in (String c a, b)
  | EmptyString => ("", "")
  end.

(** The part of [s] before its last closing parenthesis that is not
    its first character, if there is one. *)
Fixpoint before_last_paren (first : bool) (s : string) : option string :=
  match s with
  | String c r =>
      match before_last_paren false r with
      | Some p => Some (String c p)
      | None =>
          if negb first && (nat_of_ascii c =? 41)%nat then Some "" else None
      end
  | EmptyString => None
  end.

(** The background-image pattern of [extractImageUrl]: the text url,
    an opening parenthesis, an optional quote, one or more characters
    that are not quotes (the group), an optional quote, a closing
    parenthesis.  [url_group s] is the group when the pattern matches
    with [s] following the opening parenthesis. *)
Definition url_group (s : string) : option string :=
  let s := match s with
           | String c r => if is_quote c then r else s
           | EmptyString => s
           end in
  let '(run, rest) := unquoted_run s in
  let closes :=
    String.prefix ")" rest ||
    match rest with
    | String c r => is_quote c && String.prefix ")" r
    | EmptyString => false
    end in
  if str_truthy run && closes then Some run
  else before_last_paren true run.

Fixpoint url_match (s : string) : option string :=
  match (if String.prefix "url(" s then url_group (skip 4 s) else None) with
  | Some g => Some g
  | None => match s with
            | String _ r => url_match r
            | EmptyString => None
            end
  end.

Definition extractImageUrl (backgroundImage : string) : option string :=
  if negb (str_truthy backgroundImage) || (backgroundImage =? "none")%string
  then None
  else url_match backgroundImage.

(** [\w] *)
Definition is_word (c : ascii) : bool :=
  let n := nat_of_ascii c in
  ((48 <=? n) && (n <=? 57) || (65 <=? n) && (n <=? 90) ||
   (97 <=? n) && (n <=? 122) || (n =? 95))%nat.

Definition word_here (s : string) (w : string) : bool :=
  String.prefix w (toLowerCase s) &&
  match skip (String.length w) s with
  | String c _ => negb (is_word c)
  | EmptyString => true
  end.

(** [/\b(btn|button|cta|call-to-action)\b/i.test(s)] *)
Fixpoint button_class (after_word : bool) (s : string) : bool :=
  (negb after_word &&
   existsb (word_here s) ["btn"; "button"; "cta"; "call-to-action"]) ||
  match s with
  | String c r => button_class (is_word c) r
  | EmptyString => false
  end.

Definition gt_int (s : string) (n : Z) : bool :=
  match parseInt s with Some z => (n <? z)%Z | None => false end.

Definition isButtonLike (element : ElementNode) : bool :=
  if str_truthy (className element) && button_class false (className element)
  then true
  else
    match layout element with
    | Some l =>
        let hasBackground :=
          str_truthy (backgroundColor l) &&
          negb (backgroundColor l =? "rgba(0, 0, 0, 0)")%string in
        let hasPadding :=
          match padding l with
          | Some p => gt_int (top p) 5 || gt_int (left p) 10
          | None => false
          end in
        let hasBorder :=
          str_truthy (border l) && negb (border l =? "none")%string in
        let hasRadius :=
          str_truthy (borderRadius l) && gt_int (borderRadius l) 0 in
        (hasBackground && hasPadding) || hasBorder || hasRadius
    | None => false
    end.

Definition visible_color (c : string) : bool :=
  str_truthy c && negb (c =? "rgba(0, 0, 0, 0)")%string.

Definition radius_box (r : string) : Js :=
  JObj [("top", jint_or_0 r); ("right", jint_or_0 r);
        ("bottom", jint_or_0 r); ("left", jint_or_0 r); ("unit", jstr "px")].

(** Add [extra] to the settings when [cond] holds. *)
Definition when (cond : bool) (extra : list (string * Js)) (settings : Js) : Js :=
  if cond then spread settings extra else settings.

Definition or_default (s dflt : string) : string :=
  if str_truthy s then s else dflt.

Definition sectionSettings (l : option Layout) : Js :=
  let settings :=
    JObj [("content_width", jstr "boxed"); ("height", jstr "default");
          ("structure", jstr "10")] in
  match l with
  | None => settings
  | Some l =>
      let settings :=
        when (visible_color (backgroundColor l))
             [("background_background", jstr "classic");
              ("background_color", jstr (backgroundColor l))] settings in
      let settings :=
        if str_truthy (backgroundImage l) &&
           negb (backgroundImage l =? "none")%string
        then
          let settings := set "background_background" (jstr "classic") settings in
          match extractImageUrl (backgroundImage l) with
          | Some imageUrl =>
              if str_truthy imageUrl then
                spread settings
                  [("background_image", JObj [("url", jstr imageUrl)]);
                   ("background_size",
                    jstr (or_default (backgroundSize l) "cover"));
                   ("background_position",
                    jstr (or_default (backgroundPosition l) "center center"))]
              else settings
          | None => settings
          end
        else settings in
      let settings :=
        spread settings [("padding", convertSpacing (padding l));
                         ("margin", convertSpacing (margin l))] in
      when (negb (Qeq_bool (height l) 0) && (100 <? parseInt_num (height l))%Z)
           [("height", jstr "min-height");
            ("custom_height",
             JObj [("size", jnum (parseInt_num (height l)));
                   ("unit", jstr "px")])] settings
  end.

Definition createSection (element : ElementNode) : M Js :=
  let settings := sectionSettings (layout element) in
  id <- generateElementId ;;
  ret (JObj [("id", jstr id); ("elType", jstr "section");
             ("settings", settings); ("elements", JArr []);
             ("isInner", JBool false)]).

Definition columnSettings (l : option Layout) : Js :=
  let settings := JObj [("_column_size", jnum 100); ("_inline_size", JNull)] in
  match l with
  | None => settings
  | Some l =>
      let settings :=
        when (visible_color (backgroundColor l))
             [("background_background", jstr "classic");
              ("background_color", jstr (backgroundColor l))] settings in
      let settings :=
        spread settings [("padding", convertSpacing (padding l));
                         ("margin", convertSpacing (margin l))] in
      let settings :=
        when (str_truthy (border l) && negb (border l =? "none")%string)
             [("border_border", jstr "solid");
              ("border_width",
               JObj [("top", jnum 1); ("right", jnum 1); ("bottom", jnum 1);
                     ("left", jnum 1); ("unit", jstr "px")]);
              ("border_color", jstr (or_default (borderColor l) "#000000"))]
             settings in
      when (str_truthy (borderRadius l) &&
            negb (borderRadius l =? "0px")%string)
           [("border_radius", radius_box (borderRadius l))] settings
  end.

(** [createColumn(element)] reads [element.layout] only. *)
Definition createColumn (l : option Layout) : M Js :=
  let settings := columnSettings l in
  id <- generateElementId ;;
  ret (JObj [("id", jstr id); ("elType", jstr "column");
             ("settings", settings); ("elements", JArr []);
             ("isInner", JBool false)]).

Definition createDefaultColumn : M Js :=
  id <- generateElementId ;;
  ret (JObj [("id", jstr id); ("elType", jstr "column");
             ("settings",
              JObj [("_column_size", jnum 100); ("_inline_size", JNull)]);
             ("elements", JArr [])]).

Definition createDefaultSection : M Js :=
  id <- generateElementId ;;
  column <- createDefaultColumn ;;
  ret (JObj [("id", jstr id); ("elType", jstr "section");
             ("settings", JObj [("content_width", jstr "boxed")]);
             ("elements", JArr [column])]).

(** The common styling [createWidget] puts into [baseSettings]. *)
Definition baseStyling (l : option Layout) (baseSettings : Js) : Js :=
  match l with
  | None => baseSettings
  | Some l =>
      let b := when (str_truthy (color l)) [("color", jstr (color l))]
                    baseSettings in
      let b := when (visible_color (backgroundColor l))
                    [("background_background", jstr "classic");
                     ("background_color", jstr (backgroundColor l))] b in
      let b := when (str_truthy (fontFamily l))
                    [("typography_typography", jstr "custom");
                     ("typography_font_family", jstr (fontFamily l))] b in
      let b := when (str_truthy (fontSize l))
                    [("typography_font_size",
                      JObj [("size", jint (fontSize l)); ("unit", jstr "px")])] b in
      let b := when (str_truthy (fontWeight l))
                    [("typography_font_weight", jstr (fontWeight l))] b in
      let b := when (str_truthy (lineHeight l))
                    [("typography_line_height",
                      JObj [("size", jfloat (lineHeight l));
                            ("unit", jstr "em")])] b in
      let b := when (str_truthy (textAlign l))
                    [("align", jstr (textAlign l))] b in
      let b := spread b [("padding", convertSpacing (padding l));
                         ("margin", convertSpacing (margin l))] in
      let b := when (str_truthy (borderRadius l) &&
                     negb (borderRadius l =? "0px")%string)
                    [("border_radius", radius_box (borderRadius l))] b in
      when (str_truthy (boxShadow l) && negb (boxShadow l =? "none")%string)
           [("box_shadow_box_shadow", jstr (boxShadow l))] b
  end.

Definition reconstructListHTML (element : ElementNode) : string :=
  match children element with
  | None => ""
  | Some cs =>
      let items :=
        String.concat "" (map (fun child => "<li>" ++ textContent child ++ "</li>") cs) in
      "<" ++ tagName element ++ ">" ++ items ++ "</" ++ tagName element ++ ">"
  end.

(** The first of the strings that is not empty, else [dflt]. *)
Fixpoint first_truthy (l : list string) (dflt : string) : string :=
  match l with
  | [] => dflt
  | s :: r => if str_truthy s then s else first_truthy r dflt
  end.

Definition widget (widgetType : string) (baseSettings : Js)
           (extra : list (string * Js)) : M (option Js) :=
  id <- generateElementId ;;
  ret (Some (JObj [("id", jstr id); ("elType", jstr "widget");
                   ("widgetType", jstr widgetType);
                   ("settings", spread baseSettings extra)])).

Definition tag_wrap (tag body : string) : string :=
  "<" ++ tag ++ ">" ++ body ++ "</" ++ tag ++ ">".

Definition has_attr (p : Attributes -> option string) (element : ElementNode)
  : bool :=
  str_truthy (attr p element "").

(** [createWidget(element)] for an element that is not [null]; [None]
    is the [null] it returns when the element converts to no widget. *)
Definition createWidget (element : ElementNode) : M (option Js) :=
  let tagName := tagName element in
  let textContent := textContent element in
  let innerHTML := innerHTML element in
  eid <- generateElementId ;;
  let baseSettings :=
    baseStyling (layout element) (JObj [("_element_id", jstr eid)]) in
  let rich := str_truthy innerHTML && str_truthy (trim innerHTML) in
  if mem tagName ["h1"; "h2"; "h3"; "h4"; "h5"; "h6"] then
    widget "heading" baseSettings
           [("title", jstr (or_default textContent "Heading"));
            ("header_size", jstr tagName); ("size", jstr "default")]
  else if (tagName =? "img")%string then
    widget "image" baseSettings
           [("image", if has_attr src element
                      then JObj [("url", jstr (attr src element ""))]
                      else JObj []);
            ("image_size", jstr "full");
            ("caption", jstr (attr alt element ""));
            ("align", jstr "center")]
  else if (tagName =? "a")%string then
    if isButtonLike element then
      widget "button" baseSettings
             [("text", jstr (or_default textContent "Click here"));
              ("link", if has_attr href element
                       then JObj [("url", jstr (attr href element ""));
                                  ("is_external", JBool true)]
                       else JObj []);
              ("size", jstr "md"); ("button_type", jstr "success")]
    else
      widget "text-editor" baseSettings
             [("editor",
               jstr ("<a href=" ++ dq ++ attr href element "#" ++ dq ++ ">" ++
                     or_default textContent "Link" ++ "</a>"))]
  else if mem tagName ["p"; "span"; "div"] then
    let content := if rich then innerHTML else textContent in
    if str_truthy content && str_truthy (trim content) then
      widget "text-editor" baseSettings
             [("editor",
               jstr (if rich then innerHTML else tag_wrap tagName textContent))]
    else ret None
  else if (tagName =? "form")%string then
    widget "html" baseSettings
           [("html", jstr (first_truthy [outerHTML element; innerHTML]
                                        (tag_wrap "form" textContent)));
            ("title", jstr "Form Element")]
  else if mem tagName ["input"; "textarea"; "select"] then
    let inputType := attr type_ element "text" in
    let placeholder := attr placeholder element "" in
    let value := attr value element "" in
    if mem inputType ["submit"; "button"] then
      widget "button" baseSettings
             [("text", jstr (first_truthy [value; textContent] "Submit"));
              ("size", jstr "md"); ("button_type", jstr "primary")]
    else
      widget "html" baseSettings
             [("html",
               jstr (or_default (outerHTML element)
                       ("<" ++ tagName ++ " type=" ++ dq ++ inputType ++ dq ++
                        " placeholder=" ++ dq ++ placeholder ++ dq ++
                        " value=" ++ dq ++ value ++ dq ++ " />")));
              ("title", jstr (toUpperCase tagName ++ " Field"))]
  else if mem tagName ["video"; "iframe"] then
    let videoSrc := attr src element "" in
    let youtube := includes "youtube" videoSrc in
    let vimeo := includes "vimeo" videoSrc in
    if youtube || vimeo then
      widget "video" baseSettings
             [("video_type", jstr (if youtube then "youtube" else "vimeo"));
              ("youtube_url", jstr (if youtube then videoSrc else ""));
              ("vimeo_url", jstr (if vimeo then videoSrc else ""));
              ("aspect_ratio", jstr "169")]
    else
      widget "html" baseSettings
             [("html",
               jstr (first_truthy [outerHTML element; innerHTML]
                       ("<" ++ tagName ++ " src=" ++ dq ++ videoSrc ++ dq ++
                        "></" ++ tagName ++ ">")));
              ("title", jstr "Video/Media Element")]
  else if mem tagName ["ul"; "ol"] then
    widget "text-editor" baseSettings
           [("editor", jstr (reconstructListHTML element))]
  else if (tagName =? "button")%string then
    widget "button" baseSettings
           [("text", jstr (or_default textContent "Button"));
            ("size", jstr "md"); ("button_type", jstr "primary")]
  else if mem tagName ["table"; "tbody"; "thead"; "tr"; "td"; "th"] then
    widget "html" baseSettings
           [("html", jstr (first_truthy [outerHTML element; innerHTML]
                                        (tag_wrap tagName textContent)));
            ("title", jstr "Table Element")]
  else if (tagName =? "svg")%string then
    widget "html" baseSettings
           [("html", jstr (first_truthy [outerHTML element; innerHTML]
                                        (tag_wrap tagName textContent)));
            ("title", jstr "SVG Icon")]
  else if mem tagName ["nav"; "menu"] then
    widget "nav-menu" baseSettings
           [("layout", jstr "horizontal"); ("pointer", jstr "underline")]
  else
    let hasContent :=
      rich || (str_truthy textContent && str_truthy (trim textContent)) in
    let isStructural :=
      mem tagName ["section"; "header"; "footer"; "article"; "aside"; "main"] in
    if hasContent || isStructural then
      widget "html" baseSettings
             [("html", jstr (first_truthy [outerHTML element; innerHTML]
                                          (tag_wrap tagName textContent)));
              ("title", jstr (toUpperCase tagName ++ " Element"))]
    else ret None.

(** *** Columns *)

Record LayoutAnalysis : Type :=
  mkAnalysis {
      totalWidth : Q;
      averageWidth : Q;
      hasFlexLayout : bool;
      hasGridLayout : bool;
      positionBreaks : list nat
    }.

Definition positioned (l : Layout) : bool :=
  mem (position l) ["absolute"; "fixed"].

Fixpoint analyze_from (index : nat) (cs : list ElementNode)
         (a : LayoutAnalysis) : LayoutAnalysis :=
  match cs with
  | [] => a
  | child :: r =>
      let a :=
        match layout child with
        | Some l =>
            mkAnalysis (totalWidth a + width l) (averageWidth a)
                       (hasFlexLayout a || (display l =? "flex")%string)
                       (hasGridLayout a || (display l =? "grid")%string)
                       (if positioned l
                        then (positionBreaks a ++ [index])%list
                        else positionBreaks a)
        | None => a
        end in
      analyze_from (S index) r a
  end.

Definition analyzeChildrenLayout (children : list ElementNode)
  : LayoutAnalysis :=
  let a := analyze_from 0 children (mkAnalysis 0 0 false false []) in
  mkAnalysis (totalWidth a)
             (if (0 <? List.length children)%nat
              then totalWidth a / ofnat (List.length children) else 0)
             (hasFlexLayout a) (hasGridLayout a) (positionBreaks a).

Definition shouldStartNewColumn (child : ElementNode)
           (currentChildren : list ElementNode)
           (layoutAnalysis : LayoutAnalysis) : bool :=
  match currentChildren with
  | [] => false
  | _ =>
      if match layout child with Some l => positioned l | None => false end
      then true
      else if mem (tagName child)
                  ["section"; "header"; "footer"; "main"; "article"; "aside"]
      then true
      else
        match layout child with
        | Some l =>
            let isWideElement :=
              Qlt_bool (averageWidth layoutAnalysis * (15 # 10)) (width l) in
            if isWideElement then true
            else if hasFlexLayout layoutAnalysis || hasGridLayout layoutAnalysis
            then
              match layout (last currentChildren child) with
              | Some pl => Qlt_bool (y pl + height pl) (y l)
              | None => false
              end
            else false
        | None => false
        end
  end.

Fixpoint somes {A} (l : list (option A)) : list A :=
  match l with
  | [] => []
  | Some a :: r => a :: somes r
  | None :: r => somes r
  end.

(** Close the column that holds [currentColumnChildren]: it is kept
    when at least one of them converts to a widget. *)
Definition closeColumn (currentColumnChildren : list ElementNode)
           (columns : list Js) : M (list Js) :=
  column <- createColumn None ;;
  ws <- mapM createWidget currentColumnChildren ;;
  let widgets := somes ws in
  ret (if (0 <? List.length widgets)%nat
       then (columns ++ [set "elements" (JArr widgets) column])%list
       else columns).

Fixpoint groupChildren (cs : list ElementNode) (layoutAnalysis : LayoutAnalysis)
         (columns : list Js) (currentColumnChildren : list ElementNode)
  : M (list Js * list ElementNode) :=
  match cs with
  | [] => ret (columns, currentColumnChildren)
  | child :: r =>
      if shouldStartNewColumn child currentColumnChildren layoutAnalysis &&
         (0 <? List.length currentColumnChildren)%nat
      then
        columns <- closeColumn currentColumnChildren columns ;;
        groupChildren r layoutAnalysis columns [child]
      else
        groupChildren r layoutAnalysis columns
                      (currentColumnChildren ++ [child])%list
  end.

Definition is_media (w : Js) : bool :=
  str_is "image" (get "widgetType" w) || str_is "video" (get "widgetType" w).

Definition is_formlike (w : Js) : bool :=
  str_is "html" (get "widgetType" w) &&
  match get "html" (get "settings" w) with
  | JStr h => includes "<form" h || includes "<input" h
  | _ => false
  end.

(** The content weight of a column. *)
Definition contentWeight (column : Js) : Q :=
  let elements := items_of (get "elements" column) in
  let weight := 1 + ofnat (List.length elements) * (2 # 10) in
  let weight := if existsb is_media elements then weight + (5 # 10) else weight in
  if existsb is_formlike elements then weight + (3 # 10) else weight.

Definition Qsum (l : list Q) : Q := fold_left Qplus l 0.

(** [column.settings._column_size = width; column.settings._inline_size = null] *)
Definition setColumnSize (width : Z) (column : Js) : Js :=
  set "settings"
      (spread (get "settings" column)
              [("_column_size", jnum width); ("_inline_size", JNull)])
      column.

Definition proportionalWidth (weight totalWeight : Q) : Z :=
  Z.max 15 (Z.min 70 (Math_round (weight / totalWeight * 100))).

(** The [columns.map] that assigns the widths, [usedWidth] being the
    widths given so far. *)
Fixpoint assignWidths (columns : list Js) (contentWeights : list Q)
         (totalWeight : Q) (usedWidth : Z) : list Js :=
  match columns, contentWeights with
  | [column], _ => [setColumnSize (100 - usedWidth) column]
  | column :: rest, w :: ws =>
      let width := proportionalWidth w totalWeight in
      setColumnSize width column
                    :: assignWidths rest ws totalWeight (usedWidth + width)
  | _, _ => []
  end.

Definition calculateIntelligentColumnWidths (columns : list Js) : list Js :=
  match columns with
  | [] => []
  | [column] => [setColumnSize 100 column]
  | _ =>
      let contentWeights := map contentWeight columns in
      let totalWeight := Qsum contentWeights in
      assignWidths columns contentWeights totalWeight 0
  end.

Definition createColumnsFromChildren (children : list ElementNode)
  : M (list Js) :=
  match children with
  | [] => c <- createDefaultColumn ;; ret [c]
  | _ =>
      let layoutAnalysis := analyzeChildrenLayout children in
      st <- groupChildren children layoutAnalysis [] [] ;;
      let '(columns, currentColumnChildren) := st in
      columns <- (if (0 <? List.length currentColumnChildren)%nat
                  then closeColumn currentColumnChildren columns
                  else ret columns) ;;
      match columns with
      | [] => c <- createDefaultColumn ;; ret [c]
      | _ => ret (calculateIntelligentColumnWidths columns)
      end
  end.

(** [column.settings._column_size], read back. *)
Definition columnSize (column : Js) : Js :=
  get "_column_size" (get "settings" column).

(** An object whose [settings] is an object, as [createColumn] and
    [createDefaultColumn] build them. *)
Definition is_column (column : Js) : bool :=
  match column with
  | JObj ps => match lookup "settings" ps with JObj _ => true | _ => false end
  | _ => false
  end.

Definition Zsum (l : list Z) : Z := fold_right Z.add 0%Z l.

(** *** Classification *)

Definition nonblank (s : string) : bool :=
  str_truthy s && str_truthy (trim s).

Definition determineElementorType (element : ElementNode) (parentType : string)
  : string :=
  let tagName := tagName element in
  let children := kids element in
  let hasMultipleChildren := (2 <? List.length children)%nat in
  let from_body :=
    if (parentType =? "body")%string then
      let isStructuralElement :=
        mem tagName ["section"; "header"; "footer"; "main"; "article";
                     "nav"; "aside"] in
      let isLargeContainer :=
        match layout element with
        | Some l => Qlt_bool 200 (height l) && Qlt_bool 300 (width l)
        | None => false
        end in
      if isStructuralElement || isLargeContainer || hasMultipleChildren
      then true
      else if (tagName =? "div")%string then
        let isFlexContainer :=
          match layout element with
          | Some l => mem (display l) ["flex"; "grid"]
          | None => false
          end in
        let hasLayoutChildren :=
          existsb (fun child =>
                     match layout child with
                     | Some l => Qlt_bool 100 (width l)
                     | None => false
                     end) children in
        isFlexContainer || hasLayoutChildren || hasMultipleChildren
      else false
    else false in
  if from_body then "section"
  else if (parentType =? "section")%string &&
          ((0 <? List.length children)%nat ||
           (nonblank (textContent element) || nonblank (innerHTML element)) ||
           mem tagName ["div"; "article"; "aside"; "section"])
  then "column"
  else if (parentType =? "column")%string then "widget"
  else if (List.length children =? 0)%nat then "widget"
  else if (parentType =? "body")%string then
    let hasSubstantialContent :=
      (50 <? String.length (textContent element))%nat ||
      (1 <? List.length children)%nat in
    if hasSubstantialContent then "section" else "widget"
  else if (parentType =? "section")%string then "column"
  else "widget".

(** [.filter(Boolean)] on the results of [processElement]. *)
Definition truthy_only (l : list Js) : list Js := filter truthy l.

Definition of_option (o : option Js) : Js :=
  match o with Some v => v | None => JNull end.

(** [processElement(element, parentType, depth)]: a section, a column,
    a widget, an array of them, or [null]. *)
Fixpoint processElement (element : ElementNode) (parentType : string)
         (depth : nat) {struct element} : M Js :=
  if (30 <? depth)%nat then ret JNull
  else
    let elementType := determineElementorType element parentType in
    let each (childType : string) :=
      (fix each (cs : list ElementNode) : M (list Js) :=
         match cs with
         | [] => ret []
         | c :: r =>
             v <- processElement c childType (S depth) ;;
             vs <- each r ;;
             ret (v :: vs)
         end) in
    if (elementType =? "section")%string then
      section <- createSection element ;;
      match kids element with
      | [] => ret section
      | cs =>
          columns <- createColumnsFromChildren cs ;;
          ret (set "elements" (JArr columns) section)
      end
    else if (elementType =? "column")%string then
      column <- createColumn (layout element) ;;
      match children element with
      | Some (c :: r) =>
          results <- each "column" (c :: r) ;;
          ret (set "elements" (JArr (truthy_only results)) column)
      | _ => ret column
      end
    else if (elementType =? "widget")%string then
      w <- createWidget element ;;
      ret (of_option w)
    else
      match children element with
      | Some (c :: r) =>
          results <- each parentType (c :: r) ;;
          match truthy_only results with
          | [one] => ret one
          | childResults => ret (JArr childResults)
          end
      | _ => ret JNull
      end.

(** [sections.push(...result)] or [sections.push(result)] *)
Definition pushResult (sections : list Js) (result : Js) : list Js :=
  if truthy result then
    match result with
    | JArr items => (sections ++ items)%list
    | _ => (sections ++ [result])%list
    end
  else sections.

Fixpoint processChildren (cs : list ElementNode) (sections : list Js)
  : M (list Js) :=
  match cs with
  | [] => ret sections
  | child :: r =>
      result <- processElement child "body" 0 ;;
      processChildren r (pushResult sections result)
  end.

(** [sections.map(...)]: a section without columns gets a default one. *)
Definition ensureColumns (section : Js) : M Js :=
  if str_is "section" (get "elType" section) &&
     match get "elements" section with
     | JArr l => (List.length l =? 0)%nat
     | v => negb (truthy v)
     end
  then c <- createDefaultColumn ;; ret (set "elements" (JArr [c]) section)
  else ret section.

(** *** The object handed to [buildElementorFromVisual] *)

Definition spacing_js (sp : option Spacing) : Js :=
  match sp with
  | Some sp => JObj [("top", jstr (top sp)); ("right", jstr (right sp));
                     ("bottom", jstr (bottom sp)); ("left", jstr (left sp))]
  | None => JUndefined
  end.

Definition layout_js (l : Layout) : Js :=
  JObj [("x", JNum (x l)); ("y", JNum (y l)); ("width", JNum (width l));
        ("height", JNum (height l)); ("position", jstr (position l));
        ("display", jstr (display l));
      ("flexDirection", jstr (flexDirection l));
        ("margin", spacing_js (margin l)); ("padding", spacing_js (padding l));
        ("backgroundColor", jstr (backgroundColor l));
        ("backgroundImage", jstr (backgroundImage l));
        ("backgroundSize", jstr (backgroundSize l));
        ("backgroundPosition", jstr (backgroundPosition l));
        ("borderRadius", jstr (borderRadius l));
        ("boxShadow", jstr (boxShadow l)); ("border", jstr (border l));
        ("borderColor", jstr (borderColor l));
        ("fontSize", jstr (fontSize l)); ("fontFamily", jstr (fontFamily l));
        ("fontWeight", jstr (fontWeight l));
        ("lineHeight", jstr (lineHeight l));
        ("textAlign", jstr (textAlign l)); ("color", jstr (color l))].

Definition opt_js (o : option string) : Js :=
  match o with Some s => jstr s | None => JUndefined end.

Definition attributes_js (a : Attributes) : Js :=
  JObj [("src", opt_js (src a)); ("href", opt_js (href a));
        ("alt", opt_js (alt a)); ("type", opt_js (type_ a));
        ("value", opt_js (value a)); ("placeholder", opt_js (placeholder a))].

(** A captured element as the plain object it is. *)
Fixpoint node_js (n : ElementNode) : Js :=
  JObj [("tagName", jstr (tagName n)); ("className", jstr (className n));
        ("textContent", jstr (textContent n));
        ("innerHTML", jstr (innerHTML n)); ("outerHTML", jstr (outerHTML n));
        ("attributes",
         match attributes n with Some a => attributes_js a | None => JUndefined end);
        ("layout",
         match layout n with Some l => layout_js l | None => JUndefined end);
        ("children",
         match children n with
         | Some cs =>
             JArr ((fix each (l : list ElementNode) : list Js :=
                      match l with
                      | [] => []
                      | c :: r => node_js c :: each r
                      end) cs)
         | None => JUndefined
         end)].

(** What [buildElementorFromVisual] is given: the captured tree itself,
    or an object with plain properties [own] (such as
    [elementorStructure], [completeHTML], [styles], [url], [assets],
    none of them named [structure], [children] or [tagName]) and,
    possibly, the captured tree under [structure]. *)
Inductive VisualStructure : Type :=
| Tree (root : ElementNode)
| Captured (own : list (string * Js)) (structure : option ElementNode).

Definition visual_js (v : VisualStructure) : Js :=
  match v with
  | Tree root => node_js root
  | Captured own (Some n) => JObj (own ++ [("structure", node_js n)])%list
  | Captured own None => JObj own
  end.

Fixpoint findElementorStructure (obj : Js) : Js :=
  match obj with
  | JObj ps =>
      if truthy (lookup "elementorStructure" ps)
      then lookup "elementorStructure" ps
      else if match lookup "elements" ps with
              | JArr l => (0 <? List.length l)%nat
              | _ => false
              end
      then obj
      else
        (fix search (l : list (string * Js)) : Js :=
           match l with
           | [] => JNull
           | (_, value) :: r =>
               if is_object value then
                 let found := findElementorStructure value in
                 if truthy found then found else search r
               else search r
           end) ps
  | JArr items =>
      (fix search (l : list Js) : Js :=
         match l with
         | [] => JNull
         | value :: r =>
             if is_object value then
               let found := findElementorStructure value in
               if truthy found then found else search r
             else search r
         end) items
  | _ => JNull
  end.

(** The pre-built sections [buildElementorFromVisual] returns as they
    are, when the search finds some. *)
Definition preBuiltSections (visualStructure : VisualStructure)
  : option (list Js) :=
  let elementorStructure := findElementorStructure (visual_js visualStructure) in
  if truthy elementorStructure && truthy (get "elements" elementorStructure)
  then match get "elements" elementorStructure with
       | JArr (s :: r) => Some (s :: r)
       | _ => None
       end
  else None.

(** The walk over the top level of the raw structure: the sections (and
    top-level widgets) it yields. *)
Definition topLevelWalk (vs : VisualStructure) : M (list Js) :=
  let actualStructure :=
    match vs with
    | Tree root => Some root
    | Captured _ s => s
    end in
  match actualStructure with
  | Some a =>
      match children a with
      | Some (c :: r) => processChildren (c :: r) []
      | _ =>
          if str_truthy (tagName a) then
            result <- processElement a "body" 0 ;;
            ret (pushResult [] result)
          else ret []
      end
  | None => ret []
  end.

Definition buildElementorFromVisual (visualStructure : option VisualStructure)
  : M (list Js) :=
  match visualStructure with
  | None => ret []
  | Some vs =>
      match preBuiltSections vs with
      | Some sections => ret sections
      | None =>
          sections <- topLevelWalk vs ;;
          sections <-
            match sections with
            | [] => s <- createDefaultSection ;; ret [s]
            | _ => ret sections
            end ;;
          mapM ensureColumns sections
      end
  end.

(** What the properties read in the content list. *)
Definition isSection (element : Js) : bool :=
  str_is "section" (get "elType" element).

Definition isColumn (element : Js) : bool :=
  str_is "column" (get "elType" element).

(** What [processElement] returns is no array, and when it is a section
    its [elements] is an array. *)
Definition shaped (element : Js) : bool :=
  negb (is_array element) &&
  implb (isSection element) (is_array (get "elements" element)).

(** [element.elements] is an array with at least one item. *)
Definition hasElements (element : Js) : bool :=
  match get "elements" element with
  | JArr (_ :: _) => true
  | _ => false
  end.

(** *** Page settings and the document *)

Record Assets : Type :=
  mkAssets {
      colors : option (list string);
      fonts : option (list string);
      gradients : option (list string)
    }.

(** [Set.prototype.add] *)
Definition add (s : string) (set : list string) : list string :=
  if mem s set then set else (set ++ [s])%list.

Definition keep_color (color : string) : bool :=
  str_truthy color && negb (color =? "transparent")%string &&
  negb (color =? "rgba(0, 0, 0, 0)")%string.

Definition keep_font (font : string) : bool :=
  str_truthy font && negb (font =? "inherit")%string.

Definition add_all (keep : string -> bool) (l : list string)
           (set : list string) : list string :=
  fold_left (fun acc s => if keep s then add s acc else acc) l set.

Definition extractGlobalAssets (assets : option Assets) : M unit :=
  fun s =>
    match assets with
    | None => (tt, s)
    | Some a =>
        let cs := match colors a with
                  | Some l => add_all keep_color l (globalColors s)
                  | None => globalColors s
                  end in
        let fs := match fonts a with
                  | Some l => add_all keep_font l (globalFonts s)
                  | None => globalFonts s
                  end in
        (tt, mkSt (draws s) cs fs)
    end.

Definition get_state : M St := fun s => (s, s).

(** [.map((x, index) => f x index)] in the monad. *)
Fixpoint mapi_from {A B} (index : nat) (f : A -> nat -> M B) (l : list A)
  : M (list B) :=
  match l with
  | [] => ret []
  | a :: r => b <- f a index ;; bs <- mapi_from (S index) f r ;; ret (b :: bs)
  end.

Definition nat_toString (n : nat) : string := Json.Z_toString (Z.of_nat n).

Definition buildPageSettings : M Js :=
  s <- get_state ;;
  custom_colors <-
    mapi_from 0 (fun color index =>
                   id <- generateElementId ;;
                   ret (JObj [("_id", jstr id);
                              ("title", jstr ("Color " ++ nat_toString (index + 1)));
                              ("color", jstr color)]))
              (firstn 8 (globalColors s)) ;;
  custom_fonts <-
    mapi_from 0 (fun font index =>
                   id <- generateElementId ;;
                   ret (JObj [("_id", jstr id);
                              ("title", jstr ("Font " ++ nat_toString (index + 1)));
                              ("font_family", jstr font);
                              ("font_weight", jstr "400")]))
              (firstn 6 (globalFonts s)) ;;
  system_colors <-
    mapM (fun tc =>
            id <- generateElementId ;;
            ret (JObj [("_id", jstr id); ("title", jstr (fst tc));
                       ("color", jstr (snd tc))]))
         [("Primary", "#6ec1e4"); ("Secondary", "#54595f");
          ("Text", "#7a7a7a"); ("Accent", "#61ce70")] ;;
  ret (JObj [("template", jstr "elementor_canvas");
             ("custom_colors", JArr custom_colors);
             ("custom_fonts", JArr custom_fonts);
             ("system_colors", JArr system_colors)]).

(** [responsiveLayouts]: only whether there is one is read. *)
Definition buildResponsiveSettings (responsiveLayouts : bool)
  : list (string * Js) :=
  if responsiveLayouts
  then [("viewport_mobile", jnum 767); ("viewport_tablet", jnum 1024)]
  else [].

Definition nl : string := String (ascii_of_nat 10) EmptyString.

Definition essentialCSS : string :=
  nl ++ "/* Essential responsive CSS only */" ++ nl ++
  ".elementor-widget:hover { transition: all 0.3s ease; }" ++ nl ++
  ".elementor-widget-image img { max-width: 100%; height: auto; }" ++ nl ++
  "@media (max-width: 768px) {" ++ nl ++
  "  .elementor-section { padding: 15px 10px; }" ++ nl ++
  "}" ++ nl.

Fixpoint gradientCSS (index : nat) (l : list string) : string :=
  match l with
  | [] => ""
  | gradient :: r =>
      ".custom-gradient-" ++ nat_toString index ++ " { background: " ++
      gradient ++ "; }" ++ nl ++ gradientCSS (S index) r
  end.

Definition buildOptimizedCSS (assets : option Assets) : string :=
  let customCSS :=
    match assets with
    | Some a => match gradients a with
                | Some l => gradientCSS 0 (firstn 3 l)
                | None => ""
                end
    | None => ""
    end in
  trim (customCSS ++ essentialCSS).

Definition countTotalElements (content : list Js) : nat :=
  fold_left
    (fun count section =>
       fold_left
         (fun count column =>
            (count + 1 + length_or_0 (get "elements" column))%nat)
         (items_of (get "elements" section)) (count + 1)%nat)
    content 0%nat.

(** *** Size governance *)

(** The keys [cleanContent] drops. *)
Definition purged (key : string) : bool :=
  mem key ["completeHTML"; "fallback_html"; "original_assets"; "outerHTML";
           "innerHTML"; "styles"; "allAttributes"; "data-*"] ||
  includes "HTML" key.

(** A string [cleanContent] replaces by the placeholder. *)
Definition largeMarkup (limit : nat) (v : Js) : bool :=
  match v with
  | JStr s => (limit <? String.length s)%nat && includes "<" s
  | _ => false
  end.

Fixpoint cleanContent (obj : Js) : Js :=
  match obj with
  | JObj props =>
      JObj ((fix each (l : list (string * Js)) : list (string * Js) :=
               match l with
               | [] => []
               | (key, value) :: r =>
                   if purged key then each r
                   else if largeMarkup 1000 value
                   then (key, jstr "<p>Optimized</p>") :: each r
                   else (key, cleanContent value) :: each r
               end) props)
  | JArr items =>
      JArr ((fix each (l : list Js) : list Js :=
               match l with
               | [] => []
               | value :: r =>
                   if largeMarkup 1000 value
                   then jstr "<p>Optimized</p>" :: each r
                   else cleanContent value :: each r
               end) items)
  | _ => obj
  end.

(** Nothing in [v] for the cleaning pass to remove or replace: no
    property under a purged key, no large markup string, at any depth. *)
Fixpoint lean (v : Js) : bool :=
  match v with
  | JObj props =>
      (fix each (l : list (string * Js)) : bool :=
         match l with
         | [] => true
         | (key, value) :: r =>
             negb (purged key) && negb (largeMarkup 1000 value) &&
             lean value && each r
         end) props
  | JArr items =>
      (fix each (l : list Js) : bool :=
         match l with
         | [] => true
         | value :: r => negb (largeMarkup 1000 value) && lean value && each r
         end) items
  | _ => true
  end.

(** Neither [undefined] nor [NaN] anywhere in [v]. *)
Fixpoint plain (v : Js) : bool :=
  match v with
  | JUndefined | JNaN => false
  | JObj props =>
      (fix each (l : list (string * Js)) : bool :=
         match l with
         | [] => true
         | (_, value) :: r => plain value && each r
         end) props
  | JArr items =>
      (fix each (l : list Js) : bool :=
         match l with
         | [] => true
         | value :: r => plain value && each r
         end) items
  | _ => true
  end.

Definition validateAndCleanTemplate (template : Js) : Js :=
  cleanContent template.

(** [html.replace(/\s+/g, ' ')] *)
Fixpoint collapse_spaces (in_space : bool) (s : string) : string :=
  match s with
  | String c r =>
      if is_space c
      then if in_space then collapse_spaces true r
           else String " "%char (collapse_spaces true r)
      else String c (collapse_spaces false r)
  | EmptyString => EmptyString
  end.

(** [.replace(/>\s+</g, '><')], once the runs of blanks are single
    spaces. *)
Fixpoint join_tags (s : string) : string :=
  match s with
  | String c r =>
      match r with
      | String sp r' =>
          if (nat_of_ascii c =? 62)%nat && (nat_of_ascii sp =? 32)%nat &&
             String.prefix "<" r'
          then String c (join_tags r')
          else String c (join_tags r)
      | EmptyString => s
      end
  | EmptyString => EmptyString
  end.

(** What follows the first ["-->"] of [s], if there is one. *)
Fixpoint after_comment (s : string) : option string :=
  if String.prefix "-->" s then Some (skip 3 s)
  else match s with
       | String _ r => after_comment r
       | EmptyString => None
       end.

(** [.replace(/<!--[\s\S]*?-->/g, '')]; [fuel] bounds the number of
    characters looked at. *)
Fixpoint strip_comments (fuel : nat) (s : string) : string :=
  match fuel with
  | O => s
  | S fuel' =>
      match s with
      | EmptyString => EmptyString
      | String c r =>
          if String.prefix "<!--" s then
            match after_comment (skip 4 s) with
            | Some rest => strip_comments fuel' rest
            | None => String c (strip_comments fuel' r)
            end
          else String c (strip_comments fuel' r)
      end
  end.

Definition compressHtml (html : string) : string :=
  let h := join_tags (collapse_spaces false html) in
  trim (strip_comments (String.length h) h).

Fixpoint compressContent (obj : Js) : Js :=
  match obj with
  | JObj props =>
      JObj ((fix each (l : list (string * Js)) : list (string * Js) :=
               match l with
               | [] => []
               | (key, value) :: r =>
                   (key,
                    match value with
                    | JStr html =>
                        if largeMarkup 2000 value
                        then jstr (compressHtml html) else value
                    | _ => compressContent value
                    end) :: each r
               end) props)
  | JArr items =>
      JArr ((fix each (l : list Js) : list Js :=
               match l with
               | [] => []
               | value :: r =>
                   match value with
                   | JStr html =>
                       if largeMarkup 2000 value
                       then jstr (compressHtml html) else value
                   | _ => compressContent value
                   end :: each r
               end) items)
  | _ => obj
  end.

Definition smartCleanTemplate (template : Js) : Js :=
  let smartCleaned := Json.roundtrip template in
  let metadata := get "metadata" smartCleaned in
  let smartCleaned :=
    if truthy metadata then
      set "metadata"
          (JObj [("created_at", get "created_at" metadata);
                 ("source_url", get "source_url" metadata);
                 ("cloned_by", jstr "CloneMentor Pro - Smart Clean");
                 ("fidelity_score", get "fidelity_score" metadata);
                 ("elementsCount", get "elementsCount" metadata)])
          smartCleaned
    else smartCleaned in
  compressContent smartCleaned.

(** *** The emergency cleaning *)

(** [createMinimalColumn(sourceColumn)]: the argument is not read. *)
Definition createMinimalColumn : M Js :=
  id <- generateElementId ;;
  wid <- generateElementId ;;
  eid <- generateElementId ;;
  ret (JObj [("id", jstr id); ("elType", jstr "column");
             ("settings",
              JObj [("_column_size", jnum 100); ("_inline_size", JNull)]);
             ("elements",
              JArr [JObj [("id", jstr wid); ("elType", jstr "widget");
                          ("widgetType", jstr "text-editor");
                          ("settings",
                           JObj [("_element_id", jstr eid);
                                 ("editor",
                                  jstr "<p>Content Successfully Cloned</p>")])]])]).

(** The loop of [createMinimalContent] with [rounds] rounds left, over
    the items of [content] not yet visited.  Reading [section.elements]
    throws when the item is [null] or [undefined]; the identifier of the
    section has been drawn by then. *)
Fixpoint minimalLoop (rounds : nat) (content : list Js)
         (minimalSections : list Js) : M (outcome (list Js)) :=
  match rounds, content with
  | S rounds', section :: rest =>
      id <- generateElementId ;;
      match section with
      | JNull =>
          ret (Throws "Cannot read properties of null (reading 'elements')")
      | JUndefined =>
          ret (Throws "Cannot read properties of undefined (reading 'elements')")
      | _ =>
          column <- createMinimalColumn ;;
          minimalLoop rounds' rest
            (minimalSections ++
             [JObj [("id", jstr id); ("elType", jstr "section");
                    ("settings", JObj [("content_width", jstr "boxed")]);
                    ("elements", JArr [column])]])%list
      end
  | _, _ => ret (Returns minimalSections)
  end.

(** [createMinimalContent(content)] on an array. *)
Definition createMinimalContent (content : list Js) : M (outcome (list Js)) :=
  r <- minimalLoop 3 content [] ;;
  match r with
  | Returns [] => s <- createDefaultSection ;; ret (Returns [s])
  | _ => ret r
  end.

(** *** The conversion *)

(** [new Date().toISOString()] at the time of the conversion. *)
Variable now : string.

(** The scanned data, by the properties the converter reads:
    [visualData] is its property of that name, [itself] the object as
    [buildElementorFromVisual] reads it when that property is absent. *)
Record VisualData : Type :=
  mkVisualData {
      visualData : option VisualStructure;
      itself : VisualStructure;
      responsiveLayouts : bool;
      assets : option Assets;
      pageInfo_title : option string;
      pageInfo_url : option string;
      url : option string
    }.

(** [a || b] on optional strings. *)
Definition or_js (a b : option string) : Js :=
  match a with
  | Some s => if str_truthy s then jstr s else opt_js b
  | None => opt_js b
  end.

(** The template [convertVisualToElementor] assembles, before the
    cleaning pass; [verificationReport] gives the fidelity score and
    the verdict. *)
Definition assembleTemplate (data : VisualData)
           (verificationReport : option (Q * bool)) : M Js :=
  let visualStructure :=
    match visualData data with
    | Some v => v
    | None => itself data
    end in
  _ <- extractGlobalAssets (assets data) ;;
  content <- buildElementorFromVisual (Some visualStructure) ;;
  let responsiveSettings := buildResponsiveSettings (responsiveLayouts data) in
  let customCSS := buildOptimizedCSS (assets data) in
  pageSettings <- buildPageSettings ;;
  ret (JObj
         [("version", jstr "0.4");
          ("title",
           jstr (match pageInfo_title data with
                 | Some t => or_default t "Cloned Page"
                 | None => "Cloned Page"
                 end));
          ("type", jstr "page");
          ("content", JArr content);
          ("page_settings",
           spread pageSettings
                  (responsiveSettings ++ [("custom_css", jstr customCSS)])%list);
          ("metadata",
           JObj [("created_at", jstr now);
                 ("source_url", or_js (url data) (pageInfo_url data));
                 ("cloned_by", jstr "CloneMentor Pro v2.1 - Optimized");
                 ("elementor_version", jstr "3.16.0");
                 ("clone_version", jstr "2.1");
                 ("fidelity_score",
                  match verificationReport with
                  | Some (score, _) =>
                      if Qeq_bool score 0 then jnum 0 else JNum score
                  | None => jnum 0
                  end);
                 ("verification_passed",
                  match verificationReport with
                  | Some (_, passed) => JBool passed
                  | None => JBool false
                  end);
                 ("total_elements", jnum (Z.of_nat (countTotalElements content)));
                 ("sections_count", jnum (Z.of_nat (List.length content)));
                 ("capture_method", jstr "lean-structure-focused")])]).

Definition convertVisualToElementor (data : VisualData)
           (verificationReport : option (Q * bool)) : M Js :=
  template <- assembleTemplate data verificationReport ;;
  let validatedTemplate := validateAndCleanTemplate template in
  let finalSize := Z.of_nat (Json.size validatedTemplate) in
  if (150000 <? finalSize)%Z
  then ret (smartCleanTemplate validatedTemplate)
  else ret validatedTemplate.

End WithRandom.

End Converter.

(* ------------------------------------------------------------------ *)
(** ** The visual scraper: navigation and the pre-built structure *)
(* ------------------------------------------------------------------ *)

Module Scraper.
Import Converter.

Section WithRandom.
Variable random : nat -> Q.

(** [mapElement] records a layout for every element it keeps; the
    structure builders read it without a test. *)
Definition the_layout (element : ElementNode) : Layout :=
  match layout element with
  | Some l => l
  | None => mkLayout 0 0 0 0 "" "" "" "" "" "" None None "" "" "" "" "" ""
                     "" "" "" "" ""
  end.

Definition determineElementorType (element : ElementNode) (parentType : string)
  : string :=
  let l := the_layout element in
  let tagName := tagName element in
  let children := kids element in
  if (parentType =? "body")%string ||
     mem tagName ["section"; "header"; "footer"; "main"] ||
     ((display l =? "flex")%string && (flexDirection l =? "column")%string) ||
     (Qle_bool 300 (width l) && (0 <? List.length children)%nat)
  then "section"
  else if (parentType =? "section")%string &&
          mem (display l) ["flex"; "block"; "inline-block"] &&
          (0 <? List.length children)%nat
  then "column"
  else "widget".

Definition boxOf (sp : option Spacing) : Js :=
  match sp with
  | Some sp =>
      JObj [("top", jint_or_0 (top sp)); ("right", jint_or_0 (right sp));
            ("bottom", jint_or_0 (bottom sp)); ("left", jint_or_0 (left sp));
            ("unit", jstr "px")]
  | None => JUndefined
  end.

Definition painted (l : Layout) : bool :=
  negb (backgroundColor l =? "rgba(0, 0, 0, 0)")%string.

Definition buildSectionSettings (element : ElementNode) : Js :=
  let l := the_layout element in
  JObj [("background_background", jstr (if painted l then "classic" else ""));
        ("background_color", jstr (if painted l then backgroundColor l else ""));
        ("background_image",
         if negb (backgroundImage l =? "none")%string
         then JObj [("url", jstr (backgroundImage l))] else jstr "");
        ("padding", boxOf (padding l)); ("margin", boxOf (margin l))].

Definition buildColumnSettings (element : ElementNode) : Js :=
  let l := the_layout element in
  JObj [("_column_size", jnum 100);
        ("background_background", jstr (if painted l then "classic" else ""));
        ("background_color", jstr (if painted l then backgroundColor l else ""));
        ("padding", boxOf (padding l))].

Definition generateElementId : M string :=
  Converter.generateElementId_loop random 8 "".

Definition buildWidget (element : ElementNode) : M Js :=
  let l := the_layout element in
  let tagName := tagName element in
  eid <- generateElementId ;;
  let content := first_truthy [innerHTML element; textContent element] "" in
  let settings (extra : list (string * Js)) :=
    JObj (("_element_id", jstr eid) :: extra) in
  let fontSize_px := JObj [("size", jint (fontSize l)); ("unit", jstr "px")] in
  if mem tagName ["h1"; "h2"; "h3"; "h4"; "h5"; "h6"] then
    ret (JObj [("elType", jstr "widget");
               ("settings",
                settings [("title", jstr content); ("header_size", jstr tagName);
                          ("color", jstr (color l));
                          ("typography_font_family", jstr (fontFamily l));
                          ("typography_font_size", fontSize_px);
                          ("typography_font_weight", jstr (fontWeight l));
                          ("align", jstr (textAlign l))]);
               ("widgetType", jstr "heading")])
  else if (tagName =? "img")%string then
    ret (JObj [("elType", jstr "widget");
               ("settings",
                settings [("image",
                           JObj [("url",
                                  match attributes element with
                                  | Some a => opt_js (src a)
                                  | None => JUndefined
                                  end)]);
                          ("image_size", jstr "full");
                          ("caption", jstr (attr alt element ""));
                          ("width", JObj [("size", JNum (width l)); ("unit", jstr "px")]);
                          ("height", JObj [("size", JNum (height l)); ("unit", jstr "px")])]);
               ("widgetType", jstr "image")])
  else if (tagName =? "a")%string then
    ret (JObj [("elType", jstr "widget");
               ("settings",
                settings [("text", jstr content);
                          ("link",
                           JObj [("url",
                                  match attributes element with
                                  | Some a => opt_js (href a)
                                  | None => JUndefined
                                  end);
                                 ("is_external", JBool true)]);
                          ("background_color", jstr (backgroundColor l));
                          ("text_color", jstr (color l));
                          ("border_radius",
                           JObj [("size", jint (borderRadius l)); ("unit", jstr "px")]);
                          ("padding", boxOf (padding l))]);
               ("widgetType", jstr "button")])
  else
    ret (JObj [("elType", jstr "widget");
               ("settings",
                settings [("html",
                           jstr (or_default (innerHTML element)
                                   ("<" ++ tagName ++ " style=" ++ dq ++
                                    "color: " ++ color l ++
                                    "; font-family: " ++ fontFamily l ++
                                    "; font-size: " ++ fontSize l ++
                                    "; text-align: " ++ textAlign l ++ ";" ++ dq ++
                                    ">" ++ textContent element ++
                                    "</" ++ tagName ++ ">")));
                          ("text_color", jstr (color l));
                          ("typography_font_family", jstr (fontFamily l));
                          ("typography_font_size", fontSize_px)]);
               ("widgetType", jstr "html")]).

Fixpoint buildElementorStructure (element : ElementNode) (parentType : string)
         {struct element} : M Js :=
  let elementType := determineElementorType element parentType in
  let each (childType : string) :=
    (fix each (cs : list ElementNode) : M (list Js) :=
       match cs with
       | [] => ret []
       | c :: r =>
           v <- buildElementorStructure c childType ;;
           vs <- each r ;;
           ret (v :: vs)
       end) in
  if (elementType =? "section")%string then
    elements <- match children element with
                | Some cs => each "section" cs
                | None => ret []
                end ;;
    ret (JObj [("elType", jstr "section");
               ("settings", buildSectionSettings element);
               ("elements", JArr (truthy_only elements))])
  else if (elementType =? "column")%string then
    elements <- match children element with
                | Some cs => each "column" cs
                | None => ret []
                end ;;
    ret (JObj [("elType", jstr "column");
               ("settings", buildColumnSettings element);
               ("elements", JArr (truthy_only elements))])
  else buildWidget element.

(** What [captureLayoutAtBreakpoint] returns, by the properties read
    later. *)
Record BreakpointCapture : Type :=
  mkBreakpoint {
      structure : option ElementNode;
      styles : string;
      completeHTML : string
    }.

Definition buildVisualStructureMap (desktopLayout : BreakpointCapture)
  : M (list (string * Js)) :=
  match structure desktopLayout with
  | None =>
      ret [("completeHTML", jstr (completeHTML desktopLayout));
           ("styles", jstr (styles desktopLayout));
           ("fallbackMode", JBool true)]
  | Some s =>
      elementorStructure <- buildElementorStructure s "body" ;;
      ret [("elementorStructure", elementorStructure);
           ("completeHTML", jstr (completeHTML desktopLayout));
           ("styles", jstr (styles desktopLayout));
           ("structure", node_js s)]
  end.

(** *** Scraping *)

Record PageAssets : Type :=
  mkPageAssets {
      images : list string;            (* the sources of the images found *)
      palette : Converter.Assets       (* fonts, colors, gradients *)
    }.

(** The headless browser, as the scraper meets it: the outcome of each
    request it makes of the page, in the order it makes them. *)
Record Browser : Type :=
  mkBrowser {
      launch : outcome unit;
      newPage : outcome unit;
      goto : list string -> outcome unit;
      scroll : outcome unit;
      pageInfo : outcome string;                        (* document.title *)
      breakpoint : Verifier.Device -> outcome BreakpointCapture;
      harvest : outcome PageAssets
    }.

(** What [scrapeVisualLayout] returns. *)
Record VisualData : Type :=
  mkVisualData {
      url : string;
      title : string;
      visualStructure : list (string * Js);
      mobile : BreakpointCapture;
      tablet : BreakpointCapture;
      desktop : BreakpointCapture;
      assets : PageAssets
    }.

(** [scrapeVisualLayout(url, progressCallback)]: the progress events
    delivered, the navigation requests made, and the result. *)
Definition scrapeVisualLayout (b : Browser) (url : string)
  : M (list ProgressEvent * list Action * outcome VisualData) :=
  let ev := mkEvent in
  match launch b with
  | Throws e => ret ([], [], Throws e)
  | Returns _ =>
  match newPage b with
  | Throws e => ret ([], [], Throws e)
  | Returns _ =>
  let e1 := [ev "connecting" 2; ev "loading_page" 8] in
  let nav := [Goto ["networkidle0"; "domcontentloaded"] 30000%Z] in
  match goto b ["networkidle0"; "domcontentloaded"] with
  | Throws e => ret (e1, nav, Throws e)
  | Returns _ =>
  let e2 := (e1 ++ [ev "page_loaded" 15])%list in
  let nav := (nav ++ [Delay 3000%Z])%list in
  match scroll b with
  | Throws e => ret (e2, nav, Throws e)
  | Returns _ =>
  let e3 := (e2 ++ [ev "analyzing_layout" 22])%list in
  match pageInfo b with
  | Throws e => ret (e3, nav, Throws e)
  | Returns title =>
  let progressIncrement := (7 / 3)%Z in
  let at_ (i : Z) := inject_Z (28 + i * progressIncrement) in
  let e4 := (e3 ++ [ev "capturing_visual_structure" 28;
                    ev "capturing_mobile" (at_ 0%Z)])%list in
  match breakpoint b Verifier.mobile with
  | Throws e => ret (e4, nav, Throws e)
  | Returns m =>
  let e5 := (e4 ++ [ev "capturing_tablet" (at_ 1%Z)])%list in
  match breakpoint b Verifier.tablet with
  | Throws e => ret (e5, nav, Throws e)
  | Returns t =>
  let e6 := (e5 ++ [ev "capturing_desktop" (at_ 2%Z)])%list in
  match breakpoint b Verifier.desktop with
  | Throws e => ret (e6, nav, Throws e)
  | Returns d =>
  let e7 := (e6 ++ [ev "extracting_assets" 42])%list in
  match harvest b with
  | Throws e => ret (e7, nav, Throws e)
  | Returns a =>
  let e8 := (e7 ++ [ev "processing_assets" 58;
                    ev "building_structure_map" 72])%list in
  vs <- buildVisualStructureMap d ;;
  ret ((e8 ++ [ev "validating_structure" 88; ev "scraping_complete" 95])%list,
       nav,
       Returns (mkVisualData url title vs m t d a))
  end end end end end end end end end.

End WithRandom.

End Scraper.

(* ------------------------------------------------------------------ *)
(** ** The scan route *)
(* ------------------------------------------------------------------ *)

Module Route.
Import Converter.

(** *** The scraped data, as the verifier and the converter read it *)

Fixpoint as_structure (n : ElementNode) : Verifier.Structure :=
  Verifier.mkStructure
    [] (Some (tagName n)) (Some (textContent n))
    (match layout n with Some l => Some (width l, height l) | None => None end)
    (match children n with
     | Some cs =>
         Some ((fix each (l : list ElementNode) : list Verifier.Structure :=
                  match l with
                  | [] => []
                  | c :: r => as_structure c :: each r
                  end) cs)
     | None => None
     end).

Definition capture_of (d : Scraper.VisualData) (device : Verifier.Device)
  : Scraper.BreakpointCapture :=
  match device with
  | Verifier.desktop => Scraper.desktop d
  | Verifier.tablet => Scraper.tablet d
  | Verifier.mobile => Scraper.mobile d
  end.

Definition for_verifier (d : Scraper.VisualData) : Verifier.ScannedData :=
  Verifier.mkScanned
    (Some (Verifier.mkVisualStructure
             (option_map as_structure (Scraper.structure (Scraper.desktop d)))
             (Verifier.mkStructure [] None None None None)))
    (Some (Scraper.title d))
    (Some (Verifier.mkAssets
             (Some (List.length (Scraper.images (Scraper.assets d))))
             (option_map (@List.length string)
                         (fonts (Scraper.palette (Scraper.assets d))))))
    (Some (fun device =>
             Some (Verifier.mkLayoutData
                     (option_map as_structure
                                 (Scraper.structure (capture_of d device)))))).

Definition breakpoint_js (c : Scraper.BreakpointCapture) : Js :=
  JObj [("structure",
         match Scraper.structure c with Some n => node_js n | None => JNull end);
        ("styles", jstr (Scraper.styles c));
        ("completeHTML", jstr (Scraper.completeHTML c))].

Definition strings_js (o : option (list string)) : Js :=
  match o with Some l => JArr (map jstr l) | None => JUndefined end.

(** The scraped data as the plain object the converter searches. *)
Definition own_properties (d : Scraper.VisualData) : list (string * Js) :=
  [("url", jstr (Scraper.url d));
   ("pageInfo", JObj [("title", jstr (Scraper.title d))]);
   ("visualStructure", JObj (Scraper.visualStructure d));
   ("responsiveLayouts",
    JObj [("mobile", breakpoint_js (Scraper.mobile d));
          ("tablet", breakpoint_js (Scraper.tablet d));
          ("desktop", breakpoint_js (Scraper.desktop d))]);
   ("assets",
    JObj [("images",
           JArr (map (fun src => JObj [("src", jstr src)])
                     (Scraper.images (Scraper.assets d))));
          ("fonts", strings_js (fonts (Scraper.palette (Scraper.assets d))));
          ("colors", strings_js (colors (Scraper.palette (Scraper.assets d))));
          ("gradients",
           strings_js (gradients (Scraper.palette (Scraper.assets d))))])].

Definition for_converter (d : Scraper.VisualData) : Converter.VisualData :=
  Converter.mkVisualData
    None (Captured (own_properties d) None) true
    (Some (Scraper.palette (Scraper.assets d)))
    (Some (Scraper.title d)) None (Some (Scraper.url d)).

(** *** [router.post('/scan')] *)

Inductive Response : Type :=
| Cloned (template : Js) (report : Verifier.Report)
| Rejected (error : string) (report : Verifier.Report)
| ServerError (details : string).

(** The scraper's events, as the route forwards them:
    [Math.min(data.progress || 0, 95)]. *)
Definition capScraper (e : ProgressEvent) : ProgressEvent :=
  mkEvent (phase e) (Qmin (progress e) 95).

(** The verifier's events, as the route forwards them:
    [Math.min(96 + (data.progress || 0) * 0.01, 97)]. *)
Definition capVerifier (e : ProgressEvent) : ProgressEvent :=
  mkEvent (phase e) (Qmin (96 + progress e * (1 # 100)) 97).

(** The names of the initial checks that fail. *)
Definition failedInitialChecks (d : Scraper.VisualData) : list string :=
  let vs := JObj (Scraper.visualStructure d) in
  let hasContent :=
    truthy (get "completeHTML" vs) || truthy (get "structure" vs) ||
    (truthy (get "children" vs) && (0 <? length_or_0 (get "children" vs))%nat) in
  let hasMinimumComplexity :=
    (0 <? List.length (Scraper.images (Scraper.assets d)))%nat ||
    match get "structure" vs with
    | JNum q => if Qeq_bool q 0
                then (1 <? length_or_0 (get "children" vs))%nat
                else Qlt_bool 1 q
    | v => if truthy v then false
           else (1 <? length_or_0 (get "children" vs))%nat
    end in
  let hasValidMetadata := str_truthy (Scraper.title d) in
  ((if hasContent then [] else ["hasContent"]) ++
   (if hasMinimumComplexity then [] else ["hasMinimumComplexity"]) ++
   (if hasValidMetadata then [] else ["hasValidMetadata"]))%list.

(** The critical checks on the template: it has a content list, with at
    least one section.  (A value of [Js] always serializes.) *)
Definition criticalValidationFailed (elementorTemplate : Js) : list string :=
  ((if truthy elementorTemplate && truthy (get "content" elementorTemplate)
    then [] else ["hasValidStructure"]) ++
   (if (0 <? length_or_0 (get "content" elementorTemplate))%nat
    then [] else ["hasSections"]))%list.

(** The percentages never go down. *)
Fixpoint nondecreasing (l : list Q) : bool :=
  match l with
  | a :: r =>
      match r with
      | b :: _ => Qle_bool a b && nondecreasing r
      | [] => true
      end
  | [] => true
  end.

Definition warned (events : list ProgressEvent) : bool :=
  existsb (fun e => (phase e =? "verification_warning")%string) events.

(** The colors of the [custom_colors] palette of the template a response
    carries. *)
Definition customColors (r : Response) : list Js :=
  match r with
  | Cloned template _ =>
      map (get "color")
          (items_of (get "custom_colors" (get "page_settings" template)))
  | _ => []
  end.

(** *** The counts of the response *)

Fixpoint countAllElements (obj : Js) : nat :=
  match obj with
  | JObj props =>
      ((if truthy (lookup "elType" props) then 1 else 0) +
       (fix each (l : list (string * Js)) : nat :=
          match l with
          | [] => 0
          | (_, value) :: r =>
              (if is_object value then countAllElements value else 0) + each r
          end) props)%nat
  | JArr items =>
      (fix each (l : list Js) : nat :=
         match l with
         | [] => 0%nat
         | item :: r => (countAllElements item + each r)%nat
         end) items
  | _ => 0%nat
  end.

Fixpoint countElementsByType (type : string) (obj : Js) : nat :=
  match obj with
  | JObj props =>
      ((if str_is type (lookup "elType" props) then 1 else 0) +
       (fix each (l : list (string * Js)) : nat :=
          match l with
          | [] => 0
          | (_, value) :: r =>
              (if is_object value then countElementsByType type value else 0)
              + each r
          end) props)%nat
  | JArr items =>
      (fix each (l : list Js) : nat :=
         match l with
         | [] => 0%nat
         | item :: r => (countElementsByType type item + each r)%nat
         end) items
  | _ => 0%nat
  end.

Section WithEnvironment.
Variable random : nat -> Q.
Variable now : string.

(** One request: the events given to [updateProgress], in order, and the
    response. *)
Definition scan (skipVerification : bool) (sb : Scraper.Browser)
           (vb : Verifier.Browser) (url : string)
  : M (list ProgressEvent * Response) :=
  let e0 := [mkEvent "initializing_scan" 1] in
  scraped <- Scraper.scrapeVisualLayout random sb url ;;
  let '(scraperEvents, _, result) := scraped in
  let e1 := (e0 ++ map capScraper scraperEvents)%list in
  match result with
  | Throws e => ret (e1, ServerError e)
  | Returns visualData =>
      let e2 := (e1 ++ [mkEvent "verifying_fidelity" 96])%list in
      let '(verifierEvents, verified) :=
        Verifier.verifyFidelity vb (Some (for_verifier visualData)) in
      let e3 := (e2 ++ map capVerifier verifierEvents)%list in
      match verified with
      | Throws e => ret (e3, ServerError e)
      | Returns verificationReport =>
          let failed := failedInitialChecks visualData in
          let score := Verifier.fidelityScore verificationReport in
          let shouldProceed :=
            skipVerification || Verifier.passed verificationReport ||
            (Qle_bool (4 # 10) score && (List.length failed <=? 1)%nat) in
          let e4 :=
            if shouldProceed then e3
            else (e3 ++ [mkEvent "verification_warning" 90])%list in
          if negb shouldProceed && Qlt_bool score (3 # 10) &&
             (1 <? List.length failed)%nat
          then
            ret (e4, Rejected ("Quality checks failed: " ++ String.concat ", " failed)
                              verificationReport)
          else
            let e5 := (e4 ++ [mkEvent "converting_to_elementor" 97])%list in
            elementorTemplate <-
              convertVisualToElementor
                random now (for_converter visualData)
                (Some (score, Verifier.passed verificationReport)) ;;
            let e6 := (e5 ++ [mkEvent "final_validation" 98])%list in
            let critical := criticalValidationFailed elementorTemplate in
            match critical with
            | _ :: _ =>
                ret ((e6 ++ [mkEvent "template_validation_failed" 99])%list,
                     Rejected ("Critical template validation failed: " ++
                               String.concat ", " critical)
                              verificationReport)
            | [] =>
                ret ((e6 ++ [mkEvent "scan_complete_verified" 100])%list,
                     Cloned elementorTemplate verificationReport)
            end
      end
  end.

End WithEnvironment.

End Route.

(* ------------------------------------------------------------------ *)
(** ** Sample inputs *)
(* ------------------------------------------------------------------ *)

Module Samples.
Import Verifier.

Definition noCapture : Capture :=
  mkCapture (fun _ => None) (fun _ => None) None.

(** A host that does not resolve: every navigation attempt fails. *)
Definition unreachable : Browser :=
  mkBrowser (Returns tt) (Returns tt)
            (fun _ => Throws "net::ERR_NAME_NOT_RESOLVED")
            (Returns noCapture) (fun _ => Returns noCapture).

(** No browser binary: [puppeteer.launch] rejects. *)
Definition noBrowser : Browser :=
  mkBrowser (Throws "Failed to launch the browser process")
            (Returns tt) (fun _ => Returns tt)
            (Returns noCapture) (fun _ => Returns noCapture).

(** [<div>Hello</div>] as a captured element. *)
Definition helloDiv : Structure :=
  mkStructure [] (Some "div") (Some "Hello") (Some (300, 40)) (Some []).

Definition helloScan : ScannedData :=
  mkScanned (Some (mkVisualStructure (Some helloDiv) helloDiv))
            (Some "Home") None None.

(** The same capture of a page without a title, assets not recorded. *)
Definition untitledScan : ScannedData :=
  mkScanned (Some (mkVisualStructure (Some helloDiv) helloDiv))
            (Some "") None None.

(** The counts [extractPageStructure] reports for a page whose body is
    [<div>Hello</div>] (html, head, body and the div are elements). *)
Definition helloCounts : Structure :=
  mkStructure [("elementCount", 4); ("textNodes", 1); ("images", 0);
               ("sections", 0); ("containers", 1); ("headings", 0);
               ("links", 0)]
              None None None None.

Definition twoBytes : Buffer := [Byte.xff; Byte.xd8].

(** *** Captured pages for the converter *)

(** A pseudo-random source: a linear congruential generator scaled to
    [0,1). *)
Fixpoint lcg (n : nat) : Z :=
  match n with
  | O => 20240229%Z
  | S n' => ((lcg n' * 1103515245 + 12345) mod 2147483648)%Z
  end.

Definition sampleRandom (n : nat) : Q := lcg (S n) # 2147483648.

(** A source that keeps returning 0. *)
Definition stuckRandom (n : nat) : Q := 0.

Definition zeroSpacing : Converter.Spacing :=
  Converter.mkSpacing "0px" "0px" "0px" "0px".

(** A static block of the given size, with the browser's default
    computed styles. *)
Definition block (w h : Q) : Converter.Layout :=
  Converter.mkLayout 0 0 w h "static" "block" "rgba(0, 0, 0, 0)" "none"
                     "auto" "0% 0%" (Some zeroSpacing) (Some zeroSpacing)
                     "rgb(0, 0, 0)" "Arial" "16px" "400" "normal" "start"
                     "0px none rgb(0, 0, 0)" "" "0px" "none" "row".

Definition noAttributes : Converter.Attributes :=
  Converter.mkAttributes None None None None None None.

(** [<tag>text</tag>], 300 by 40 pixels, without children. *)
Definition leaf (tag text : string) : Converter.ElementNode :=
  Converter.mkNode tag "" text text ("<" ++ tag ++ ">" ++ text ++ "</" ++ tag ++ ">")
                   (Some noAttributes) (Some (block 300 40)) (Some []).

(** A paragraph, then an article followed by nine paragraphs. *)
Definition unevenChildren : list Converter.ElementNode :=
  leaf "p" "Intro" :: leaf "article" "Story" :: repeat (leaf "p" "More") 9.

(** Eight sections side by side. *)
Definition eightChildren : list Converter.ElementNode :=
  repeat (leaf "section" "Part") 8.

(** *** A page and the browsers that load it *)

(** [<body><header></header><div><h1>Title</h1><p>Hello</p></div></body>],
    the header being an empty bar 60 pixels high. *)
Definition helloBody : Converter.ElementNode :=
  Converter.mkNode
    "body" "" "" "" "" (Some noAttributes) (Some (block 1200 400))
    (Some [Converter.mkNode "header" "" "" "" "<header></header>"
                            (Some noAttributes) (Some (block 1200 60)) (Some []);
           Converter.mkNode "div" "" "" "<h1>Title</h1><p>Hello</p>"
                            "<div><h1>Title</h1><p>Hello</p></div>"
                            (Some noAttributes) (Some (block 1200 80))
                            (Some [leaf "h1" "Title"; leaf "p" "Hello"])]).

Definition helloCapture : Scraper.BreakpointCapture :=
  Scraper.mkBreakpoint (Some helloBody) ""
                       "<html><head></head><body></body></html>".

Definition helloAssets (colors : list string) : Scraper.PageAssets :=
  Scraper.mkPageAssets [] (Converter.mkAssets (Some colors) (Some ["Arial"]) (Some [])).

(** The scraper's browser on a page that loads, whose elements use the
    given colors. *)
Definition loads (colors : list string) : Scraper.Browser :=
  Scraper.mkBrowser (Returns tt) (Returns tt) (fun _ => Returns tt) (Returns tt)
                    (Returns "Hello") (fun _ => Returns helloCapture)
                    (Returns (helloAssets colors)).

(** A page that answers nothing the strict wait accepts, but would load
    with the relaxed one. *)
Definition slowPage : Scraper.Browser :=
  Scraper.mkBrowser (Returns tt) (Returns tt)
                    (fun waitUntil =>
                       if mem "networkidle0" waitUntil
                       then Throws "Navigation timeout of 30000 ms exceeded"
                       else Returns tt)
                    (Returns tt) (Returns "Hello") (fun _ => Returns helloCapture)
                    (Returns (helloAssets [])).

(** The same page without a title. *)
Definition untitledPage : Scraper.Browser :=
  Scraper.mkBrowser (Returns tt) (Returns tt) (fun _ => Returns tt) (Returns tt)
                    (Returns "") (fun _ => Returns helloCapture)
                    (Returns (helloAssets [])).

(** A paragraph of thirty lines separated by line breaks: some 1400
    characters of markup. *)
Definition longLines : string :=
  String.concat "<br>" (repeat "All work and no play makes Jack a dull boy." 30).

(** [<body><div><h1>Title</h1><p>...</p></div></body>]: the line breaks
    have no size and are not captured, so the paragraph has no children. *)
Definition longTextBody : Converter.ElementNode :=
  Converter.mkNode
    "body" "" "" "" "" (Some noAttributes) (Some (block 1200 900))
    (Some [Converter.mkNode
             "div" "" "" "" "" (Some noAttributes) (Some (block 1200 800))
             (Some [leaf "h1" "Title";
                    Converter.mkNode
                      "p" ""
                      (String.concat "" (repeat "All work and no play makes Jack a dull boy." 30))
                      longLines ("<p>" ++ longLines ++ "</p>")
                      (Some noAttributes) (Some (block 1200 700)) (Some [])])]).

(** What the scraper returns for a page captured as [body] at the three
    breakpoints. *)
Definition scraped (body : Converter.ElementNode) : Scraper.VisualData :=
  let capture := Scraper.mkBreakpoint (Some body) "" "<html></html>" in
  Scraper.mkVisualData
    "https://example.com" "Hello"
    (fst (Scraper.buildVisualStructureMap sampleRandom capture Converter.constructor))
    capture capture capture (helloAssets []).

Definition treeData (body : Converter.ElementNode) : Converter.VisualData :=
  Converter.mkVisualData None (Converter.Tree body) true None
                         (Some "Hello") None (Some "https://example.com").

(** The time of the sample conversions. *)
Definition sampleNow : string := "2024-02-29T12:00:00.000Z".

(** The template the scan of the sample page returns, verification having
    failed to reach the site ([null] if the scan returns none). *)
Definition helloTemplate : Js :=
  match snd (fst (Route.scan sampleRandom sampleNow false
                             (loads ["rgb(255, 0, 0)"]) unreachable
                             "https://example.com" Converter.constructor)) with
  | Route.Cloned template _ => template
  | _ => JNull
  end.

(** *** A site the verifier reaches *)

(** What the verifier captures of the page whose body is
    [<div>Hello</div>]: a screenshot per device, the laid-out elements,
    the counts. *)
Definition helloOriginal : Capture :=
  mkCapture (fun _ => Some twoBytes)
            (fun _ => Some [mkEntry (Some "html") 1200 800;
                            mkEntry (Some "body") 1200 40;
                            mkEntry (Some "div") 1200 40])
            (Some helloCounts).

(** The rendered preview of the clone. *)
Definition helloRendered : Capture :=
  mkCapture (fun _ => Some [Byte.xff; Byte.xd8; Byte.xff])
            (fun _ => Some [mkEntry (Some "html") 1200 800;
                            mkEntry (Some "body") 1200 40])
            (Some helloCounts).

Definition reachable : Browser :=
  mkBrowser (Returns tt) (Returns tt) (fun _ => Returns tt)
            (Returns helloOriginal) (fun _ => Returns helloRendered).

End Samples.

(* ================================================================== *)
(** * Part II: properties *)
(* ================================================================== *)

(** ** Boolean comparisons on rationals *)

Lemma Qlt_bool_true (a b : Q) : Qlt_bool a b = true <-> a < b.
Proof.
  unfold Qlt_bool. rewrite negb_true_iff.
  split; intro H.
  - apply Qnot_le_lt. intro L. apply Qle_bool_iff in L. congruence.
  - destruct (Qle_bool b a) eqn:E; [|reflexivity].
    apply Qle_bool_iff in E. exfalso. apply (Qlt_not_le _ _ H E).
Qed.

Lemma Qlt_bool_false (a b : Q) : Qlt_bool a b = false <-> b <= a.
Proof.
  unfold Qlt_bool. rewrite negb_false_iff. apply Qle_bool_iff.
Qed.

Lemma Qle_bool_false (a b : Q) : Qle_bool a b = false <-> b < a.
Proof.
  split; intro H.
  - apply Qnot_le_lt. intro L. apply Qle_bool_iff in L. congruence.
  - destruct (Qle_bool a b) eqn:E; [|reflexivity].
    apply Qle_bool_iff in E. exfalso. apply (Qlt_not_le _ _ H E).
Qed.

Lemma Qmax_cases (a b : Q) :
  (a <= b /\ Qmax a b == b) \/ (b <= a /\ Qmax a b == a).
Proof.
  destruct (Q.max_spec a b) as [[H E]|[H E]]; [left|right]; split;
    auto using Qlt_le_weak.
Qed.

Lemma Qmin_cases (a b : Q) :
  (a <= b /\ Qmin a b == a) \/ (b <= a /\ Qmin a b == b).
Proof.
  destruct (Q.min_spec a b) as [[H E]|[H E]]; [left|right]; split;
    auto using Qlt_le_weak.
Qed.

(** Turn the boolean tests of a goal's hypotheses into inequalities. *)
Ltac qbool :=
  repeat match goal with
    | H : _ && _ = true |- _ => apply andb_true_iff in H; destruct H
    | H : _ || _ = false |- _ => apply orb_false_iff in H; destruct H
    | H : Qlt_bool _ _ = true |- _ => apply Qlt_bool_true in H
    | H : Qlt_bool _ _ = false |- _ => apply Qlt_bool_false in H
    | H : Qle_bool _ _ = true |- _ => apply Qle_bool_iff in H
    | H : Qle_bool _ _ = false |- _ => apply Qle_bool_false in H
    | H : Qeq_bool _ _ = true |- _ => apply Qeq_bool_iff in H
    | H : Qeq_bool _ _ = false |- _ => apply Qeq_bool_neq in H
    end.

(** ** The overall score *)

Section OverallScore.
Import Verifier.

Lemma validateScannedContent_quality (d : option ScannedData) :
  validateScannedContent d = contentQuality d.
Proof.
  destruct d as [d|]; [|reflexivity].
  unfold validateScannedContent, contentQuality.
  destruct (visualStructure d) as [vs|];
    [destruct (vs_structure vs) as [s|];
     [destruct (hasValidContent (Some s))|]|];
    (destruct (pageInfo_title d) as [[|c t]|]);
    (destruct (assets d) as [a|];
     [destruct (images_length a) as [[|[|[|n]]]|];
      destruct (fonts_length a) as [[|[|m]]|]|]);
    reflexivity.
Qed.

Lemma fallbackReport_verdict (d : option ScannedData) (msg : string) :
  let rep := fallbackReport d msg in
  fallback rep = true /\
  fidelityScore rep = calculateOverallScore rep /\
  passed rep =
    Qle_bool toleranceThreshold (fidelityScore rep) && validateScannedContent d.
Proof.
  unfold fallbackReport.
  destruct (validateScannedContent d); cbn [fallback fidelityScore passed].
  - split; [reflexivity|]. split; [reflexivity|].
    rewrite andb_true_r. reflexivity.
  - split; [reflexivity|]. split; [reflexivity|].
    rewrite andb_false_r. reflexivity.
Qed.

(** How [verifyFidelity] fills the verdict of the report it returns. *)
Lemma verifyFidelity_verdict (b : Browser) (d : option ScannedData)
      (ev : list ProgressEvent) (rep : Report) :
  verifyFidelity b d = (ev, Returns rep) ->
  fidelityScore rep = calculateOverallScore rep /\
  passed rep =
    Qle_bool toleranceThreshold (fidelityScore rep) &&
    (negb (fallback rep) || validateScannedContent d).
Proof.
  unfold verifyFidelity.
  destruct (launch b); [|discriminate].
  destruct (snd (captureOriginalSite b)) as [orig|msg].
  - destruct (renderClonedStructure b d) as [clone|msg]; destruct d as [d|];
      intros E; inversion E; subst; clear E;
      try (destruct (fallbackReport_verdict None "TypeError") as [F [S P]];
           rewrite F; split; assumption);
      try (match goal with
           | |- context [fallbackReport ?x ?m] =>
               destruct (fallbackReport_verdict x m) as [F [S P]];
               rewrite F; split; assumption
           end).
    cbn [fidelityScore passed fallback negb orb]. rewrite andb_true_r.
    split; reflexivity.
  - intros E. inversion E; subst.
    destruct (fallbackReport_verdict d msg) as [F [S P]].
    rewrite F. split; assumption.
Qed.

(** In exact arithmetic, the model of numbers in the rest of this file:
    for sub-scores in [0,1] the score is the weighted sum 0.5*structural
    + 0.3*visual + 0.2*responsive, replaced by max(0.6, 1.3*sum) when the
    sum is below 0.6 and the structural or the visual score exceeds 0.4,
    and by max(0.5, sum) otherwise, and it lies in [0.5, 1].  The code
    applies the same formula to rounded values and takes the other branch
    when the exact sum is within rounding of 0.6: see the double-precision
    arithmetic below and [weighted_sum_is_rounded]. *)
Lemma calculateOverallScore_exact (r : Report) :
  0 <= visualScore r <= 1 ->
  0 <= structuralScore r <= 1 ->
  0 <= responsiveScore r <= 1 ->
  (weightedSum r < 6 # 10 /\
   (4 # 10 < structuralScore r \/ 4 # 10 < visualScore r) ->
   calculateOverallScore r == Qmax (6 # 10) ((13 # 10) * weightedSum r)) /\
  (~ (weightedSum r < 6 # 10 /\
      (4 # 10 < structuralScore r \/ 4 # 10 < visualScore r)) ->
   calculateOverallScore r == Qmax (5 # 10) (weightedSum r)) /\
  5 # 10 <= calculateOverallScore r <= 1.
Proof.
  intros Hv Hs Hr.
  assert (W : visualScore r * (3 # 10) + structuralScore r * (5 # 10) +
              responsiveScore r * (2 # 10) == weightedSum r)
    by (unfold weightedSum; ring).
  unfold calculateOverallScore.
  split; [|split].
  - intros [Hlt Hor].
    destruct (Qlt_bool _ (6 # 10) && _) eqn:E.
    + rewrite W. apply Q.max_compat; [reflexivity | ring].
    + exfalso. apply andb_false_iff in E. destruct E as [E|E].
      * apply Qlt_bool_false in E. rewrite W in E. lra.
      * qbool. lra.
  - intros Hn.
    destruct (Qlt_bool _ (6 # 10) && _) eqn:E.
    + exfalso. apply Hn. qbool. rewrite W in *. split; [assumption|].
      apply orb_true_iff in H0. destruct H0 as [H0|H0]; qbool; auto.
    + rewrite W. reflexivity.
  - split.
    + destruct (Qlt_bool _ (6 # 10) && _);
        match goal with
        | |- _ <= Qmax ?a ?b => destruct (Qmax_cases a b) as [[? M]|[? M]]
        end; rewrite M; lra.
    + destruct (Qlt_bool _ (6 # 10) && _) eqn:E.
      * qbool. rewrite W in *.
        match goal with
        | |- Qmax ?a ?b <= _ => destruct (Qmax_cases a b) as [[? M]|[? M]]
        end; rewrite M; lra.
      * match goal with
        | |- Qmax ?a ?b <= _ => destruct (Qmax_cases a b) as [[? M]|[? M]]
        end; rewrite M; rewrite ?W in *; unfold weightedSum; lra.
Qed.

End OverallScore.

(** ** Double-precision arithmetic

    The operations of the kernel's doubles are specified by the
    bit-level algorithms of the library ([SFmul], [SFadd], both ending in
    [binary_round_aux]).  What the scores need from them: the result of a
    multiplication or an addition of non-negative doubles is the exact
    result rounded to nearest, ties to even ([binary_round_aux_spec]), and
    that rounding is monotone ([rounded_mono]); so a bound on the
    operands gives a bound on the result ([mul_le], [add_le]). *)

Section DoubleArithmetic.
Import Floats.
Import Double.
Local Open Scope Q_scope.
Arguments pow2 : simpl never.
























































Local Open Scope float_scope.



(** The branch follows the computed sum, not the exact one.  At 0.82,
    0.58, 0.32 the exact sum of the decimal numbers is 0.6, where the
    exact formula gives max(0.5, 0.6) = 0.6; the doubles add up to
    0.5999999999999999, below 0.6, and the code returns 1.3 times that. *)
Lemma weighted_sum_is_rounded :
  ((82 # 100) * (3 # 10) + (58 # 100) * (5 # 10) + (32 # 100) * (2 # 10)
   == 6 # 10)%Q /\
  (Verifier.calculateOverallScore
     (Verifier.mkReport 0 (32 # 100) (82 # 100) (58 # 100) false false None)
   == 6 # 10)%Q /\
  0.82 * 0.3 + 0.58 * 0.5 + 0.32 * 0.2 = 0.5999999999999999 /\
  Double.calculateOverallScore 0.82 0.58 0.32 = 0.7799999999999998.
Proof.
  split; [reflexivity|]. split; [reflexivity|]. split; reflexivity.
Qed.


End DoubleArithmetic.


(** ** Graceful degradation of the verifier *)

Section Degradation.
Import Verifier.

Lemma fallbackReport_scores (d : option ScannedData) (msg : string) :
  let rep := fallbackReport d msg in
  fallback rep = true /\
  fidelityScore rep = calculateOverallScore rep /\
  (if contentQuality d
   then structuralScore rep = 25 # 100 /\ visualScore rep = 15 # 100 /\
        responsiveScore rep = 20 # 100
   else structuralScore rep = 10 # 100 /\ visualScore rep = 5 # 100 /\
        responsiveScore rep = 10 # 100).
Proof.
  unfold fallbackReport. rewrite validateScannedContent_quality.
  destruct (contentQuality d); simpl; repeat split; reflexivity.
Qed.

(** C3 (as the code has it). Once the browser has been launched,
    [verifyFidelity] returns a report and does not throw, whatever the
    scanned data; and when capturing the original or rendering the clone
    throws, the report is the fallback one: structural 0.25, visual 0.15,
    responsive 0.20 if the content-quality predicate holds (valid capture
    plus a non-empty title, more than two images or more than one font),
    0.10/0.05/0.10 otherwise, the overall score being
    [calculateOverallScore] of those. *)
Theorem verifyFidelity_degrades (b : Browser) (d : option ScannedData) :
  launch b = Returns tt ->
  exists ev rep,
    verifyFidelity b d = (ev, Returns rep) /\
    ((exists msg, snd (captureOriginalSite b) = Throws msg \/
                  renderClonedStructure b d = Throws msg) ->
     fallback rep = true /\
     fidelityScore rep = calculateOverallScore rep /\
     (if contentQuality d
      then structuralScore rep = 25 # 100 /\ visualScore rep = 15 # 100 /\
           responsiveScore rep = 20 # 100
      else structuralScore rep = 10 # 100 /\ visualScore rep = 5 # 100 /\
           responsiveScore rep = 10 # 100)).
Proof.
  intros L. unfold verifyFidelity. rewrite L.
  destruct (snd (captureOriginalSite b)) as [orig|msg].
  - destruct (renderClonedStructure b d) as [clone|msg] eqn:R.
    + destruct d as [d|].
      * eexists; eexists; split; [reflexivity|].
        intros [m [H|H]]; discriminate.
      * eexists; eexists; split; [reflexivity|].
        intros _. apply fallbackReport_scores.
    + eexists; eexists; split; [reflexivity|].
      intros _. apply fallbackReport_scores.
  - eexists; eexists; split; [reflexivity|].
    intros _. apply fallbackReport_scores.
Qed.

End Degradation.

Lemma verifyFidelity_degrades_witness :
  Verifier.launch Samples.unreachable = Returns tt /\
  exists ev rep,
    Verifier.verifyFidelity Samples.unreachable (Some Samples.helloScan)
    = (ev, Returns rep).
Proof.
  split; [reflexivity|].
  destruct (verifyFidelity_degrades Samples.unreachable (Some Samples.helloScan)
                                    eq_refl) as [ev [rep [E _]]].
  exists ev, rep. exact E.
Defined.

(** [verifyFidelity] launches the browser before its [try]: a failing
    launch is thrown to the caller, no report is returned. *)
Lemma verifyFidelity_throws_without_browser :
  Verifier.verifyFidelity Samples.noBrowser (Some Samples.helloScan)
  = ([], Throws "Failed to launch the browser process").
Proof. reflexivity. Qed.

(** ** Boundary cases of the scoring functions *)

Section ScoringBoundaries.
Import Verifier.

Lemma countInElement_elementCount :
  forall el, countInElement "elementCount" el = 0%nat.
Proof.
  fix IH 1. intros [cnt tag txt rc ch].
  destruct ch as [l|]; [|reflexivity].
  change (countInElement "elementCount" (mkStructure cnt tag txt rc (Some l)))
    with ((fix each (l : list Structure) : nat :=
             match l with
             | [] => 0%nat
             | c :: r => (countInElement "elementCount" c + each r)%nat
             end) l).
  induction l as [|c r IHr]; [reflexivity|].
  rewrite (IH c). exact IHr.
Qed.

(** A metric whose original count equals the clone's scores 1. *)
Lemma check_metric_equal (o c : Structure) (acc : Q * nat) (m : string) (q : Q) :
  prop m (counts o) = Some q ->
  q == ofnat (countElementsInStructure (Some c) m) ->
  fst (check_metric o c acc m) == fst acc + 1 /\
  snd (check_metric o c acc m) = S (snd acc).
Proof.
  intros P E. unfold check_metric. destruct acc as [score checks].
  rewrite P. set (cl := ofnat _) in *. simpl. split; [|reflexivity].
  destruct (Qeq_bool q 0) eqn:Z1; destruct (Qeq_bool cl 0) eqn:Z2; simpl;
    qbool; try reflexivity.
  - exfalso. apply Z2. rewrite <- E. exact Z1.
  - exfalso. apply Z1. rewrite E. exact Z2.
  - assert (R : Qmin q cl / Qmax q cl == 1).
    { rewrite <- E. rewrite Q.min_id, Q.max_id. field. exact Z1. }
    rewrite R.
    destruct (Qmin_cases 1 (1 * (14 # 10))) as [[_ M]|[L _]];
      [rewrite M; reflexivity | exfalso; lra].
Qed.

(** [elementCount] is never counted on the clone's side: the metric
    scores 1 or 0.3. *)
Lemma check_metric_elementCount (o c : Structure) (acc : Q * nat) (q : Q) :
  prop "elementCount" (counts o) = Some q ->
  fst acc + (3 # 10) <= fst (check_metric o c acc "elementCount") /\
  snd (check_metric o c acc "elementCount") = S (snd acc).
Proof.
  intros P. unfold check_metric. destruct acc as [score checks].
  rewrite P. unfold countElementsInStructure.
  rewrite countInElement_elementCount. simpl. split; [|reflexivity].
  destruct (Qeq_bool q 0); simpl; lra.
Qed.

Lemma compareScreenshots_identical (buf : Buffer) :
  buf <> [] -> compareScreenshots (Some buf) (Some buf) == 8 # 10.
Proof.
  intros NE. unfold compareScreenshots.
  set (n := ofnat (List.length buf)).
  assert (Hn : 0 < n).
  { unfold n, ofnat. destruct buf as [|x r]; [congruence|].
    unfold Qlt. simpl. lia. }
  destruct (Qeq_bool ((n + n) / 2) 0) eqn:A; qbool.
  - exfalso. assert ((n + n) / 2 == n) by field. lra.
  - assert (R : Qabs (n - n) / ((n + n) / 2) == 0).
    { assert (Z0 : n - n == 0) by ring. rewrite Z0. simpl Qabs.
      field. intro. lra. }
    destruct (Qlt_bool _ (5 # 100)) eqn:B; [reflexivity|].
    qbool. rewrite R in B. exfalso. lra.
Qed.

(** C5 (as the code has it). [compareStructuralFidelity(null, null)] is
    0.8; [compareScreenshots] on two byte-identical non-empty buffers is
    0.8; and [compareStructuralFidelity] is at least 0.9 when the original
    carries all seven counts and its counts of text nodes, images,
    sections, containers, headings and links equal those counted in the
    cloned tree. *)
Theorem scoring_boundaries :
  compareStructuralFidelity None None == 8 # 10 /\
  (forall buf : Buffer,
      buf <> [] -> compareScreenshots (Some buf) (Some buf) == 8 # 10) /\
  (forall o c : Structure,
      (forall m, In m metrics ->
                 exists q, prop m (counts o) = Some q /\
                           (m <> "elementCount" ->
                            q == ofnat (countElementsInStructure (Some c) m))) ->
      9 # 10 <= compareStructuralFidelity (Some o) (Some c)).
Proof.
  split; [reflexivity|]. split; [exact compareScreenshots_identical|].
  intros o c H.
  assert (Hm : forall m, In m metrics -> m <> "elementCount" ->
               forall acc, fst (check_metric o c acc m) == fst acc + 1 /\
                           snd (check_metric o c acc m) = S (snd acc)).
  { intros m I NE acc. destruct (H m I) as [q [P E]].
    eapply check_metric_equal; eauto. }
  destruct (H "elementCount") as [qe [Pe _]]; [simpl; auto|].
  unfold compareStructuralFidelity, metrics. cbn [fold_left].
  set (a1 := check_metric o c (0, 0%nat) "elementCount").
  destruct (check_metric_elementCount o c (0, 0%nat) qe Pe) as [S1 C1].
  fold a1 in S1, C1. simpl fst in S1. simpl snd in C1.
  set (a2 := check_metric o c a1 "textNodes").
  destruct (Hm "textNodes" ltac:(simpl; tauto) ltac:(discriminate) a1) as [S2 C2].
  fold a2 in S2, C2.
  set (a3 := check_metric o c a2 "images").
  destruct (Hm "images" ltac:(simpl; tauto) ltac:(discriminate) a2) as [S3 C3].
  fold a3 in S3, C3.
  set (a4 := check_metric o c a3 "sections").
  destruct (Hm "sections" ltac:(simpl; tauto) ltac:(discriminate) a3) as [S4 C4].
  fold a4 in S4, C4.
  set (a5 := check_metric o c a4 "containers").
  destruct (Hm "containers" ltac:(simpl; tauto) ltac:(discriminate) a4) as [S5 C5].
  fold a5 in S5, C5.
  set (a6 := check_metric o c a5 "headings").
  destruct (Hm "headings" ltac:(simpl; tauto) ltac:(discriminate) a5) as [S6 C6].
  fold a6 in S6, C6.
  set (a7 := check_metric o c a6 "links").
  destruct (Hm "links" ltac:(simpl; tauto) ltac:(discriminate) a6) as [S7 C7].
  fold a7 in S7, C7.
  assert (C : snd a7 = 7%nat) by congruence.
  assert (S : 63 # 10 <= fst a7) by lra.
  clearbody a7. destruct a7 as [score checks]. simpl in C, S. subst checks.
  change (7 <? 3)%nat with false. change (0 <? 7)%nat with true.
  cbn [andb]. cbv iota.
  assert (F : 9 # 10 <= score / ofnat 7).
  { change (ofnat 7) with (7 # 1).
    apply Qle_shift_div_l; [reflexivity|]. lra. }
  set (final := score / ofnat 7) in *. clearbody final.
  destruct (hasValidContent (Some c)); [|exact F].
  match goal with |- _ <= Qmin ?a ?b => destruct (Qmin_cases a b) as [[_ M]|[_ M]] end;
    rewrite M; lra.
Qed.

End ScoringBoundaries.

Lemma scoring_boundaries_witness :
  (Samples.twoBytes <> [] /\
   Verifier.compareScreenshots (Some Samples.twoBytes) (Some Samples.twoBytes)
   == 8 # 10) /\
  9 # 10 <= Verifier.compareStructuralFidelity (Some Samples.helloCounts)
                                               (Some Samples.helloDiv).
Proof.
  destruct scoring_boundaries as [_ [B S]].
  split.
  - split; [discriminate|]. apply B. discriminate.
  - apply S.
    intros m [<-|[<-|[<-|[<-|[<-|[<-|[<-|[]]]]]]]];
      eexists; (split; [reflexivity|]);
      first [ intros _; reflexivity | intros NE; exfalso; apply NE; reflexivity ].
Defined.

(** The same object on both sides does not score 0.9: a captured element
    carries none of the seven counts (score 0.72 here), a record of counts
    has no tree to count in (score 0.3 here); and two identical empty
    buffers score 0.1. *)
Lemma scoring_boundaries_fail :
  Verifier.compareStructuralFidelity (Some Samples.helloDiv) (Some Samples.helloDiv)
  == 72 # 100 /\
  Verifier.compareStructuralFidelity (Some Samples.helloCounts)
                                     (Some Samples.helloCounts)
  < 9 # 10 /\
  Verifier.compareScreenshots (Some []) (Some []) == 1 # 10.
Proof. repeat split. Qed.

(** ** Objects as property lists *)

Lemma lookup_update_same (k : string) (x : Js) (ps : list (string * Js)) :
  lookup k (update k x ps) = x.
Proof.
  induction ps as [|[k' v] r IH]; simpl.
  - rewrite String.eqb_refl. reflexivity.
  - destruct (k' =? k)%string eqn:E; simpl.
    + rewrite String.eqb_refl. reflexivity.
    + rewrite E. exact IH.
Qed.

Lemma lookup_update_other (k k' : string) (x : Js) (ps : list (string * Js)) :
  k <> k' -> lookup k (update k' x ps) = lookup k ps.
Proof.
  intros NE. induction ps as [|[k0 v] r IH]; simpl.
  - destruct (k' =? k)%string eqn:E; [|reflexivity].
    apply String.eqb_eq in E. congruence.
  - destruct (k0 =? k')%string eqn:E; simpl.
    + apply String.eqb_eq in E. subst k0.
      destruct (k' =? k)%string eqn:E'; [|reflexivity].
      apply String.eqb_eq in E'. congruence.
    + destruct (k0 =? k)%string; [reflexivity | exact IH].
Qed.

(** ** Column widths *)

Section ColumnWidths.
Import Converter.

Lemma columnSize_setColumnSize (width : Z) (column : Js) :
  is_column column = true ->
  columnSize (setColumnSize width column) = jnum width.
Proof.
  destruct column as [| | | | | | |ps]; try discriminate.
  unfold is_column.
  destruct (lookup "settings" ps) as [| | | | | | |ss] eqn:S; try discriminate.
  intros _. unfold columnSize, setColumnSize, spread.
  cbn [fold_left fst snd get set]. rewrite S. cbn [set get].
  rewrite lookup_update_same. cbn [get].
  rewrite lookup_update_other by discriminate.
  apply lookup_update_same.
Qed.

Lemma proportionalWidth_bounds (w total : Q) :
  (15 <= proportionalWidth w total <= 70)%Z.
Proof. unfold proportionalWidth. lia. Qed.

Lemma assignWidths_spec :
  forall (columns : list Js) (ws : list Q) (total : Q) (used : Z),
    columns <> [] ->
    List.length ws = List.length columns ->
    forallb is_column columns = true ->
    exists widths : list Z,
      map columnSize (assignWidths columns ws total used) = map jnum widths /\
      List.length widths = List.length columns /\
      (used + Zsum widths = 100)%Z /\
      Forall (fun w => 15 <= w <= 70)%Z (removelast widths).
Proof.
  induction columns as [|c rest IH]; intros ws total used NE L W;
    [congruence|].
  simpl in W. apply andb_true_iff in W. destruct W as [Wc Wr].
  destruct rest as [|c' rest'].
  - exists [100 - used]%Z. cbn [assignWidths map List.length].
    rewrite columnSize_setColumnSize by exact Wc.
    split; [reflexivity|]. split; [reflexivity|].
    split; [unfold Zsum; cbn [fold_right]; lia | constructor].
  - destruct ws as [|w ws']; [discriminate|].
    simpl in L. injection L as L.
    destruct (IH ws' total (used + proportionalWidth w total)%Z
                 ltac:(discriminate) L Wr) as [widths [M [Len [Sum All]]]].
    exists (proportionalWidth w total :: widths).
    change (assignWidths (c :: c' :: rest') (w :: ws') total used)
      with (setColumnSize (proportionalWidth w total) c
              :: assignWidths (c' :: rest') ws' total
                   (used + proportionalWidth w total)).
    cbn [map]. rewrite columnSize_setColumnSize by exact Wc. rewrite M.
    split; [reflexivity|]. split; [|split].
    + simpl. rewrite Len. reflexivity.
    + unfold Zsum in *. cbn [fold_right]. lia.
    + destruct widths as [|w0 wr]; [discriminate|].
      change (removelast (proportionalWidth w total :: w0 :: wr))
        with (proportionalWidth w total :: removelast (w0 :: wr)).
      constructor; [apply proportionalWidth_bounds | exact All].
Qed.

(** C1 (as the code has it). For two or more columns,
    [calculateIntelligentColumnWidths] gives the columns integer
    [_column_size] values that sum to exactly 100, every column but the
    last getting a width in [15,70]; the last gets what is left of 100. *)
Theorem column_widths_sum_100 (columns : list Js) :
  (2 <= List.length columns)%nat ->
  forallb is_column columns = true ->
  exists widths : list Z,
    map columnSize (calculateIntelligentColumnWidths columns) = map jnum widths /\
    List.length widths = List.length columns /\
    Zsum widths = 100%Z /\
    Forall (fun w => 15 <= w <= 70)%Z (removelast widths) /\
    last widths 0%Z = (100 - Zsum (removelast widths))%Z.
Proof.
  intros L W.
  destruct columns as [|c [|c' rest]]; simpl in L; try lia.
  unfold calculateIntelligentColumnWidths.
  destruct (assignWidths_spec (c :: c' :: rest)
              (map contentWeight (c :: c' :: rest))
              (Qsum (map contentWeight (c :: c' :: rest))) 0%Z
              ltac:(discriminate) (length_map _ _) W)
    as [widths [M [Len [Sum All]]]].
  exists widths.
  split; [exact M|]. split; [exact Len|]. split; [lia|]. split; [exact All|].
  assert (Hs : forall l : list Z, l <> [] ->
                 Zsum l = (Zsum (removelast l) + last l 0)%Z).
  { induction l as [|a [|b r] IHl]; intros H;
      [congruence | unfold Zsum; cbn [fold_right removelast last]; lia |].
    change (removelast (a :: b :: r)) with (a :: removelast (b :: r)).
    change (last (a :: b :: r) 0%Z) with (last (b :: r) 0%Z).
    change (Zsum (a :: b :: r)) with (a + Zsum (b :: r))%Z.
    change (Zsum (a :: removelast (b :: r)))
      with (a + Zsum (removelast (b :: r)))%Z.
    rewrite IHl by discriminate. lia. }
  destruct widths as [|w0 wr]; [discriminate|].
  rewrite (Hs (w0 :: wr)) in Sum by discriminate. lia.
Qed.

End ColumnWidths.

Lemma column_widths_sum_100_witness :
  let columns :=
    fst (Converter.createColumnsFromChildren Samples.sampleRandom
           Samples.unevenChildren Converter.constructor) in
  (2 <= List.length columns)%nat /\
  forallb Converter.is_column columns = true /\
  exists widths : list Z,
    map Converter.columnSize (Converter.calculateIntelligentColumnWidths columns)
    = map Converter.jnum widths /\
    Converter.Zsum widths = 100%Z.
Proof.
  intro columns.
  assert (L : (2 <= List.length columns)%nat) by (vm_compute; lia).
  assert (W : forallb Converter.is_column columns = true) by (vm_compute; reflexivity).
  split; [exact L|]. split; [exact W|].
  destruct (column_widths_sum_100 columns L W) as [widths [M [_ [S _]]]].
  exists widths. split; assumption.
Defined.

(** The last column is not kept within [15,70]: a paragraph beside an
    article with nine paragraphs gives the widths 29 and 71, and eight
    sections give seven widths of 15 and a last width of -5. *)
Lemma last_column_out_of_range :
  map Converter.columnSize
      (fst (Converter.createColumnsFromChildren Samples.sampleRandom
              Samples.unevenChildren Converter.constructor))
  = map Converter.jnum [29; 71]%Z /\
  map Converter.columnSize
      (fst (Converter.createColumnsFromChildren Samples.sampleRandom
              Samples.eightChildren Converter.constructor))
  = map Converter.jnum [15; 15; 15; 15; 15; 15; 15; -5]%Z.
Proof. split; vm_compute; reflexivity. Qed.

(** ** Sections and their columns *)

Section SectionsHaveColumns.
Import Converter.
Variable random : nat -> Q.

Lemma determineElementorType_cases (element : ElementNode) (parentType : string) :
  determineElementorType element parentType = "section" \/
  determineElementorType element parentType = "column" \/
  determineElementorType element parentType = "widget".
Proof.
  unfold determineElementorType.
  repeat match goal with
         | |- context [if ?b then _ else _] => destruct b
         end; auto.
Qed.

Lemma createSection_shape (element : ElementNode) (s : St) :
  exists id settings,
    fst (createSection random element s)
    = JObj [("id", JStr id); ("elType", JStr "section"); ("settings", settings);
            ("elements", JArr []); ("isInner", JBool false)].
Proof.
  unfold createSection, bind.
  destruct (generateElementId random s) as [id s'].
  exists id, (sectionSettings (layout element)). reflexivity.
Qed.

Lemma createColumn_shape (l : option Layout) (s : St) :
  exists id,
    fst (createColumn random l s)
    = JObj [("id", JStr id); ("elType", JStr "column");
            ("settings", columnSettings l);
            ("elements", JArr []); ("isInner", JBool false)].
Proof.
  unfold createColumn, bind.
  destruct (generateElementId random s) as [id s'].
  exists id. reflexivity.
Qed.

Lemma createDefaultColumn_shape (s : St) :
  exists id,
    fst (createDefaultColumn random s)
    = JObj [("id", JStr id); ("elType", JStr "column");
            ("settings", JObj [("_column_size", jnum 100); ("_inline_size", JNull)]);
            ("elements", JArr [])].
Proof.
  unfold createDefaultColumn, bind.
  destruct (generateElementId random s) as [id s'].
  exists id. reflexivity.
Qed.

Lemma widget_shape (widgetType : string) (base : Js) (extra : list (string * Js))
      (s : St) :
  exists id,
    fst (widget random widgetType base extra s)
    = Some (JObj [("id", JStr id); ("elType", JStr "widget");
                  ("widgetType", JStr widgetType);
                  ("settings", spread base extra)]).
Proof.
  unfold widget, bind.
  destruct (generateElementId random s) as [id s'].
  exists id. reflexivity.
Qed.

(** A widget, when [createWidget] returns one, is an object of type
    [widget]. *)
Lemma createWidget_shape (element : ElementNode) (s : St) (w : Js) :
  fst (createWidget random element s) = Some w ->
  exists id widgetType settings,
    w = JObj [("id", JStr id); ("elType", JStr "widget");
              ("widgetType", JStr widgetType); ("settings", settings)].
Proof.
  unfold createWidget, bind.
  destruct (generateElementId random s) as [eid s1].
  repeat match goal with
         | |- context [if ?b then _ else _] => destruct b
         end;
    intros H;
    try discriminate;
    match type of H with
    | fst (widget _ ?t ?b ?e ?st) = _ =>
        destruct (widget_shape t b e st) as [id E]; rewrite E in H;
        injection H as <-; eauto
    end.
Qed.

Lemma processElement_shape (element : ElementNode) (parentType : string)
      (depth : nat) (s : St) :
  shaped (fst (processElement random element parentType depth s)) = true.
Proof.
  destruct element as [tag cls txt ih oh at_ ly ch].
  cbn -[determineElementorType createSection createColumnsFromChildren
        createColumn createWidget String.eqb Nat.ltb].
  destruct (30 <? depth)%nat; [reflexivity|].
  set (el := mkNode tag cls txt ih oh at_ ly ch).
  destruct (determineElementorType_cases el parentType) as [E|[E|E]];
    rewrite E; cbn [String.eqb Ascii.eqb Bool.eqb].
  - unfold bind.
    destruct (createSection_shape el s) as [id [settings Sh]].
    destruct (createSection random el s) as [section s1].
    simpl in Sh. subst section.
    unfold kids. cbn [children el].
    destruct ch as [[|c r]|]; try reflexivity.
    destruct (createColumnsFromChildren random (c :: r) s1) as [columns s2].
    reflexivity.
  - unfold bind.
    destruct (createColumn_shape ly s) as [id Sh].
    cbn [layout el].
    destruct (createColumn random ly s) as [column s1].
    simpl in Sh. subst column.
    destruct ch as [[|c r]|]; try reflexivity.
    match goal with
    | |- context [let '(a, s') := ?m in _] => destruct m as [results s2]
    end.
    reflexivity.
  - unfold bind.
    destruct (createWidget random el s) as [[w|] s1] eqn:W; [|reflexivity].
    destruct (createWidget_shape el s w) as [id [wt [st ->]]];
      [rewrite W; reflexivity | reflexivity].
Qed.

Lemma pushResult_shaped (sections : list Js) (result : Js) :
  Forall (fun x => shaped x = true) sections ->
  shaped result = true ->
  Forall (fun x => shaped x = true) (pushResult sections result).
Proof.
  intros F Sh. unfold pushResult.
  destruct (truthy result); [|exact F].
  destruct result; try (apply Forall_app; split; [exact F | constructor; auto]).
  discriminate.
Qed.

Lemma processChildren_shaped (cs : list ElementNode) :
  forall (sections : list Js) (s : St),
    Forall (fun x => shaped x = true) sections ->
    Forall (fun x => shaped x = true) (fst (processChildren random cs sections s)).
Proof.
  induction cs as [|child r IH]; intros sections s F; [exact F|].
  cbn [processChildren]. unfold bind.
  pose proof (processElement_shape child "body" 0 s) as Sh.
  destruct (processElement random child "body" 0 s) as [result s1].
  apply IH. apply pushResult_shaped; assumption.
Qed.

Lemma topLevelWalk_shaped (vs : VisualStructure) (s : St) :
  Forall (fun x => shaped x = true) (fst (topLevelWalk random vs s)).
Proof.
  unfold topLevelWalk.
  destruct (match vs with Tree root => Some root | Captured _ n => n end)
    as [a|]; [|constructor].
  destruct (children a) as [[|c r]|].
  - destruct (str_truthy (tagName a)); [|constructor].
    unfold bind.
    pose proof (processElement_shape a "body" 0 s) as Sh.
    destruct (processElement random a "body" 0 s) as [result s1].
    apply pushResult_shaped; [constructor | exact Sh].
  - apply processChildren_shaped. constructor.
  - destruct (str_truthy (tagName a)); [|constructor].
    unfold bind.
    pose proof (processElement_shape a "body" 0 s) as Sh.
    destruct (processElement random a "body" 0 s) as [result s1].
    apply pushResult_shaped; [constructor | exact Sh].
Qed.

(** After [ensureColumns], a section has at least one column. *)
Lemma ensureColumns_columns (x : Js) (s : St) :
  shaped x = true ->
  isSection (fst (ensureColumns random x s)) = true ->
  hasElements (fst (ensureColumns random x s)) = true.
Proof.
  intros Sh. unfold ensureColumns.
  destruct x as [| | | | | | |ps]; try discriminate.
  unfold shaped, isSection, hasElements in *. cbn [get is_array negb andb] in *.
  destruct (str_is "section" (lookup "elType" ps)) eqn:T.
  - cbn [implb andb] in Sh.
    destruct (lookup "elements" ps) as [| | | | | |[|c r]|] eqn:E;
      try discriminate.
    + cbn [andb List.length Nat.eqb]. unfold bind, ret.
      destruct (createDefaultColumn random s) as [col s1].
      intros _. cbn [fst set get]. rewrite lookup_update_same. reflexivity.
    + cbn [andb List.length Nat.eqb]. intros _. unfold ret. cbn [fst get].
      rewrite E. reflexivity.
  - unfold ret. cbn [andb fst get]. rewrite T. discriminate.
Qed.

Lemma mapM_length {A B} (f : A -> M B) (l : list A) :
  forall s, List.length (fst (mapM f l s)) = List.length l.
Proof.
  induction l as [|a r IH]; intros s; [reflexivity|].
  cbn [mapM]. unfold bind, ret.
  destruct (f a s) as [b s1]. specialize (IH s1).
  destruct (mapM f r s1) as [bs s2]. simpl in *. congruence.
Qed.

Lemma mapM_Forall {A B} (f : A -> M B) (P : A -> Prop) (Q : B -> Prop) :
  (forall a s, P a -> Q (fst (f a s))) ->
  forall l s, Forall P l -> Forall Q (fst (mapM f l s)).
Proof.
  intros H. induction l as [|a r IH]; intros s F; [constructor|].
  inversion F as [|? ? Pa Pr]; subst.
  cbn [mapM]. unfold bind, ret.
  pose proof (H a s Pa) as Qa.
  destruct (f a s) as [b s1]. specialize (IH s1 Pr).
  destruct (mapM f r s1) as [bs s2]. simpl in *. constructor; assumption.
Qed.

Lemma createDefaultSection_shape (s : St) :
  exists id cid,
    fst (createDefaultSection random s)
    = JObj [("id", JStr id); ("elType", JStr "section");
            ("settings", JObj [("content_width", JStr "boxed")]);
            ("elements",
             JArr [JObj [("id", JStr cid); ("elType", JStr "column");
                         ("settings",
                          JObj [("_column_size", jnum 100); ("_inline_size", JNull)]);
                         ("elements", JArr [])]])].
Proof.
  unfold createDefaultSection, bind.
  destruct (generateElementId random s) as [id s1].
  destruct (createDefaultColumn_shape s1) as [cid E].
  destruct (createDefaultColumn random s1) as [col s2].
  simpl in E. subst col. exists id, cid. reflexivity.
Qed.

(** When no pre-built structure is found, the content list
    [buildElementorFromVisual] returns is not empty and every section in
    it has at least one element; and when the top-level walk yields
    nothing, the list is one default section that holds one default
    column. *)
Theorem sections_have_columns (vs : VisualStructure) (s : St) :
  preBuiltSections vs = None ->
  let content := fst (buildElementorFromVisual random (Some vs) s) in
  content <> [] /\
  Forall (fun x => isSection x = true -> hasElements x = true) content /\
  (fst (topLevelWalk random vs s) = [] ->
   exists section column,
     content = [section] /\ isSection section = true /\
     get "elements" section = JArr [column] /\ isColumn column = true).
Proof.
  intros NP. unfold buildElementorFromVisual. rewrite NP. unfold bind.
  pose proof (topLevelWalk_shaped vs s) as Sh.
  destruct (topLevelWalk random vs s) as [sections s1]. cbn [fst] in *.
  destruct sections as [|x r].
  - destruct (createDefaultSection_shape s1) as [id [cid E]].
    destruct (createDefaultSection random s1) as [d s2]. cbn [fst] in E.
    subst d. unfold ret. cbn [mapM]. unfold bind, ret, ensureColumns.
    cbn. split; [discriminate|]. split.
    + constructor; [reflexivity | constructor].
    + intros _. eexists. eexists. split; [reflexivity|].
      split; [reflexivity|]. split; reflexivity.
  - unfold ret. split; [|split].
    + pose proof (mapM_length (ensureColumns random) (x :: r) s1) as L.
      intro H. rewrite H in L. discriminate.
    + apply (mapM_Forall (ensureColumns random) (fun x => shaped x = true));
        [|exact Sh].
      intros a st Sa. apply ensureColumns_columns. exact Sa.
    + discriminate.
Qed.

End SectionsHaveColumns.

(** ** Identifiers *)

Lemma length_append_char (a : string) (c : ascii) :
  String.length (a ++ String c EmptyString) = S (String.length a).
Proof. induction a as [|x a IH]; simpl; congruence. Qed.

Lemma all_chars_append_char (p : ascii -> bool) (a : string) (c : ascii) :
  Converter.all_chars p a = true -> p c = true ->
  Converter.all_chars p (a ++ String c EmptyString) = true.
Proof.
  intros A C. induction a as [|x a IH]; simpl in *.
  - rewrite C. reflexivity.
  - apply andb_true_iff in A. destruct A as [X A].
    rewrite X. simpl. apply IH. exact A.
Qed.

Lemma charAt_chars (i : Z) :
  (0 <= i < 36)%Z ->
  exists c, charAt Converter.chars i = String c EmptyString /\
            Converter.id_char c = true.
Proof.
  intros R.
  assert (E : exists k, i = Z.of_nat k /\ (k < 36)%nat)
    by (exists (Z.to_nat i); lia).
  destruct E as [k [-> K]].
  do 36 (destruct k as [|k]; [eexists; split; reflexivity|]).
  lia.
Qed.

Section Identifiers.
Import Converter.
Variable random : nat -> Q.
Hypothesis random_range : forall n, 0 <= random n < 1.

Lemma random_index (n : nat) :
  (0 <= Math_floor (random n * ofnat (String.length chars)) < 36)%Z.
Proof.
  destruct (random_range n) as [L U].
  change (ofnat (String.length chars)) with (36 # 1).
  unfold Math_floor. split.
  - change 0%Z with (Qfloor 0). apply Qfloor_resp_le. lra.
  - rewrite Zlt_Qlt.
    apply Qle_lt_trans with (random n * (36 # 1)); [apply Qfloor_le|].
    change (inject_Z 36) with (36 # 1). lra.
Qed.

Lemma generateElementId_loop_ok (n : nat) :
  forall (result : string) (s : St),
    all_chars id_char result = true ->
    String.length (fst (generateElementId_loop random n result s))
    = (String.length result + n)%nat /\
    all_chars id_char (fst (generateElementId_loop random n result s)) = true.
Proof.
  induction n as [|n IH]; intros result s A.
  - simpl. split; [lia | exact A].
  - cbn [generateElementId_loop]. unfold bind, Math_random.
    destruct (charAt_chars _ (random_index (draws s))) as [c [E C]].
    rewrite E.
    destruct (IH (result ++ String c EmptyString)
                 (mkSt (S (draws s)) (globalColors s) (globalFonts s))
                 (all_chars_append_char _ _ _ A C)) as [L A'].
    split; [|exact A'].
    rewrite L, length_append_char. lia.
Qed.

(** Whatever [Math.random] returns (in [0,1)), every identifier
    [generateElementId] produces is a string of exactly eight characters,
    each a lowercase letter or a digit. *)
Theorem generateElementId_format (s : St) :
  well_formed_id (fst (generateElementId random s)) = true.
Proof.
  unfold well_formed_id, generateElementId.
  destruct (generateElementId_loop_ok 8 "" s eq_refl) as [L A].
  rewrite L, A. reflexivity.
Qed.

End Identifiers.

Lemma sampleRandom_range : forall n, 0 <= Samples.sampleRandom n < 1.
Proof.
  intros n. unfold Samples.sampleRandom. cbn [Samples.lcg].
  pose proof (Z.mod_pos_bound (Samples.lcg n * 1103515245 + 12345) 2147483648
                              eq_refl) as [L U].
  unfold Qle, Qlt. cbn [Qnum Qden]. lia.
Defined.

Lemma generateElementId_format_witness :
  (forall n, 0 <= Samples.sampleRandom n < 1) /\
  Converter.well_formed_id
    (fst (Converter.generateElementId Samples.sampleRandom Converter.constructor))
  = true.
Proof.
  split; [exact sampleRandom_range|].
  exact (generateElementId_format Samples.sampleRandom sampleRandom_range
                                  Converter.constructor).
Defined.

(** C10, at the failing inputs. Identifiers can be missing and can
    repeat: the sections of the pre-built structure, which the converter
    returns as they are, carry no [id]; and with a random source that
    keeps returning 0 the default section and its column both get the
    identifier [aaaaaaaa]. *)
Lemma ids_missing_or_repeated :
  (exists section rest,
      get "content" Samples.helloTemplate = JArr (section :: rest) /\
      Converter.isSection section = true /\
      get "id" section = JUndefined) /\
  (exists section column,
      fst (Converter.buildElementorFromVisual
             Samples.stuckRandom (Some (Converter.Captured [] None))
             Converter.constructor) = [section] /\
      get "elements" section = JArr [column] /\
      get "id" section = JStr "aaaaaaaa" /\
      get "id" column = JStr "aaaaaaaa").
Proof.
  split.
  - eexists. eexists. split; [vm_compute; reflexivity|].
    split; reflexivity.
  - eexists. eexists. split; [vm_compute; reflexivity|].
    split; [reflexivity|]. split; reflexivity.
Qed.

Lemma sections_have_columns_witness :
  Converter.preBuiltSections (Converter.Tree Samples.helloBody) = None /\
  fst (Converter.buildElementorFromVisual
         Samples.sampleRandom (Some (Converter.Tree Samples.helloBody))
         Converter.constructor) <> [].
Proof.
  assert (NP : Converter.preBuiltSections (Converter.Tree Samples.helloBody) = None)
    by (vm_compute; reflexivity).
  split; [exact NP|].
  exact (proj1 (sections_have_columns Samples.sampleRandom
                  (Converter.Tree Samples.helloBody) Converter.constructor NP)).
Defined.

(** C2, at the failing input. A section of the emitted content list can
    have no column: the scan of the sample page returns the pre-built
    sections as they are, the first of them (the empty header) with an
    empty [elements], the second holding widgets directly. *)
Lemma prebuilt_section_without_column :
  exists first second rest,
    get "content" Samples.helloTemplate = JArr (first :: second :: rest) /\
    Converter.isSection first = true /\
    Converter.hasElements first = false /\
    Converter.isSection second = true /\
    forallb Converter.isColumn (items_of (get "elements" second)) = false.
Proof.
  eexists. eexists. eexists. split; [vm_compute; reflexivity|].
  repeat split.
Qed.

(** ** Progress reporting *)

Section Progress.
Variable random : nat -> Q.
Variable now : string.

(** X30. On every path of a request but the verification-warning one,
    the percentages reported never go down, whatever the scraper's and
    the verifier's browsers answer. *)
Lemma scan_progress_monotone_unless_warned
      (skip : bool) (sb : Scraper.Browser) (vb : Verifier.Browser)
      (url : string) (s : Converter.St) :
  let events := fst (fst (Route.scan random now skip sb vb url s)) in
  Route.warned events = false ->
  Route.nondecreasing (map progress events) = true.
Proof.
  unfold Route.scan, Scraper.scrapeVisualLayout, Converter.bind, Converter.ret.
  destruct (Scraper.launch sb) as [u0|]; [|intros _; reflexivity].
  destruct (Scraper.newPage sb) as [u1|]; [|intros _; reflexivity].
  destruct (Scraper.goto sb _) as [u2|]; [|intros _; reflexivity].
  destruct (Scraper.scroll sb) as [u3|]; [|intros _; reflexivity].
  destruct (Scraper.pageInfo sb) as [title|]; [|intros _; reflexivity].
  destruct (Scraper.breakpoint sb Verifier.mobile) as [m|]; [|intros _; reflexivity].
  destruct (Scraper.breakpoint sb Verifier.tablet) as [t|]; [|intros _; reflexivity].
  destruct (Scraper.breakpoint sb Verifier.desktop) as [d|]; [|intros _; reflexivity].
  destruct (Scraper.harvest sb) as [pa|]; [|intros _; reflexivity].
  destruct (Scraper.buildVisualStructureMap random d s) as [vs s1].
  set (visualData := Scraper.mkVisualData url title vs m t d pa).
  unfold Verifier.verifyFidelity.
  destruct (Verifier.launch vb) as [u4|]; [|intros _; reflexivity].
  destruct (snd (Verifier.captureOriginalSite vb)) as [orig|msg].
  - destruct (Verifier.renderClonedStructure vb _) as [clone|msg].
    + match goal with
      | |- context [if ?c then _ else _] => destruct c
      end;
        match goal with
        | |- context [if ?c then _ else _] => destruct c
        end; try (intros _; reflexivity); try discriminate;
        match goal with
        | |- context [Converter.convertVisualToElementor ?r ?n ?d ?v ?st] =>
            destruct (Converter.convertVisualToElementor r n d v st) as [tpl s2]
        end;
        destruct (Route.criticalValidationFailed tpl);
        first [discriminate | intros _; reflexivity].
    + match goal with
      | |- context [if ?c then _ else _] => destruct c
      end;
        match goal with
        | |- context [if ?c then _ else _] => destruct c
        end; try (intros _; reflexivity); try discriminate;
        match goal with
        | |- context [Converter.convertVisualToElementor ?r ?n ?d ?v ?st] =>
            destruct (Converter.convertVisualToElementor r n d v st) as [tpl s2]
        end;
        destruct (Route.criticalValidationFailed tpl);
        first [discriminate | intros _; reflexivity].
  - match goal with
    | |- context [if ?c then _ else _] => destruct c
    end;
      match goal with
      | |- context [if ?c then _ else _] => destruct c
      end; try (intros _; reflexivity); try discriminate;
      match goal with
      | |- context [Converter.convertVisualToElementor ?r ?n ?d ?v ?st] =>
          destruct (Converter.convertVisualToElementor r n d v st) as [tpl s2]
      end;
      destruct (Route.criticalValidationFailed tpl);
      first [discriminate | intros _; reflexivity].
Qed.

End Progress.

(** C9, at the failing input. Scanning an untitled page without images
    whose verification cannot reach the site: after 96.2 the route reports
    90 (the verification warning), then 97, 98 and 100. *)
Theorem progress_drops_on_warning :
  let events :=
    fst (fst (Route.scan Samples.sampleRandom Samples.sampleNow false
                         Samples.untitledPage Samples.unreachable
                         "https://example.com" Converter.constructor)) in
  Forall2 Qeq (map progress events)
          [1; 2; 8; 15; 22; 28; 28; 30; 32; 42; 58; 72; 88; 95; 96;
           9605 # 100; 962 # 10; 90; 97; 98; 100] /\
  Route.nondecreasing (map progress events) = false.
Proof.
  split; [|vm_compute; reflexivity].
  cbv zeta.
  match goal with
  | |- Forall2 _ ?l _ => let v := eval vm_compute in l in change l with v
  end.
  repeat (constructor; [reflexivity|]). constructor.
Qed.

(** ** Navigation *)

(** X29. The verifier's capture tries the three wait strategies in
    order (network idle, 60 s; nearly idle, 45 s; DOM content loaded,
    30 s, followed by a wait of 3 s), stops at the first that succeeds,
    and throws the third error when all three fail. *)
Lemma captureOriginalSite_cascade (b : Verifier.Browser) :
  Verifier.newPage b = Returns tt ->
  let s1 := Goto ["networkidle0"] 60000%Z in
  let s2 := Goto ["networkidle2"] 45000%Z in
  let s3 := Goto ["domcontentloaded"] 30000%Z in
  let attempts := fst (Verifier.captureOriginalSite b) in
  let result := snd (Verifier.captureOriginalSite b) in
  match Verifier.goto b ["networkidle0"], Verifier.goto b ["networkidle2"],
        Verifier.goto b ["domcontentloaded"] with
  | Returns _, _, _ =>
      attempts = [s1] /\ result = Verifier.captureAfterNavigation b
  | Throws _, Returns _, _ =>
      attempts = [s1; s2] /\ result = Verifier.captureAfterNavigation b
  | Throws _, Throws _, Returns _ =>
      attempts = [s1; s2; s3; Delay 3000%Z] /\
      result = Verifier.captureAfterNavigation b
  | Throws _, Throws _, Throws error3 =>
      attempts = [s1; s2; s3] /\ result = Throws error3
  end.
Proof.
  intros N. unfold Verifier.captureOriginalSite. rewrite N.
  destruct (Verifier.goto b ["networkidle0"]);
    destruct (Verifier.goto b ["networkidle2"]);
    destruct (Verifier.goto b ["domcontentloaded"]); split; reflexivity.
Qed.

(** The scraper navigates once: when that attempt fails, the error is
    thrown, whatever another wait strategy would have done. *)
Lemma scrapeVisualLayout_one_attempt
      (random : nat -> Q) (b : Scraper.Browser) (url e : string)
      (s : Converter.St) :
  Scraper.launch b = Returns tt -> Scraper.newPage b = Returns tt ->
  Scraper.goto b ["networkidle0"; "domcontentloaded"] = Throws e ->
  fst (Scraper.scrapeVisualLayout random b url s)
  = ([mkEvent "connecting" 2; mkEvent "loading_page" 8],
     [Goto ["networkidle0"; "domcontentloaded"] 30000%Z],
     Throws e).
Proof.
  intros L N G. unfold Scraper.scrapeVisualLayout. rewrite L, N, G. reflexivity.
Qed.

(** C7, at the failing input. A page that never satisfies the strict wait
    but would load under the relaxed one: the scrape makes one navigation
    request and fails with its error. *)
Theorem scrape_gives_up_after_one_strategy :
  Scraper.goto Samples.slowPage ["networkidle2"] = Returns tt /\
  Scraper.goto Samples.slowPage ["domcontentloaded"] = Returns tt /\
  fst (Scraper.scrapeVisualLayout Samples.sampleRandom Samples.slowPage
                                  "https://example.com" Converter.constructor)
  = ([mkEvent "connecting" 2; mkEvent "loading_page" 8],
     [Goto ["networkidle0"; "domcontentloaded"] 30000%Z],
     Throws "Navigation timeout of 30000 ms exceeded").
Proof. repeat split. Qed.

(** ** State kept between requests *)

Lemma add_all_keeps (keep : string -> bool) (l set : list string) :
  incl set (Converter.add_all keep l set).
Proof.
  unfold Converter.add_all. revert set.
  induction l as [|x r IH]; intros set; [apply incl_refl|].
  cbn [fold_left].
  eapply incl_tran; [|apply IH].
  destruct (keep x); [|apply incl_refl].
  unfold Converter.add. destruct (mem x set); [apply incl_refl|].
  apply incl_appl, incl_refl.
Qed.

(** No conversion forgets a color or a font of an earlier one: the sets
    only grow, and nothing in the converter empties them. *)
Lemma extractGlobalAssets_keeps (assets : option Converter.Assets)
      (s : Converter.St) :
  incl (Converter.globalColors s)
       (Converter.globalColors (snd (Converter.extractGlobalAssets assets s))) /\
  incl (Converter.globalFonts s)
       (Converter.globalFonts (snd (Converter.extractGlobalAssets assets s))).
Proof.
  unfold Converter.extractGlobalAssets.
  destruct assets as [a|]; [|split; apply incl_refl].
  cbn [snd Converter.globalColors Converter.globalFonts].
  split.
  - destruct (Converter.colors a); [apply add_all_keeps | apply incl_refl].
  - destruct (Converter.fonts a); [apply add_all_keeps | apply incl_refl].
Qed.

(** C8, at the failing input. Two requests for a page that uses blue: the
    one served by a converter that has served a red page before carries
    red and blue in its palette, the one served by a new converter carries
    blue only. *)
Theorem palette_depends_on_earlier_requests :
  let request colors :=
    Route.scan Samples.sampleRandom Samples.sampleNow false
               (Samples.loads colors) Samples.unreachable "https://example.com" in
  let after_red := snd (request ["rgb(255, 0, 0)"] Converter.constructor) in
  Route.customColors (snd (fst (request ["rgb(0, 0, 255)"] after_red)))
  = [JStr "rgb(255, 0, 0)"; JStr "rgb(0, 0, 255)"] /\
  Route.customColors (snd (fst (request ["rgb(0, 0, 255)"] Converter.constructor)))
  = [JStr "rgb(0, 0, 255)"].
Proof. split; vm_compute; reflexivity. Qed.

(** ** The cleaning pass and the round trip through JSON *)

Lemma Js_nested_ind (P : Js -> Prop) :
  P JUndefined -> P JNull -> (forall b, P (JBool b)) -> (forall q, P (JNum q)) ->
  P JNaN -> (forall s, P (JStr s)) ->
  (forall items, Forall P items -> P (JArr items)) ->
  (forall props, Forall (fun kv => P (snd kv)) props -> P (JObj props)) ->
  forall v, P v.
Proof.
  intros HU HN HB HQ HNaN HS HA HO.
  fix IH 1.
  intros [| |b|q| |s|items|props];
    [exact HU | exact HN | apply HB | apply HQ | exact HNaN | apply HS | |].
  - apply HA. induction items as [|x r IHr]; constructor; [apply IH | exact IHr].
  - apply HO. induction props as [|[k x] r IHr]; constructor;
      [apply IH | exact IHr].
Qed.

Lemma cleanContent_lean : forall v, Converter.lean v = true ->
                                    Converter.cleanContent v = v.
Proof.
  induction v as [| | | | | |items IH|props IH] using Js_nested_ind;
    intros L; try reflexivity.
  - cbn [Converter.cleanContent]. f_equal.
    cbn [Converter.lean] in L.
    induction IH as [|x r Hx Hr IHr]; [reflexivity|].
    apply andb_true_iff in L. destruct L as [L Lr].
    apply andb_true_iff in L. destruct L as [Lm Lx].
    apply negb_true_iff in Lm. rewrite Lm.
    rewrite (Hx Lx). f_equal. apply IHr. exact Lr.
  - cbn [Converter.cleanContent]. f_equal.
    cbn [Converter.lean] in L.
    induction IH as [|[k x] r Hx Hr IHr]; [reflexivity|].
    apply andb_true_iff in L. destruct L as [L Lr].
    apply andb_true_iff in L. destruct L as [L Lx].
    apply andb_true_iff in L. destruct L as [Lp Lm].
    apply negb_true_iff in Lp. apply negb_true_iff in Lm.
    rewrite Lp, Lm. cbn [snd] in Hx.
    rewrite (Hx Lx). f_equal. apply IHr. exact Lr.
Qed.

Lemma roundtrip_plain : forall v, Converter.plain v = true -> Json.roundtrip v = v.
Proof.
  induction v as [| | | | | |items IH|props IH] using Js_nested_ind;
    intros L; try reflexivity; try discriminate.
  - cbn [Json.roundtrip]. f_equal.
    cbn [Converter.plain] in L.
    induction IH as [|x r Hx Hr IHr]; [reflexivity|].
    apply andb_true_iff in L. destruct L as [Lx Lr].
    rewrite (Hx Lx). f_equal. apply IHr. exact Lr.
  - cbn [Json.roundtrip]. f_equal.
    cbn [Converter.plain] in L.
    induction IH as [|[k x] r Hx Hr IHr]; [reflexivity|].
    apply andb_true_iff in L. destruct L as [Lx Lr].
    cbn [snd] in Hx.
    rewrite (IHr Lr).
    destruct x; try discriminate; rewrite <- (Hx Lx) at 2; reflexivity.
Qed.

(** C6 (as the code has it). The cleaning pass returns a document
    unchanged when none of its keys is purged and none of its strings is a
    markup string of more than 1000 characters; a document that holds
    neither [undefined] nor [NaN] is read back from its JSON text equal to
    itself; and when the assembled template is such a lean document of at
    most 150000 characters, it is what [convertVisualToElementor] returns. *)
Theorem cleaning_and_round_trip :
  (forall t, Converter.lean t = true -> Converter.validateAndCleanTemplate t = t) /\
  (forall t, Converter.plain t = true -> Json.roundtrip t = t) /\
  (forall random now data report s,
      let t := fst (Converter.assembleTemplate random now data report s) in
      Converter.lean t = true ->
      (Z.of_nat (Json.size t) <= 150000)%Z ->
      fst (Converter.convertVisualToElementor random now data report s) = t).
Proof.
  split; [exact cleanContent_lean|]. split; [exact roundtrip_plain|].
  intros random now data report s t L S.
  unfold Converter.convertVisualToElementor, Converter.bind.
  subst t.
  destruct (Converter.assembleTemplate random now data report s) as [t s1].
  cbn [fst] in *. unfold Converter.validateAndCleanTemplate.
  rewrite (cleanContent_lean t L).
  destruct (150000 <? Z.of_nat (Json.size t))%Z eqn:B; [|reflexivity].
  apply Z.ltb_lt in B. lia.
Qed.

Lemma cleaning_and_round_trip_witness :
  let data := Route.for_converter (Samples.scraped Samples.helloBody) in
  let t := fst (Converter.assembleTemplate
                  Samples.sampleRandom Samples.sampleNow data None
                  Converter.constructor) in
  Converter.lean t = true /\
  (Z.of_nat (Json.size t) <= 150000)%Z /\
  fst (Converter.convertVisualToElementor
         Samples.sampleRandom Samples.sampleNow data None Converter.constructor) = t /\
  Converter.plain t = true /\
  Json.roundtrip t = t.
Proof.
  intros data t.
  assert (L : Converter.lean t = true) by (vm_compute; reflexivity).
  assert (S : (Z.of_nat (Json.size t) <= 150000)%Z)
    by (vm_compute; discriminate).
  assert (P : Converter.plain t = true) by (vm_compute; reflexivity).
  destruct cleaning_and_round_trip as [_ [R C]].
  split; [exact L|]. split; [exact S|].
  split; [exact (C _ _ _ _ _ L S)|].
  split; [exact P | exact (R _ P)].
Defined.

(** The template assembled for the scan of a small page with a long
    paragraph is far below 150000 characters, yet the cleaning pass
    replaces the paragraph's markup by a placeholder; and the template
    built from a captured tree, which holds the [NaN] of a line height
    [normal], is not read back equal from its JSON text. *)
Lemma small_document_is_cleaned :
  let convert data :=
    fst (Converter.convertVisualToElementor
           Samples.sampleRandom Samples.sampleNow data None Converter.constructor) in
  let data := Route.for_converter (Samples.scraped Samples.longTextBody) in
  let t := fst (Converter.assembleTemplate
                  Samples.sampleRandom Samples.sampleNow data None
                  Converter.constructor) in
  let paragraph v :=
    match get "content" v with
    | JArr [section] =>
        match get "elements" section with
        | JArr [_; widget] => get "html" (get "settings" widget)
        | _ => JUndefined
        end
    | _ => JUndefined
    end in
  (Z.of_nat (Json.size t) < 10000)%Z /\
  paragraph t = JStr Samples.longLines /\
  paragraph (convert data) = JStr "<p>Optimized</p>" /\
  convert data <> t /\
  Json.roundtrip (convert (Samples.treeData Samples.helloBody))
  <> convert (Samples.treeData Samples.helloBody).
Proof.
  cbv zeta.
  split; [vm_compute; reflexivity|].
  split; [vm_compute; reflexivity|].
  split; [vm_compute; reflexivity|].
  split.
  - intro E. apply (f_equal Json.size) in E. vm_compute in E. discriminate.
  - intro E. apply (f_equal Converter.plain) in E. vm_compute in E. discriminate.
Qed.

(* ================================================================== *)
(** * Part III: further properties of the code *)
(* ================================================================== *)

(** ** The ranges of the scores *)

Lemma ofnat_pos (n : nat) : (0 < n)%nat -> 0 < ofnat n.
Proof.
  intro H. unfold ofnat. change 0 with (inject_Z 0). rewrite <- Zlt_Qlt. lia.
Qed.

Lemma ofnat_nonneg (n : nat) : 0 <= ofnat n.
Proof.
  unfold ofnat. change 0 with (inject_Z 0). rewrite <- Zle_Qle. lia.
Qed.

Lemma ofnat_S (n : nat) : ofnat (S n) == ofnat n + 1.
Proof.
  unfold ofnat. rewrite Nat2Z.inj_succ, <- Z.add_1_r, inject_Z_plus.
  reflexivity.
Qed.

Lemma div_between (a b t : Q) (n : nat) :
  (0 < n)%nat -> a * ofnat n <= t <= b * ofnat n -> a <= t / ofnat n <= b.
Proof.
  intros Hn [Hl Hu]. pose proof (ofnat_pos n Hn) as P. split.
  - apply Qle_shift_div_l; assumption.
  - apply Qle_shift_div_r; assumption.
Qed.

Section ScoreRanges.
Import Verifier.

Lemma compareScreenshots_range (a b : option Buffer) :
  1 # 10 <= compareScreenshots a b <= 8 # 10.
Proof.
  unfold compareScreenshots.
  destruct a, b;
    repeat match goal with
      | |- context [if ?c then _ else _] => destruct c
      end; split; unfold Qle; simpl; lia.
Qed.

(** X1. The screenshot comparison looks at the two sizes only: it gives
    the same score whichever screenshot comes first, and the score is
    never below 0.1 nor above 0.8. *)
Theorem compareScreenshots_symmetric_bounded (a b : option Buffer) :
  compareScreenshots a b = compareScreenshots b a /\
  1 # 10 <= compareScreenshots a b <= 8 # 10.
Proof.
  split; [|apply compareScreenshots_range].
  destruct a as [o|], b as [c|]; try reflexivity.
  unfold compareScreenshots.
  set (lo := ofnat (List.length o)). set (lc := ofnat (List.length c)).
  assert (A : (lo + lc) / 2 == (lc + lo) / 2) by (rewrite (Qplus_comm lo lc); reflexivity).
  assert (D : Qabs (lo - lc) == Qabs (lc - lo)).
  { rewrite <- (Qabs_opp (lo - lc)).
    assert (E : - (lo - lc) == lc - lo) by ring. rewrite E. reflexivity. }
  assert (R : Qabs (lo - lc) / ((lo + lc) / 2) == Qabs (lc - lo) / ((lc + lo) / 2))
    by (rewrite A, D; reflexivity).
  unfold Qlt_bool.
  rewrite (Qeqb_comp _ _ A 0 0 (Qeq_refl 0)).
  rewrite (Qleb_comp _ _ (Qeq_refl (5 # 100)) _ _ R).
  rewrite (Qleb_comp _ _ (Qeq_refl (15 # 100)) _ _ R).
  rewrite (Qleb_comp _ _ (Qeq_refl (3 # 10)) _ _ R).
  rewrite (Qleb_comp _ _ (Qeq_refl (5 # 10)) _ _ R).
  reflexivity.
Qed.

Lemma visual_fold (original clone : Capture) (l : list Device) :
  forall (t : Q) (n : nat),
    (1 # 10) * ofnat n <= t <= (8 # 10) * ofnat n ->
    let r := fold_left
               (fun (acc : Q * nat) device =>
                  let '(totalScore, comparisons) := acc in
                  match screenshots original device, screenshots clone device with
                  | Some o, Some c =>
                      (totalScore + compareScreenshots (Some o) (Some c),
                       S comparisons)
                  | _, _ => acc
                  end) l (t, n) in
    (1 # 10) * ofnat (snd r) <= fst r <= (8 # 10) * ofnat (snd r).
Proof.
  induction l as [|d l IH]; intros t n H; [exact H|].
  cbn [fold_left].
  destruct (screenshots original d) as [o|], (screenshots clone d) as [c|];
    try (apply IH; exact H).
  apply IH. rewrite ofnat_S.
  pose proof (compareScreenshots_range (Some o) (Some c)). lra.
Qed.

Lemma visual_mean (original clone : Capture) :
  let r := fold_left
             (fun (acc : Q * nat) device =>
                let '(totalScore, comparisons) := acc in
                match screenshots original device, screenshots clone device with
                | Some o, Some c =>
                    (totalScore + compareScreenshots (Some o) (Some c),
                     S comparisons)
                | _, _ => acc
                end) devices (0, 0%nat) in
  (0 < snd r)%nat -> 1 # 10 <= fst r / ofnat (snd r) <= 8 # 10.
Proof.
  cbv zeta. intros P.
  pose proof (visual_fold original clone devices 0 0%nat) as F. cbv zeta in F.
  assert (F0 : (1 # 10) * ofnat 0 <= 0 <= (8 # 10) * ofnat 0)
    by (change (ofnat 0) with 0; lra).
  specialize (F F0). apply div_between; [exact P|]. exact F.
Qed.

Lemma compareVisualFidelity_bounds (original clone : Capture) :
  0 <= compareVisualFidelity original clone <= 8 # 10.
Proof.
  unfold compareVisualFidelity.
  pose proof (visual_mean original clone) as M. cbv zeta in M.
  match type of M with
  | (0 < snd ?x)%nat -> _ => destruct x as [t n]
  end.
  cbn [fst snd] in M.
  destruct (0 <? n)%nat eqn:N; [|lra].
  apply Nat.ltb_lt in N. specialize (M N). lra.
Qed.

End ScoreRanges.

(** *** The visual score in doubles *)

Section VisualMeanDouble.
Import Floats.
Import Verifier.
Local Open Scope float_scope.

(** Whatever the sizes, the score of two screenshots is one of five
    doubles. *)
Lemma compareScreenshots_values (o c : Buffer) :
  In (Double.compareScreenshots (Some o) (Some c)) [0.8; 0.6; 0.4; 0.3; 0.1].
Proof.
  unfold Double.compareScreenshots.
  repeat match goal with
         | |- context [if ?b then _ else _] => destruct b
         end; cbn [In]; auto 6.
Qed.

(** X2. In doubles, the visual score is 0 when no device has a
    screenshot on both sides, and otherwise the mean of the screenshot
    scores of the devices that have: at least 0.1 and at most
    0.8000000000000002, which is what three scores of 0.8 add up to,
    divided by 3. *)
Theorem compareVisualFidelity_range (original clone : Capture) :
  let score := Double.compareVisualFidelity original clone in
  ((forall device, screenshots original device = None \/
                   screenshots clone device = None) ->
   score = 0) /\
  ((exists device, screenshots original device <> None /\
                   screenshots clone device <> None) ->
   (0.1 <=? score) = true /\ (score <=? 0.8000000000000002) = true) /\
  ((forall device,
       Double.compareScreenshots (screenshots original device)
                                 (screenshots clone device) = 0.8 /\
       screenshots original device <> None /\
       screenshots clone device <> None) ->
   score = 0.8000000000000002 /\ (score <=? 0.8) = false).
Proof.
  cbv zeta. unfold Double.compareVisualFidelity, devices. cbn [fold_left].
  split; [|split].
  - intro H.
    destruct (H desktop) as [E|E], (H tablet) as [E'|E'], (H mobile) as [E''|E''];
      rewrite ?E, ?E', ?E'';
      repeat match goal with
        | |- context [match ?x with Some _ => _ | None => _ end] => destruct x
        end; reflexivity.
  - intros [device [Ho Hc]].
    destruct (screenshots original desktop) as [od|] eqn:Od,
             (screenshots clone desktop) as [cd|] eqn:Cd,
             (screenshots original tablet) as [ot|] eqn:Ot,
             (screenshots clone tablet) as [ct|] eqn:Ct,
             (screenshots original mobile) as [om|] eqn:Om,
             (screenshots clone mobile) as [cm|] eqn:Cm;
      try (exfalso; destruct device; congruence);
      repeat match goal with
        | |- context [Double.compareScreenshots (Some ?o) (Some ?c)] =>
            let V := fresh "V" in
            pose proof (compareScreenshots_values o c) as V;
            generalize dependent (Double.compareScreenshots (Some o) (Some c));
            intros ? V
        end;
      cbn [In] in *;
      repeat match goal with
        | H : _ \/ _ |- _ => destruct H
        | H : False |- _ => destruct H
        end; subst; split; reflexivity.
  - intros H.
    destruct (H desktop) as [Ed [Od Cd]], (H tablet) as [Et [Ot Ct]],
             (H mobile) as [Em [Om Cm]].
    destruct (screenshots original desktop) as [od|]; [|congruence].
    destruct (screenshots clone desktop) as [cd|]; [|congruence].
    destruct (screenshots original tablet) as [ot|]; [|congruence].
    destruct (screenshots clone tablet) as [ct|]; [|congruence].
    destruct (screenshots original mobile) as [om|]; [|congruence].
    destruct (screenshots clone mobile) as [cm|]; [|congruence].
    rewrite Ed, Et, Em. split; reflexivity.
Qed.

Lemma compareVisualFidelity_range_witness :
  Double.compareVisualFidelity Samples.helloOriginal Samples.helloOriginal
  = 0.8000000000000002.
Proof.
  refine (proj1 (proj2 (proj2 (compareVisualFidelity_range
                                 Samples.helloOriginal Samples.helloOriginal)) _)).
  intros device. split; [reflexivity | split; discriminate].
Defined.

End VisualMeanDouble.

Section StructuralRange.
Import Verifier.

Lemma prop_counted (o : Structure) (m : string) (q : Q) :
  counted o = true -> prop m (counts o) = Some q -> 0 <= q.
Proof.
  unfold counted. induction (counts o) as [|[k v] r IH]; cbn [forallb prop snd].
  - discriminate.
  - intros H. apply andb_true_iff in H. destruct H as [Hv Hr].
    destruct (k =? m)%string.
    + intros E. injection E as <-. apply Qle_bool_iff. exact Hv.
    + apply IH. exact Hr.
Qed.

Lemma check_metric_step (o c : Structure) (t : Q) (n : nat) (m : string) :
  counted o = true -> 0 <= t <= ofnat n ->
  0 <= fst (check_metric o c (t, n) m) <= ofnat (snd (check_metric o c (t, n) m)).
Proof.
  intros Ho H. unfold check_metric.
  destruct (prop m (counts o)) as [q|] eqn:E; [|exact H].
  pose proof (prop_counted o m q Ho E) as Hq.
  set (cl := ofnat (countElementsInStructure (Some c) m)).
  pose proof (ofnat_nonneg (countElementsInStructure (Some c) m)) as Hc.
  fold cl in Hc.
  cbn [fst snd]. rewrite ofnat_S.
  destruct (Qeq_bool q 0 && Qeq_bool cl 0) eqn:B1; [lra|].
  destruct (Qeq_bool q 0 || Qeq_bool cl 0) eqn:B2; [lra|].
  apply orb_false_iff in B2. destruct B2 as [Q0 C0].
  apply Qeq_bool_neq in Q0. apply Qeq_bool_neq in C0.
  assert (Pq : 0 < q) by (apply Qle_lteq in Hq; destruct Hq as [L|L];
                          [exact L|exfalso; apply Q0; symmetry; exact L]).
  assert (Pc : 0 < cl) by (apply Qle_lteq in Hc; destruct Hc as [L|L];
                           [exact L|exfalso; apply C0; symmetry; exact L]).
  assert (Pmax : 0 < Qmax q cl)
    by (destruct (Qmax_cases q cl) as [[_ M]|[_ M]]; rewrite M; assumption).
  assert (Pmin : 0 <= Qmin q cl)
    by (destruct (Qmin_cases q cl) as [[_ M]|[_ M]]; rewrite M; lra).
  assert (R : 0 <= Qmin q cl / Qmax q cl)
    by (apply Qle_shift_div_l; [exact Pmax|lra]).
  set (ratio := Qmin q cl / Qmax q cl) in *.
  destruct (Qmin_cases 1 (ratio * (14 # 10))) as [[L M]|[L M]]; rewrite M.
  all: clearbody ratio cl; lra.
Qed.

Lemma check_metric_fold (o c : Structure) (l : list string) :
  counted o = true ->
  forall (t : Q) (n : nat),
    0 <= t <= ofnat n ->
    0 <= fst (fold_left (check_metric o c) l (t, n))
      <= ofnat (snd (fold_left (check_metric o c) l (t, n))).
Proof.
  intros Ho. induction l as [|m l IH]; intros t n H; [exact H|].
  cbn [fold_left].
  pose proof (check_metric_step o c t n m Ho H) as S.
  destruct (check_metric o c (t, n) m) as [t' n']. apply IH. exact S.
Qed.

Lemma structural_bounds (o c : Structure) :
  counted o = true -> 0 <= compareStructuralFidelity (Some o) (Some c) <= 1.
Proof.
  intros H. unfold compareStructuralFidelity.
  pose proof (check_metric_fold o c metrics H 0 0%nat) as F.
  assert (F0 : 0 <= 0 <= ofnat 0) by (change (ofnat 0) with 0; lra).
  specialize (F F0). clear F0.
  destruct (fold_left (check_metric o c) metrics (0, 0%nat)) as [t n].
  cbn [fst snd] in F.
  set (t' := if (n <? 3)%nat && Qlt_bool 0 t
             then Qmin (t * (13 # 10)) (ofnat n) else t).
  assert (T : 0 <= t' <= ofnat n).
  { subst t'. destruct ((n <? 3)%nat && Qlt_bool 0 t); [|exact F].
    destruct (Qmin_cases (t * (13 # 10)) (ofnat n)) as [[L M]|[L M]];
      rewrite M; lra. }
  set (final := if (0 <? n)%nat then t' / ofnat n else 6 # 10).
  assert (Fi : 0 <= final <= 1).
  { subst final. destruct (0 <? n)%nat eqn:N; [|lra].
    apply Nat.ltb_lt in N. apply div_between; [exact N|lra]. }
  clearbody final.
  destruct (hasValidContent (Some c)); [|exact Fi].
  destruct (Qmin_cases (final * (12 # 10)) 1) as [[L M]|[L M]]; rewrite M; lra.
Qed.

(** X3. When the page counts of the original are numbers of elements
    (none negative), the structural score lies between 0 and 1, whatever
    the two structures are and whether they are there at all; with one
    of the two missing it is 0.4 or 0.7, and with both 0.8. *)
Theorem compareStructuralFidelity_range (original clone : option Structure) :
  (forall o, original = Some o -> counted o = true) ->
  0 <= compareStructuralFidelity original clone <= 1 /\
  (original = None \/ clone = None ->
   compareStructuralFidelity original clone = 4 # 10 \/
   compareStructuralFidelity original clone = 7 # 10 \/
   compareStructuralFidelity original clone = 8 # 10).
Proof.
  intros H.
  destruct original as [o|], clone as [c|].
  - split; [apply structural_bounds; apply H; reflexivity|].
    intros [E|E]; discriminate E.
  - unfold compareStructuralFidelity. split; [lra|]. intros _. left. reflexivity.
  - unfold compareStructuralFidelity.
    destruct (hasValidContent (Some c)); (split; [lra|]); intros _;
      [right; left|left]; reflexivity.
  - unfold compareStructuralFidelity. split; [lra|]. intros _.
    right. right. reflexivity.
Qed.

Lemma compareLayoutArrays_range (a b : option (list LayoutEntry)) :
  5 # 10 <= compareLayoutArrays a b <= 1.
Proof.
  unfold compareLayoutArrays.
  destruct a, b;
    repeat match goal with
      | |- context [if ?c then _ else _] => destruct c
      end; lra.
Qed.

Lemma responsive_fold (o c : Device -> option (list LayoutEntry))
      (l : list Device) :
  forall (t : Q) (n : nat),
    (5 # 10) * ofnat n <= t <= ofnat n ->
    let r := fold_left
               (fun (acc : Q * nat) device =>
                  let '(totalScore, comparisons) := acc in
                  match o device, c device with
                  | Some lo, Some lc =>
                      (totalScore + compareLayoutArrays (Some lo) (Some lc),
                       S comparisons)
                  | None, None => acc
                  | _, _ => (totalScore + (5 # 10), S comparisons)
                  end) l (t, n) in
    (5 # 10) * ofnat (snd r) <= fst r <= ofnat (snd r).
Proof.
  induction l as [|d l IH]; intros t n H; [exact H|].
  cbn [fold_left].
  destruct (o d) as [lo|], (c d) as [lc|]; apply IH; try exact H;
    rewrite ofnat_S; try lra.
  pose proof (compareLayoutArrays_range (Some lo) (Some lc)). lra.
Qed.

Lemma responsive_bounds (o c : Device -> option (list LayoutEntry)) :
  5 # 10 <= compareResponsiveness (Some o) (Some c) <= 1.
Proof.
  unfold compareResponsiveness.
  pose proof (responsive_fold o c devices 0 0%nat) as F. cbv zeta in F.
  match type of F with
  | _ -> (_ <= fst ?x <= _) => set (r := x) in *
  end.
  assert (F0 : (5 # 10) * ofnat 0 <= 0 <= ofnat 0)
    by (change (ofnat 0) with 0; lra).
  specialize (F F0). clear F0.
  destruct r as [t n]. cbn [fst snd] in F.
  destruct (n =? 0)%nat eqn:N; [lra|].
  apply Nat.eqb_neq in N.
  apply div_between; [lia|].
  destruct (n <? 2)%nat eqn:N2; [|lra].
  apply Nat.ltb_lt in N2. assert (n = 1%nat) by lia. subst n.
  change (ofnat 1) with 1 in *.
  destruct (Qmin_cases (t * (12 # 10)) 1) as [[L M]|[L M]]; rewrite M; lra.
Qed.

(** X4. The layout comparison depends on the two numbers of elements
    only and is symmetric; it and the responsive score built from it are
    never below 0.5 nor above 1. *)
Theorem compareResponsiveness_range
        (a b : option (list LayoutEntry))
        (o c : option (Device -> option (list LayoutEntry))) :
  compareLayoutArrays a b = compareLayoutArrays b a /\
  5 # 10 <= compareLayoutArrays a b <= 1 /\
  5 # 10 <= compareResponsiveness o c <= 1.
Proof.
  split; [|split; [apply compareLayoutArrays_range|]].
  - destruct a as [la|], b as [lb|]; try reflexivity.
    unfold compareLayoutArrays.
    rewrite (Nat.min_comm (List.length lb)), (Nat.max_comm (List.length lb)).
    rewrite (andb_comm (List.length lb =? 0)%nat),
            (orb_comm (List.length lb =? 0)%nat).
    reflexivity.
  - destruct o as [o|], c as [c|];
      [apply responsive_bounds|unfold compareResponsiveness; lra ..].
Qed.

End StructuralRange.

Section ReportRange.
Import Verifier.

Lemma calculateOverallScore_floor (r : Report) :
  5 # 10 <= calculateOverallScore r.
Proof.
  unfold calculateOverallScore.
  match goal with |- context [if ?c then _ else _] => destruct c end.
  - eapply Qle_trans; [|apply Q.le_max_l]. lra.
  - apply Q.le_max_l.
Qed.

Lemma calculateOverallScore_ceiling (r : Report) :
  visualScore r <= 1 -> structuralScore r <= 1 -> responsiveScore r <= 1 ->
  calculateOverallScore r <= 1.
Proof.
  intros Hv Hs Hr. unfold calculateOverallScore.
  set (w := visualScore r * (3 # 10) + structuralScore r * (5 # 10) +
            responsiveScore r * (2 # 10)).
  assert (W : w <= 1) by (subst w; lra).
  destruct (Qlt_bool w (6 # 10) &&
            (Qlt_bool (4 # 10) (structuralScore r) ||
             Qlt_bool (4 # 10) (visualScore r))) eqn:B.
  - apply andb_true_iff in B. destruct B as [B _].
    apply Qlt_bool_true in B.
    destruct (Qmax_cases (6 # 10) (w * (13 # 10))) as [[_ M]|[_ M]];
      rewrite M; lra.
  - destruct (Qmax_cases (5 # 10) w) as [[_ M]|[_ M]]; rewrite M; lra.
Qed.

Lemma captureOriginalSite_returns (b : Browser) (c : Capture) :
  snd (captureOriginalSite b) = Returns c -> captureAfterNavigation b = Returns c.
Proof.
  unfold captureOriginalSite.
  destruct (newPage b); [|discriminate].
  destruct (goto b ["networkidle0"]); [exact (fun H => H)|].
  destruct (goto b ["networkidle2"]); [exact (fun H => H)|].
  destruct (goto b ["domcontentloaded"]); [exact (fun H => H)|discriminate].
Qed.

Lemma fallbackReport_range (d : option ScannedData) (msg : string) :
  let rep := fallbackReport d msg in
  0 <= visualScore rep <= 8 # 10 /\ 0 <= structuralScore rep <= 1 /\
  0 <= responsiveScore rep <= 1.
Proof.
  unfold fallbackReport. destruct (validateScannedContent d);
    cbn [visualScore structuralScore responsiveScore]; lra.
Qed.

(** X5. Every report [verifyFidelity] returns has its three component
    scores between 0 and 1 and its fidelity score between 0.5 and 1,
    provided the counts taken in the original page are not negative.
    (These bounds survive the rounding of the code's doubles, where the
    visual score is at most 0.8000000000000002 and the fidelity score is
    in [0.5, 1].) *)
Theorem verifyFidelity_scores_in_range
        (b : Browser) (d : option ScannedData)
        (ev : list ProgressEvent) (rep : Report) :
  (forall c o, captureAfterNavigation b = Returns c ->
               structure c = Some o -> counted o = true) ->
  verifyFidelity b d = (ev, Returns rep) ->
  0 <= visualScore rep <= 1 /\
  0 <= structuralScore rep <= 1 /\
  0 <= responsiveScore rep <= 1 /\
  5 # 10 <= fidelityScore rep <= 1.
Proof.
  intros Hc H.
  destruct (verifyFidelity_verdict b d ev rep H) as [Hf _].
  assert (R : 0 <= visualScore rep <= 8 # 10 /\ 0 <= structuralScore rep <= 1 /\
              0 <= responsiveScore rep <= 1).
  { unfold verifyFidelity in H.
    destruct (launch b); [|discriminate].
    destruct (snd (captureOriginalSite b)) as [original|msg] eqn:O.
    - apply captureOriginalSite_returns in O.
      destruct (renderClonedStructure b d) as [clone|msg] eqn:Rc.
      + destruct d as [d|].
        * injection H as _ <-.
          cbn [visualScore structuralScore responsiveScore].
          split; [apply compareVisualFidelity_bounds|].
          split.
          { destruct (structure original) as [o|] eqn:So.
            - destruct (match visualStructure d with
                        | Some vs =>
                            match vs_structure vs with
                            | Some s => Some s
                            | None => Some (vs_self vs)
                            end
                        | None => None
                        end) as [c|].
              + apply structural_bounds. exact (Hc original o O So).
              + unfold compareStructuralFidelity. lra.
            - unfold compareStructuralFidelity.
              repeat match goal with
                | |- context [if ?b then _ else _] => destruct b
                | |- context [match ?x with Some _ => _ | None => _ end] =>
                    destruct x
                end; lra. }
          pose proof (responsive_bounds (responsive original)
                                        (extractResponsiveFromClone d)) as [P1 P2].
          split; [apply Qle_trans with (5 # 10); [lra|exact P1]|exact P2].
        * injection H as _ <-. apply fallbackReport_range.
      + injection H as _ <-. apply fallbackReport_range.
    - injection H as _ <-. apply fallbackReport_range. }
  destruct R as [Rv [Rs Rr]].
  repeat split; try tauto; try lra.
  - rewrite Hf. apply calculateOverallScore_floor.
  - rewrite Hf. apply calculateOverallScore_ceiling; lra.
Qed.

(** X6. A verification passes unless the comparison could not run and
    the scan lacks content: the threshold 0.45 lies below the least
    fidelity score, so the verdict of a report is
    [not fallback, or validateScannedContent]. *)
Theorem verifyFidelity_fails_only_without_content
        (b : Browser) (d : option ScannedData)
        (ev : list ProgressEvent) (rep : Report) :
  verifyFidelity b d = (ev, Returns rep) ->
  Qle_bool toleranceThreshold (fidelityScore rep) = true /\
  passed rep = negb (fallback rep) || validateScannedContent d.
Proof.
  intros H. destruct (verifyFidelity_verdict b d ev rep H) as [Hf Hp].
  assert (T : Qle_bool toleranceThreshold (fidelityScore rep) = true).
  { apply Qle_bool_iff. rewrite Hf.
    pose proof (calculateOverallScore_floor rep). unfold toleranceThreshold. lra. }
  split; [exact T|]. rewrite Hp, T. reflexivity.
Qed.

(** X7. The progress events of a verification follow one schedule
    (5, 20, 40, 60, 75, 85, 95) and stop where the run stops: none when
    the browser does not start, two or three when the original or the
    clone cannot be captured (the report is then a fallback), all seven
    when the comparisons ran. *)
Theorem verifyFidelity_progress_schedule (b : Browser) (d : option ScannedData) :
  exists k : nat,
    fst (verifyFidelity b d)
    = firstn k [mkEvent "preparing_verification" 5;
                mkEvent "capturing_original" 20;
                mkEvent "rendering_clone" 40;
                mkEvent "analyzing_visual_diff" 60;
                mkEvent "analyzing_structure" 75;
                mkEvent "analyzing_responsiveness" 85;
                mkEvent "calculating_final_score" 95] /\
    match snd (verifyFidelity b d) with
    | Throws _ => k = 0%nat
    | Returns rep =>
        if fallback rep then k = 2%nat \/ k = 3%nat else k = 7%nat
    end.
Proof.
  unfold verifyFidelity.
  destruct (launch b); [|exists 0%nat; split; reflexivity].
  destruct (snd (captureOriginalSite b)) as [original|msg].
  - destruct (renderClonedStructure b d) as [clone|msg].
    + destruct d as [d|].
      * exists 7%nat. split; reflexivity.
      * exists 3%nat. split; [reflexivity|].
        cbn [snd]. unfold fallbackReport.
        destruct (validateScannedContent None); cbn [fallback]; right; reflexivity.
    + exists 3%nat. split; [reflexivity|].
      cbn [snd]. unfold fallbackReport.
      destruct (validateScannedContent d); cbn [fallback]; right; reflexivity.
  - exists 2%nat. split; [reflexivity|].
    cbn [snd]. unfold fallbackReport.
    destruct (validateScannedContent d); cbn [fallback]; left; reflexivity.
Qed.

(** X8. The layout entries taken from the clone for the responsive
    comparison are those of the elements with a positive width and
    height: every entry has both, and there are no more entries than
    elements. *)
Theorem extractElements_visible :
  forall el : Structure,
    Forall (fun e => 0 < le_width e /\ 0 < le_height e) (extractElements el) /\
    (List.length (extractElements el) <= nodes el)%nat.
Proof.
  fix IH 1. intros [cnt tag txt rc ch].
  assert (Own : forall l : list LayoutEntry,
             l = match rc with
                 | Some (w, h) =>
                     if Qlt_bool 0 w && Qlt_bool 0 h
                     then [mkEntry (option_map toLowerCase tag) w h] else []
                 | None => []
                 end ->
             Forall (fun e => 0 < le_width e /\ 0 < le_height e) l /\
             (List.length l <= 1)%nat).
  { intros l ->. destruct rc as [[w h]|]; [|split; [constructor|cbn; lia]].
    destruct (Qlt_bool 0 w && Qlt_bool 0 h) eqn:B;
      [|split; [constructor|cbn; lia]].
    apply andb_true_iff in B. destruct B as [Bw Bh].
    apply Qlt_bool_true in Bw. apply Qlt_bool_true in Bh.
    split; [repeat constructor; assumption|cbn; lia]. }
  specialize (Own _ eq_refl). destruct Own as [OwnF OwnL].
  destruct ch as [l|].
  - cbn [extractElements rect children tagName nodes].
    assert (Kids :
             Forall (fun e => 0 < le_width e /\ 0 < le_height e)
               ((fix each (l : list Structure) : list LayoutEntry :=
                   match l with
                   | [] => []
                   | c :: r => (extractElements c ++ each r)%list
                   end) l) /\
             (List.length
                ((fix each (l : list Structure) : list LayoutEntry :=
                    match l with
                    | [] => []
                    | c :: r => (extractElements c ++ each r)%list
                    end) l)
              <= (fix each (l : list Structure) : nat :=
                    match l with
                    | [] => 0%nat
                    | c :: r => (nodes c + each r)%nat
                    end) l)%nat).
    { induction l as [|c r IHr]; [split; [apply Forall_nil|apply Nat.le_refl]|].
      destruct (IH c) as [Fc Lc]. destruct IHr as [Fr Lr].
      split.
      - apply Forall_app. split; assumption.
      - rewrite length_app. lia. }
    destruct Kids as [KF KL]. split.
    + apply Forall_app. split; assumption.
    + rewrite length_app. lia.
  - cbn [extractElements rect children tagName nodes].
    rewrite app_nil_r. split; [exact OwnF|lia].
Qed.

(** X9. The detailed analysis reads each score twice, for the status
    and for the recommendation, with the same thresholds: two reports
    get the same status for an aspect exactly when they get the same
    recommendation for it, and the analysis repeats the score it
    judges. *)
Theorem generateDetailedAnalysis_consistent (r1 r2 : Report) :
  let a1 := generateDetailedAnalysis r1 in
  let a2 := generateDetailedAnalysis r2 in
  (status (visualAnalysis a1) = status (visualAnalysis a2) <->
   recommendation (visualAnalysis a1) = recommendation (visualAnalysis a2)) /\
  (status (structuralAnalysis a1) = status (structuralAnalysis a2) <->
   recommendation (structuralAnalysis a1)
   = recommendation (structuralAnalysis a2)) /\
  (status (responsiveAnalysis a1) = status (responsiveAnalysis a2) <->
   recommendation (responsiveAnalysis a1)
   = recommendation (responsiveAnalysis a2)) /\
  score (visualAnalysis a1) = visualScore r1 /\
  score (structuralAnalysis a1) = structuralScore r1 /\
  score (responsiveAnalysis a1) = responsiveScore r1 /\
  overallRecommendation a1 = getOverallRecommendation (fidelityScore r1).
Proof.
  cbv zeta. unfold generateDetailedAnalysis.
  cbn [visualAnalysis structuralAnalysis responsiveAnalysis status
       recommendation score overallRecommendation].
  unfold getVisualRecommendation, getStructuralRecommendation,
    getResponsiveRecommendation.
  repeat split; try reflexivity;
    repeat match goal with
      | |- context [Qle_bool ?a ?b] => destruct (Qle_bool a b)
      end; intros E; first [reflexivity | discriminate E].
Qed.

End ReportRange.

Lemma compareStructuralFidelity_range_witness :
  Verifier.counted Samples.helloCounts = true /\
  0 <= Verifier.compareStructuralFidelity (Some Samples.helloCounts)
                                           (Some Samples.helloDiv) <= 1.
Proof.
  split; [reflexivity|].
  apply (compareStructuralFidelity_range (Some Samples.helloCounts)
                                         (Some Samples.helloDiv)).
  intros o E. injection E as <-. reflexivity.
Defined.

Lemma verifyFidelity_scores_in_range_witness :
  exists ev rep,
    Verifier.verifyFidelity Samples.reachable (Some Samples.helloScan)
    = (ev, Returns rep) /\
    5 # 10 <= Verifier.fidelityScore rep <= 1.
Proof.
  eexists. eexists. split; [reflexivity|].
  refine (proj2 (proj2 (proj2
            (verifyFidelity_scores_in_range
               Samples.reachable (Some Samples.helloScan) _ _ _ eq_refl)))).
  intros c o E S. injection E as <-. injection S as <-. reflexivity.
Defined.

Lemma verifyFidelity_fails_only_without_content_witness :
  exists ev rep,
    Verifier.verifyFidelity Samples.unreachable (Some Samples.untitledScan)
    = (ev, Returns rep) /\
    Verifier.passed rep
    = negb (Verifier.fallback rep)
      || Verifier.validateScannedContent (Some Samples.untitledScan).
Proof.
  eexists. eexists. split; [reflexivity|].
  exact (proj2 (verifyFidelity_fails_only_without_content
                  Samples.unreachable (Some Samples.untitledScan) _ _ eq_refl)).
Defined.

(** ** Background images *)

Lemma substring_all (s : string) : String.substring 0 (String.length s) s = s.
Proof. induction s as [|c s IH]; [reflexivity|]. cbn. rewrite IH. reflexivity. Qed.

Lemma unquoted_run_app (u r : string) :
  Converter.all_chars (fun c => negb (Converter.is_quote c)) u = true ->
  Converter.unquoted_run (u ++ r)
  = (u ++ fst (Converter.unquoted_run r), snd (Converter.unquoted_run r)).
Proof.
  induction u as [|c u IH]; cbn [Converter.all_chars append]; intros H.
  - destruct (Converter.unquoted_run r). reflexivity.
  - apply andb_true_iff in H. destruct H as [Hc Hu].
    apply negb_true_iff in Hc.
    cbn [Converter.unquoted_run]. rewrite Hc, (IH Hu). reflexivity.
Qed.

Lemma append_empty (s : string) : s ++ "" = s.
Proof. induction s as [|c s IH]; [reflexivity|]. cbn. rewrite IH. reflexivity. Qed.

Lemma before_last_paren_app (u : string) :
  Converter.before_last_paren false (u ++ ")") = Some u.
Proof.
  induction u as [|c u IH]; [reflexivity|].
  cbn [append Converter.before_last_paren]. rewrite IH. reflexivity.
Qed.

(** X10. A background image written [url(X)], with or without quotes
    around [X], gives back [X], for every non-empty [X] that holds no
    quote. *)
Theorem extractImageUrl_round_trip (u q : string) :
  u <> "" ->
  Converter.all_chars (fun c => negb (Converter.is_quote c)) u = true ->
  In q [""; "'"; dq] ->
  Converter.extractImageUrl ("url(" ++ q ++ u ++ q ++ ")") = Some u.
Proof.
  intros Hne Hu Hq.
  unfold Converter.extractImageUrl.
  change (str_truthy ("url(" ++ q ++ u ++ q ++ ")")) with true.
  change ("url(" ++ q ++ u ++ q ++ ")" =? "none")%string with false.
  cbn [negb orb].
  set (rest := q ++ u ++ q ++ ")").
  change ("url(" ++ rest) with (String "u" (String "r" (String "l" (String "(" rest)))).
  cbn [Converter.url_match].
  assert (P : String.prefix "url(" (String "u" (String "r" (String "l" (String "(" rest))))
              = true).
  { cbn [String.prefix].
    destruct (ascii_dec "u" "u"); [|congruence].
    destruct (ascii_dec "r" "r"); [|congruence].
    destruct (ascii_dec "l" "l"); [|congruence].
    destruct (ascii_dec "(" "("); [|congruence].
    destruct rest; reflexivity. }
  rewrite P.
  replace (Converter.skip 4 (String "u" (String "r" (String "l" (String "(" rest)))))
    with rest
    by (unfold Converter.skip; cbn [String.length Nat.sub String.substring];
        rewrite Nat.sub_0_r; symmetry; apply substring_all).
  subst rest.
  assert (G : Converter.url_group (q ++ u ++ q ++ ")") = Some u).
  { destruct u as [|c u]; [congruence|].
    cbn [Converter.all_chars] in Hu. apply andb_true_iff in Hu.
    destruct Hu as [Hc Hu]. apply negb_true_iff in Hc.
    destruct Hq as [<-|[<-|[<-|[]]]].
    - cbn [append]. unfold Converter.url_group. rewrite Hc.
      cbn [Converter.unquoted_run]. rewrite Hc.
      rewrite (unquoted_run_app u ")" Hu).
      cbn [Converter.unquoted_run Converter.is_quote nat_of_ascii fst snd
           String.prefix orb andb].
      change (Converter.unquoted_run ")") with (")", "").
      cbn [fst snd String.prefix orb andb].
      rewrite andb_false_r.
      cbn [Converter.before_last_paren].
      change (u ++ ")") with (u ++ ")"). rewrite before_last_paren_app.
      reflexivity.
    - cbn [append]. unfold Converter.url_group.
      change (Converter.is_quote "'") with true. cbv iota.
      cbn [Converter.unquoted_run]. rewrite Hc.
      rewrite (unquoted_run_app u _ Hu).
      change (Converter.unquoted_run "')") with ("", "')").
      cbn [fst snd]. rewrite append_empty. reflexivity.
    - unfold dq. cbn [append]. unfold Converter.url_group.
      change (Converter.is_quote (ascii_of_nat 34)) with true. cbv iota.
      cbn [Converter.unquoted_run]. rewrite Hc.
      rewrite (unquoted_run_app u _ Hu).
      change (Converter.unquoted_run (String (ascii_of_nat 34) ")"))
        with ("", String (ascii_of_nat 34) ")").
      cbn [fst snd]. rewrite append_empty. reflexivity. }
  rewrite G. reflexivity.
Qed.

Lemma extractImageUrl_round_trip_witness :
  Converter.extractImageUrl "url('https://example.com/hero.png')"
  = Some "https://example.com/hero.png".
Proof.
  exact (extractImageUrl_round_trip
           "https://example.com/hero.png" "'"
           ltac:(discriminate) eq_refl (or_intror (or_introl eq_refl))).
Defined.

(** ** The cleaning pass *)

Lemma largeMarkup_cleanContent (n : nat) (v : Js) :
  Converter.largeMarkup n v = false ->
  Converter.largeMarkup n (Converter.cleanContent v) = false.
Proof. destruct v; intro H; try reflexivity; exact H. Qed.

Lemma lean_cleanContent : forall v, Converter.lean (Converter.cleanContent v) = true.
Proof.
  induction v as [| | | | | |items IH|props IH] using Js_nested_ind;
    try reflexivity.
  - cbn [Converter.cleanContent Converter.lean].
    induction IH as [|x r Hx Hr IHr]; [reflexivity|].
    destruct (Converter.largeMarkup 1000 x) eqn:L.
    + rewrite IHr. reflexivity.
    + rewrite (largeMarkup_cleanContent _ _ L), Hx, IHr. reflexivity.
  - cbn [Converter.cleanContent Converter.lean].
    induction IH as [|[k x] r Hx Hr IHr]; [reflexivity|].
    cbn [snd] in Hx.
    destruct (Converter.purged k) eqn:P; [exact IHr|].
    destruct (Converter.largeMarkup 1000 x) eqn:L.
    + rewrite P, IHr. reflexivity.
    + rewrite P, (largeMarkup_cleanContent _ _ L), Hx, IHr. reflexivity.
Qed.

(** X11. The cleaning pass is idempotent: what it returns holds no
    purged key and no markup string of more than 1000 characters at any
    depth, and cleaning it again changes nothing. *)
Theorem validateAndCleanTemplate_idempotent (template : Js) :
  Converter.lean (Converter.validateAndCleanTemplate template) = true /\
  Converter.validateAndCleanTemplate (Converter.validateAndCleanTemplate template)
  = Converter.validateAndCleanTemplate template.
Proof.
  unfold Converter.validateAndCleanTemplate.
  split; [apply lean_cleanContent|].
  apply cleanContent_lean. apply lean_cleanContent.
Qed.

Lemma largeMarkup_2000 (v : Js) :
  Converter.largeMarkup 1000 v = false -> Converter.largeMarkup 2000 v = false.
Proof.
  destruct v; try reflexivity. unfold Converter.largeMarkup.
  intro H. apply andb_false_iff in H. apply andb_false_iff.
  destruct H as [H|H]; [left|right; exact H].
  apply Nat.ltb_ge in H. apply Nat.ltb_ge. lia.
Qed.

Lemma compressContent_lean :
  forall v, Converter.lean v = true -> Converter.compressContent v = v.
Proof.
  induction v as [| | | | | |items IH|props IH] using Js_nested_ind;
    intros L; try reflexivity.
  - cbn [Converter.compressContent]. f_equal.
    cbn [Converter.lean] in L.
    induction IH as [|x r Hx Hr IHr]; [reflexivity|].
    apply andb_true_iff in L. destruct L as [L Lr].
    apply andb_true_iff in L. destruct L as [Lm Lx].
    apply negb_true_iff in Lm. apply largeMarkup_2000 in Lm.
    rewrite (IHr Lr). f_equal.
    destruct x; try (apply Hx; exact Lx). rewrite Lm. reflexivity.
  - cbn [Converter.compressContent]. f_equal.
    cbn [Converter.lean] in L.
    induction IH as [|[k x] r Hx Hr IHr]; [reflexivity|].
    apply andb_true_iff in L. destruct L as [L Lr].
    apply andb_true_iff in L. destruct L as [L Lx].
    apply andb_true_iff in L. destruct L as [Lp Lm].
    apply negb_true_iff in Lm. apply largeMarkup_2000 in Lm.
    cbn [snd] in Hx.
    rewrite (IHr Lr). f_equal. f_equal.
    destruct x; try (apply Hx; exact Lx). rewrite Lm. reflexivity.
Qed.

Lemma largeMarkup_roundtrip (n : nat) (v : Js) :
  Converter.largeMarkup n v = false ->
  Converter.largeMarkup n (Json.roundtrip v) = false.
Proof. destruct v; intro H; try reflexivity; exact H. Qed.

Lemma lean_roundtrip :
  forall v, Converter.lean v = true -> Converter.lean (Json.roundtrip v) = true.
Proof.
  induction v as [| | | | | |items IH|props IH] using Js_nested_ind;
    intros L; try reflexivity.
  - cbn [Json.roundtrip Converter.lean]. cbn [Converter.lean] in L.
    induction IH as [|x r Hx Hr IHr]; [reflexivity|].
    apply andb_true_iff in L. destruct L as [L Lr].
    apply andb_true_iff in L. destruct L as [Lm Lx].
    apply negb_true_iff in Lm.
    rewrite (largeMarkup_roundtrip _ _ Lm), (Hx Lx), (IHr Lr). reflexivity.
  - cbn [Json.roundtrip Converter.lean]. cbn [Converter.lean] in L.
    induction IH as [|[k x] r Hx Hr IHr]; [reflexivity|].
    apply andb_true_iff in L. destruct L as [L Lr].
    apply andb_true_iff in L. destruct L as [L Lx].
    apply andb_true_iff in L. destruct L as [Lp Lm].
    apply negb_true_iff in Lm. cbn [snd] in Hx.
    destruct x; try exact (IHr Lr);
      rewrite Lp; rewrite ?(largeMarkup_roundtrip _ _ Lm);
      rewrite ?(Hx Lx), (IHr Lr); reflexivity.
Qed.

Lemma lean_lookup (k : string) (ps : list (string * Js)) :
  Converter.lean (JObj ps) = true ->
  Converter.lean (lookup k ps) = true /\
  Converter.largeMarkup 1000 (lookup k ps) = false.
Proof.
  cbn [Converter.lean].
  induction ps as [|[k' x] r IH]; intros L; [split; reflexivity|].
  apply andb_true_iff in L. destruct L as [L Lr].
  apply andb_true_iff in L. destruct L as [L Lx].
  apply andb_true_iff in L. destruct L as [Lp Lm].
  apply negb_true_iff in Lm.
  cbn [lookup]. destruct (k' =? k)%string; [split; assumption|].
  apply IH. exact Lr.
Qed.

Lemma lean_get (k : string) (v : Js) :
  Converter.lean v = true ->
  Converter.lean (get k v) = true /\ Converter.largeMarkup 1000 (get k v) = false.
Proof.
  destruct v; intros L; try (split; reflexivity).
  apply lean_lookup. exact L.
Qed.

Lemma lean_update (k : string) (x : Js) (ps : list (string * Js)) :
  Converter.purged k = false -> Converter.largeMarkup 1000 x = false ->
  Converter.lean x = true ->
  Converter.lean (JObj ps) = true ->
  Converter.lean (JObj (update k x ps)) = true.
Proof.
  intros Pk Lm Lx. cbn [Converter.lean].
  induction ps as [|[k' v] r IH]; intros L.
  - cbn [update]. rewrite Pk, Lm, Lx. reflexivity.
  - apply andb_true_iff in L. destruct L as [L Lr].
    cbn [update]. destruct (k' =? k)%string.
    + rewrite Pk, Lm, Lx, Lr. reflexivity.
    + rewrite L. apply IH. exact Lr.
Qed.

(** ** The smart cleaning and the content list *)

Section ContentList.
Import Converter.

Lemma buildElementorFromVisual_nonempty (random : nat -> Q) (vs : VisualStructure)
      (s : St) :
  fst (buildElementorFromVisual random (Some vs) s) <> [].
Proof.
  unfold buildElementorFromVisual.
  destruct (preBuiltSections vs) as [sections|] eqn:P.
  - unfold preBuiltSections in P.
    destruct (truthy _ && truthy _); [|discriminate].
    destruct (get "elements" _) as [| | | | | |[|x r]|]; try discriminate.
    injection P as <-. unfold ret. cbn [fst]. discriminate.
  - unfold bind at 1. destruct (topLevelWalk random vs s) as [sections s1].
    unfold bind at 1.
    destruct sections as [|x r].
    + unfold bind at 1. destruct (createDefaultSection random s1) as [d s2].
      unfold ret at 1.
      intro E. apply (f_equal (@List.length Js)) in E.
      rewrite mapM_length in E. discriminate E.
    + unfold ret at 1.
      intro E. apply (f_equal (@List.length Js)) in E.
      rewrite mapM_length in E. discriminate E.
Qed.

Lemma lookup_cleanContent (k : string) (l : list Js) (ps : list (string * Js)) :
  purged k = false -> lookup k ps = JArr l ->
  exists l', get k (cleanContent (JObj ps)) = JArr l' /\
             List.length l' = List.length l.
Proof.
  intros Pk. cbn [cleanContent get].
  induction ps as [|[k' v] r IH]; cbn [lookup]; [discriminate|].
  destruct (k' =? k)%string eqn:E.
  - apply String.eqb_eq in E. subst k'. intros ->. rewrite Pk.
    cbn [largeMarkup]. cbn [lookup]. rewrite String.eqb_refl.
    eexists. split; [reflexivity|].
    clear. induction l as [|x l IH]; [reflexivity|].
    destruct (largeMarkup 1000 x); cbn [List.length]; rewrite IH; reflexivity.
  - intros H. specialize (IH H). destruct IH as [l' [G L]].
    destruct (purged k'); [exists l'; split; assumption|].
    destruct (largeMarkup 1000 v); cbn [lookup]; rewrite E;
      exists l'; split; assumption.
Qed.

Lemma lookup_roundtrip (k : string) (l : list Js) (ps : list (string * Js)) :
  lookup k ps = JArr l ->
  exists l', get k (Json.roundtrip (JObj ps)) = JArr l' /\
             List.length l' = List.length l.
Proof.
  cbn [Json.roundtrip get].
  induction ps as [|[k' v] r IH]; cbn [lookup]; [discriminate|].
  destruct (k' =? k)%string eqn:E.
  - intros ->. cbn [lookup]. rewrite E.
    eexists. split; [reflexivity|].
    clear. induction l as [|x l IH]; [reflexivity|].
    cbn [List.length]. rewrite IH. reflexivity.
  - intros H. specialize (IH H). destruct IH as [l' [G L]].
    destruct v; try (exists l'; split; assumption);
      cbn [lookup]; rewrite E; exists l'; split; assumption.
Qed.

Lemma smartCleanTemplate_lean (t : Js) :
  lean t = true ->
  smartCleanTemplate t
  = if truthy (get "metadata" (Json.roundtrip t))
    then set "metadata"
             (JObj [("created_at",
                     get "created_at" (get "metadata" (Json.roundtrip t)));
                    ("source_url",
                     get "source_url" (get "metadata" (Json.roundtrip t)));
                    ("cloned_by", jstr "CloneMentor Pro - Smart Clean");
                    ("fidelity_score",
                     get "fidelity_score" (get "metadata" (Json.roundtrip t)));
                    ("elementsCount",
                     get "elementsCount" (get "metadata" (Json.roundtrip t)))])
             (Json.roundtrip t)
    else Json.roundtrip t.
Proof.
  intros L. unfold smartCleanTemplate.
  set (copy := Json.roundtrip t).
  assert (Lc : lean copy = true) by (apply lean_roundtrip; exact L).
  apply compressContent_lean.
  destruct (truthy (get "metadata" copy)); [|exact Lc].
  destruct (lean_get "metadata" copy Lc) as [Lmd _].
  set (md := get "metadata" copy) in *.
  destruct (lean_get "created_at" md Lmd) as [A1 A2].
  destruct (lean_get "source_url" md Lmd) as [B1 B2].
  destruct (lean_get "fidelity_score" md Lmd) as [C1 C2].
  destruct (lean_get "elementsCount" md Lmd) as [D1 D2].
  destruct copy; try exact Lc.
  cbn [set]. apply lean_update; try reflexivity; [|exact Lc].
  cbn [lean].
  change (purged "created_at") with false.
  change (purged "source_url") with false.
  change (purged "cloned_by") with false.
  change (purged "fidelity_score") with false.
  change (purged "elementsCount") with false.
  rewrite A1, A2, B1, B2, C1, C2, D1, D2. reflexivity.
Qed.

(** X12. On a template that went through the cleaning pass, as the one
    [convertVisualToElementor] gives to the smart cleaning always has,
    the HTML compression of the smart cleaning finds nothing to
    compress: the smart cleaning amounts to the JSON copy and the
    trimming of the metadata. *)
Theorem smartCleanTemplate_after_cleaning (template : Js) :
  let cleaned := validateAndCleanTemplate template in
  let copy := Json.roundtrip cleaned in
  let metadata := get "metadata" copy in
  compressContent copy = copy /\
  smartCleanTemplate cleaned
  = if truthy metadata
    then set "metadata"
             (JObj [("created_at", get "created_at" metadata);
                    ("source_url", get "source_url" metadata);
                    ("cloned_by", jstr "CloneMentor Pro - Smart Clean");
                    ("fidelity_score", get "fidelity_score" metadata);
                    ("elementsCount", get "elementsCount" metadata)])
             copy
    else copy.
Proof.
  cbv zeta. unfold validateAndCleanTemplate.
  pose proof (lean_cleanContent template) as L.
  split.
  - apply compressContent_lean. apply lean_roundtrip. exact L.
  - apply smartCleanTemplate_lean. exact L.
Qed.

Lemma assembleTemplate_content (random : nat -> Q) (now : string)
      (data : VisualData) (report : option (Q * bool)) (s : St) :
  exists ps content,
    fst (assembleTemplate random now data report s) = JObj ps /\
    lookup "content" ps = JArr content /\ content <> [].
Proof.
  unfold assembleTemplate.
  unfold bind at 1. destruct (extractGlobalAssets (assets data) s) as [u s1].
  unfold bind at 1.
  pose proof (buildElementorFromVisual_nonempty random
                match visualData data with
                | Some v => v
                | None => itself data
                end s1) as N.
  destruct (buildElementorFromVisual random _ s1) as [content s2].
  cbn [fst] in N.
  unfold bind at 1. destruct (buildPageSettings random s2) as [ps s3].
  unfold ret. cbn [fst].
  eexists. exists content. split; [reflexivity|]. split; [reflexivity|exact N].
Qed.

Lemma convertVisualToElementor_content (random : nat -> Q) (now : string)
      (data : VisualData) (report : option (Q * bool)) (s : St) :
  exists ps content,
    fst (convertVisualToElementor random now data report s) = JObj ps /\
    lookup "content" ps = JArr content /\ content <> [].
Proof.
  unfold convertVisualToElementor. unfold bind.
  destruct (assembleTemplate_content random now data report s)
    as [ps [content [E [C N]]]].
  destruct (assembleTemplate random now data report s) as [template s1].
  cbn [fst] in E. subst template.
  destruct (lookup_cleanContent "content" content ps eq_refl C) as [l1 [G1 L1]].
  unfold validateAndCleanTemplate.
  set (cleaned := cleanContent (JObj ps)) in *.
  assert (Lc : lean cleaned = true) by apply lean_cleanContent.
  assert (Shape : exists qs, cleaned = JObj qs) by (eexists; reflexivity).
  destruct Shape as [qs Eq]. clearbody cleaned. subst cleaned.
  cbn [get] in G1.
  assert (N1 : l1 <> []) by (destruct l1, content; try discriminate; congruence).
  destruct (150000 <? Z.of_nat (Json.size (JObj qs)))%Z; unfold ret; cbn [fst].
  - rewrite (smartCleanTemplate_lean _ Lc).
    destruct (lookup_roundtrip "content" l1 qs G1) as [l2 [G2 L2]].
    assert (N2 : l2 <> []) by (destruct l2, l1; try discriminate; congruence).
    cbn [Json.roundtrip] in *.
    match goal with
    | |- context [JObj ?rs] =>
        match rs with
        | context [Json.roundtrip] => set (copy := rs) in *
        end
    end.
    cbn [get] in G2.
    destruct (truthy (get "metadata" (JObj copy))).
    + cbn [set]. eexists. exists l2. split; [reflexivity|].
      split; [|exact N2].
      rewrite lookup_update_other by discriminate. exact G2.
    + exists copy, l2. repeat split; assumption.
  - exists qs, l1. repeat split; assumption.
Qed.

End ContentList.

(** ** The metadata after the smart cleaning *)

Section SmartMetadata.
Import Converter.

Lemma get_cleanContent (k : string) (v : Js) (ps : list (string * Js)) :
  purged k = false -> lookup k ps = v -> largeMarkup 1000 v = false ->
  get k (cleanContent (JObj ps)) = cleanContent v.
Proof.
  intros Pk. cbn [cleanContent get].
  induction ps as [|[k' x] r IH]; cbn [lookup].
  - intros <- _. reflexivity.
  - destruct (k' =? k)%string eqn:E.
    + apply String.eqb_eq in E. subst k'. intros -> L. rewrite Pk, L.
      cbn [lookup]. rewrite String.eqb_refl. reflexivity.
    + intros H L. specialize (IH H L).
      destruct (purged k'); [exact IH|].
      destruct (largeMarkup 1000 x); cbn [lookup]; rewrite ?E; exact IH.
Qed.

Lemma get_roundtrip (k : string) (v : Js) (ps : list (string * Js)) :
  lookup k ps = v -> v <> JUndefined ->
  get k (Json.roundtrip (JObj ps)) = Json.roundtrip v.
Proof.
  cbn [Json.roundtrip get].
  induction ps as [|[k' w] r IH]; cbn [lookup].
  - intros <- N. congruence.
  - destruct (k' =? k)%string eqn:E.
    + intros <- N. destruct w; try congruence; cbn [lookup]; rewrite ?E; reflexivity.
    + intros H N. specialize (IH H N).
      destruct w; try exact IH; cbn [lookup]; rewrite ?E; exact IH.
Qed.

Lemma absent_after_cleaning (k : string) (ps : list (string * Js)) :
  existsb (fun kv => (fst kv =? k)%string) ps = false ->
  forall qs, cleanContent (JObj ps) = JObj qs ->
             existsb (fun kv => (fst kv =? k)%string) qs = false.
Proof.
  intros H qs E. cbn [cleanContent] in E. injection E as <-.
  induction ps as [|[k' x] r IH]; [reflexivity|].
  cbn [existsb fst] in H. apply orb_false_iff in H. destruct H as [E H].
  specialize (IH H). cbn [existsb].
  destruct (purged k'); [exact IH|].
  destruct (largeMarkup 1000 x); cbn [existsb fst]. all: rewrite ?E; exact IH.
Qed.

Lemma absent_after_roundtrip (k : string) (qs : list (string * Js)) :
  existsb (fun kv => (fst kv =? k)%string) qs = false ->
  get k (Json.roundtrip (JObj qs)) = JUndefined.
Proof.
  cbn [Json.roundtrip get].
  induction qs as [|[k' x] r IH]; [reflexivity|].
  cbn [existsb fst]. intros H. apply orb_false_iff in H. destruct H as [E H].
  specialize (IH H). cbn [lookup].
  destruct x; try exact IH; cbn [lookup]; rewrite ?E; exact IH.
Qed.

(** X13. The smart cleaning rebuilds the metadata from five properties,
    one of which ([elementsCount]) the converter never writes: on a
    template the converter assembled, what comes out of the cleaning
    pass and the smart cleaning has lost the counts [total_elements]
    and [sections_count] and the verdict [verification_passed], and has
    no [elementsCount].  This is the template the conversion returns
    when the cleaned template is larger than 150000 characters. *)
Theorem smart_cleaning_loses_the_counts
        (random : nat -> Q) (now : string) (data : VisualData)
        (report : option (Q * bool)) (s : St) :
  let template := fst (assembleTemplate random now data report s) in
  let cleaned := smartCleanTemplate (validateAndCleanTemplate template) in
  (get "total_elements" (get "metadata" template) <> JUndefined /\
   get "sections_count" (get "metadata" template) <> JUndefined /\
   get "verification_passed" (get "metadata" template) <> JUndefined) /\
  (get "total_elements" (get "metadata" cleaned) = JUndefined /\
   get "sections_count" (get "metadata" cleaned) = JUndefined /\
   get "verification_passed" (get "metadata" cleaned) = JUndefined /\
   get "elementsCount" (get "metadata" cleaned) = JUndefined /\
   get "cloned_by" (get "metadata" cleaned)
   = JStr "CloneMentor Pro - Smart Clean") /\
  ((150000 < Z.of_nat (Json.size (validateAndCleanTemplate template)))%Z ->
   fst (convertVisualToElementor random now data report s) = cleaned).
Proof.
  cbv zeta.
  assert (Shape : exists ps md,
             fst (assembleTemplate random now data report s) = JObj ps /\
             lookup "metadata" ps = JObj md /\
             existsb (fun kv => (fst kv =? "elementsCount")%string) md = false /\
             lookup "total_elements" md <> JUndefined /\
             lookup "sections_count" md <> JUndefined /\
             lookup "verification_passed" md <> JUndefined).
  { unfold assembleTemplate.
    unfold bind at 1. destruct (extractGlobalAssets (assets data) s) as [u s1].
    unfold bind at 1.
    destruct (buildElementorFromVisual random _ s1) as [content s2].
    unfold bind at 1. destruct (buildPageSettings random s2) as [ps s3].
    unfold ret. cbn [fst].
    eexists. eexists. split; [reflexivity|].
    split; [reflexivity|]. split; [reflexivity|].
    cbn [lookup String.eqb Ascii.eqb Bool.eqb].
    repeat split; try discriminate.
    destruct report as [[score passed]|]; discriminate. }
  destruct Shape as [ps [md [E [M [A [T1 [T2 T3]]]]]]].
  split; [|split].
  - rewrite E. cbn [get]. rewrite M. cbn [get]. repeat split; assumption.
  - rewrite E. unfold validateAndCleanTemplate.
    rewrite (smartCleanTemplate_lean _ (lean_cleanContent (JObj ps))).
    pose proof (get_cleanContent "metadata" (JObj md) ps eq_refl M eq_refl) as G1.
    assert (Sh : exists qs, cleanContent (JObj ps) = JObj qs)
      by (eexists; reflexivity).
    destruct Sh as [qs Eq]. rewrite Eq in *. cbn [get] in G1.
    assert (Sh : exists md1, cleanContent (JObj md) = JObj md1)
      by (eexists; reflexivity).
    destruct Sh as [md1 Em]. rewrite Em in G1.
    pose proof (get_roundtrip "metadata" (JObj md1) qs G1 ltac:(discriminate)) as G2.
    assert (Sh : exists rs, Json.roundtrip (JObj qs) = JObj rs)
      by (eexists; reflexivity).
    destruct Sh as [rs Er]. rewrite Er in *.
    rewrite G2. cbn [truthy Json.roundtrip]. cbn [set get].
    rewrite lookup_update_same. cbn [lookup String.eqb Ascii.eqb Bool.eqb].
    repeat split.
    apply absent_after_roundtrip.
    exact (absent_after_cleaning "elementsCount" md A md1 Em).
  - intros Big. unfold convertVisualToElementor, bind.
    destruct (assembleTemplate random now data report s) as [template s1].
    cbn [fst] in *. apply Z.ltb_lt in Big. rewrite Big. reflexivity.
Qed.

End SmartMetadata.

(** ** The HTML compression *)

Lemma length_trim_left (s : string) :
  (String.length (trim_left s) <= String.length s)%nat.
Proof.
  induction s as [|c s IH]; [apply Nat.le_refl|].
  cbn [trim_left]. destruct (is_space c); [cbn [String.length]; lia|lia].
Qed.

Lemma length_rev_string (s acc : string) :
  String.length (rev_string s acc) = (String.length s + String.length acc)%nat.
Proof.
  revert acc. induction s as [|c s IH]; intro acc; [reflexivity|].
  cbn [rev_string]. rewrite IH. cbn [String.length]. lia.
Qed.

Lemma length_trim (s : string) : (String.length (trim s) <= String.length s)%nat.
Proof.
  unfold trim. rewrite length_rev_string. cbn [String.length].
  rewrite Nat.add_0_r.
  eapply Nat.le_trans; [apply length_trim_left|].
  rewrite length_rev_string. cbn [String.length]. rewrite Nat.add_0_r.
  apply length_trim_left.
Qed.

Lemma length_collapse_spaces (s : string) :
  forall b, (String.length (Converter.collapse_spaces b s) <= String.length s)%nat.
Proof.
  induction s as [|c s IH]; intro b; [apply Nat.le_refl|].
  cbn [Converter.collapse_spaces].
  destruct (is_space c); [destruct b|]; cbn [String.length];
    try (specialize (IH true); lia); specialize (IH false); lia.
Qed.

Lemma length_join_tags :
  forall (n : nat) (s : string),
    (String.length s <= n)%nat ->
    (String.length (Converter.join_tags s) <= String.length s)%nat.
Proof.
  induction n as [|n IH]; intros s H.
  - destruct s; [apply Nat.le_refl|cbn in H; lia].
  - destruct s as [|c r]; [apply Nat.le_refl|].
    cbn [String.length] in H.
    destruct r as [|sp r']; [apply Nat.le_refl|].
    cbn [String.length] in H.
    cbn [Converter.join_tags].
    match goal with |- context [if ?b then _ else _] => destruct b end.
    + cbn [String.length] in *.
      assert (String.length (Converter.join_tags r') <= String.length r')%nat
        by (apply IH; lia).
      lia.
    + change (String.length (String c (Converter.join_tags (String sp r')))
              <= String.length (String c (String sp r')))%nat.
      cbn [String.length].
      assert (String.length (Converter.join_tags (String sp r'))
              <= String.length (String sp r'))%nat
        by (apply IH; cbn [String.length]; lia).
      cbn [String.length] in *. lia.
Qed.

Lemma length_substring (s : string) :
  forall n m, (String.length (String.substring n m s) <= String.length s - n)%nat.
Proof.
  induction s as [|c s IH]; intros n m.
  - destruct n, m; cbn [String.substring String.length]; apply Nat.le_0_l.
  - destruct n as [|n].
    + destruct m as [|m]; [cbn; lia|].
      cbn [String.substring String.length]. specialize (IH 0%nat m). lia.
    + cbn [String.substring String.length]. specialize (IH n m). lia.
Qed.

Lemma length_after_comment (s r : string) :
  Converter.after_comment s = Some r -> (String.length r <= String.length s)%nat.
Proof.
  revert r. induction s as [|c s IH]; intros r.
  - cbn. discriminate.
  - cbn [Converter.after_comment].
    destruct (String.prefix "-->" (String c s)).
    + intro E. injection E as <-. unfold Converter.skip.
      pose proof (length_substring (String c s) 3
                    (String.length (String c s) - 3)). lia.
    + intro E. specialize (IH r E). cbn [String.length]. lia.
Qed.

Lemma length_strip_comments (fuel : nat) :
  forall s, (String.length (Converter.strip_comments fuel s) <= String.length s)%nat.
Proof.
  induction fuel as [|fuel IH]; intro s; [apply Nat.le_refl|].
  cbn [Converter.strip_comments].
  destruct s as [|c r]; [apply Nat.le_refl|].
  destruct (String.prefix "<!--" (String c r)).
  - destruct (Converter.after_comment (Converter.skip 4 (String c r))) as [rest|] eqn:A.
    + apply length_after_comment in A.
      unfold Converter.skip in A.
      pose proof (length_substring (String c r) 4
                    (String.length (String c r) - 4)).
      specialize (IH rest). lia.
    + cbn [String.length]. specialize (IH r). lia.
  - cbn [String.length]. specialize (IH r). lia.
Qed.

(** X14. The HTML compression never lengthens a string. *)
Theorem compressHtml_never_longer (html : string) :
  (String.length (Converter.compressHtml html) <= String.length html)%nat.
Proof.
  unfold Converter.compressHtml.
  eapply Nat.le_trans; [apply length_trim|].
  eapply Nat.le_trans; [apply length_strip_comments|].
  eapply Nat.le_trans; [apply (length_join_tags _ _ (Nat.le_refl _))|].
  apply length_collapse_spaces.
Qed.

(** ** The palette *)

Lemma mem_In (s : string) (l : list string) : mem s l = true <-> In s l.
Proof.
  unfold mem. rewrite existsb_exists. split.
  - intros [x [I E]]. apply String.eqb_eq in E. subst. exact I.
  - intros I. exists s. split; [exact I|apply String.eqb_refl].
Qed.

Lemma add_NoDup (s : string) (set : list string) :
  NoDup set -> NoDup (Converter.add s set).
Proof.
  intros N. unfold Converter.add. destruct (mem s set) eqn:M; [exact N|].
  assert (~ In s set) by (intro I; apply mem_In in I; congruence).
  apply NoDup_app; [exact N|repeat constructor; intros []|].
  intros a Ia [<-|[]]. contradiction.
Qed.

Lemma add_all_invariant (keep : string -> bool) (l : list string) :
  forall set,
    NoDup set -> Forall (fun c => keep c = true) set ->
    NoDup (Converter.add_all keep l set) /\
    Forall (fun c => keep c = true) (Converter.add_all keep l set) /\
    (forall c, In c (Converter.add_all keep l set) <->
               In c set \/ (In c l /\ keep c = true)).
Proof.
  unfold Converter.add_all.
  induction l as [|x l IH]; intros set N F; cbn [fold_left].
  - repeat split; try assumption; [tauto|]. intros [I|[[] _]]. exact I.
  - destruct (keep x) eqn:K.
    + assert (N' : NoDup (Converter.add x set)) by (apply add_NoDup; exact N).
      assert (F' : Forall (fun c => keep c = true) (Converter.add x set)).
      { unfold Converter.add. destruct (mem x set); [exact F|].
        apply Forall_app. split; [exact F|repeat constructor; exact K]. }
      destruct (IH _ N' F') as [A [B C]]. repeat split; try assumption.
      * intro I. apply C in I. destruct I as [I|[I Kc]].
        -- unfold Converter.add in I. destruct (mem x set); [left; exact I|].
           apply in_app_or in I. destruct I as [I|[<-|[]]]; [left; exact I|].
           right. split; [left; reflexivity|exact K].
        -- right. split; [right; exact I|exact Kc].
      * intro I. apply C. destruct I as [I|[[<-|I] Kc]].
        -- left. unfold Converter.add. destruct (mem x set); [exact I|].
           apply in_or_app. left. exact I.
        -- left. unfold Converter.add. destruct (mem x set) eqn:M.
           ++ apply mem_In. exact M.
           ++ apply in_or_app. right. left. reflexivity.
        -- right. split; assumption.
    + destruct (IH _ N F) as [A [B C]]. repeat split; try assumption.
      * intro I. apply C in I. destruct I as [I|[I Kc]]; [left; exact I|].
        right. split; [right; exact I|exact Kc].
      * intro I. apply C. destruct I as [I|[[<-|I] Kc]];
          [left; exact I|congruence|right; split; assumption].
Qed.

(** X15. The converter's color set holds no color twice and never
    [transparent], [rgba(0, 0, 0, 0)] or the empty string, whatever
    assets it is given; after a call it holds what it held before and
    the acceptable colors of the call.  No identifier is drawn. *)
Theorem extractGlobalAssets_color_set
        (colors : list string) (fonts gradients : option (list string))
        (s : Converter.St) :
  NoDup (Converter.globalColors s) ->
  Forall (fun c => Converter.keep_color c = true) (Converter.globalColors s) ->
  let s' := snd (Converter.extractGlobalAssets
                   (Some (Converter.mkAssets (Some colors) fonts gradients)) s) in
  NoDup (Converter.globalColors s') /\
  Forall (fun c => c <> "" /\ c <> "transparent" /\ c <> "rgba(0, 0, 0, 0)")
         (Converter.globalColors s') /\
  (forall c, In c (Converter.globalColors s') <->
             In c (Converter.globalColors s) \/
             (In c colors /\ Converter.keep_color c = true)) /\
  Converter.draws s' = Converter.draws s.
Proof.
  intros N F. cbv zeta. unfold Converter.extractGlobalAssets.
  cbn [snd Converter.colors Converter.globalColors Converter.draws].
  destruct (add_all_invariant Converter.keep_color colors _ N F) as [A [B C]].
  repeat split; try assumption; try (apply C).
  eapply Forall_impl; [|exact B].
  intros c K. unfold Converter.keep_color in K.
  apply andb_true_iff in K. destruct K as [K K3].
  apply andb_true_iff in K. destruct K as [K1 K2].
  apply negb_true_iff in K1, K2, K3.
  apply String.eqb_neq in K1, K2, K3. auto.
Qed.

Lemma extractGlobalAssets_color_set_witness :
  let s' := snd (Converter.extractGlobalAssets
                   (Some (Converter.mkAssets
                            (Some ["rgb(255, 0, 0)"; "transparent"; "rgb(255, 0, 0)"])
                            None None))
                   Converter.constructor) in
  NoDup (Converter.globalColors s') /\
  ~ In "transparent" (Converter.globalColors s').
Proof.
  cbv zeta.
  destruct (extractGlobalAssets_color_set
              ["rgb(255, 0, 0)"; "transparent"; "rgb(255, 0, 0)"] None None
              Converter.constructor (NoDup_nil _) (Forall_nil _))
    as [N [F _]].
  split; [exact N|].
  intro I. rewrite Forall_forall in F. destruct (F _ I) as [_ [T _]].
  apply T. reflexivity.
Defined.

(** ** The page settings *)

Lemma generateElementId_loop_draws (random : nat -> Q) (n : nat) :
  forall (result : string) (s : Converter.St),
    let s' := snd (Converter.generateElementId_loop random n result s) in
    Converter.draws s' = (Converter.draws s + n)%nat /\
    Converter.globalColors s' = Converter.globalColors s /\
    Converter.globalFonts s' = Converter.globalFonts s.
Proof.
  induction n as [|n IH]; intros result s; cbv zeta.
  - cbn. repeat split; lia.
  - cbn [Converter.generateElementId_loop]. unfold Converter.bind.
    unfold Converter.Math_random at 1.
    destruct (IH (result ++
                  charAt Converter.chars
                    (Math_floor (random (Converter.draws s) *
                                 ofnat (String.length Converter.chars))))
                 (Converter.mkSt (S (Converter.draws s)) (Converter.globalColors s)
                                 (Converter.globalFonts s))) as [A [B C]].
    cbn [Converter.draws Converter.globalColors Converter.globalFonts] in A, B, C.
    repeat split; [rewrite A; lia|exact B|exact C].
Qed.

Lemma generateElementId_draws (random : nat -> Q) (s : Converter.St) :
  let s' := snd (Converter.generateElementId random s) in
  Converter.draws s' = (Converter.draws s + 8)%nat /\
  Converter.globalColors s' = Converter.globalColors s /\
  Converter.globalFonts s' = Converter.globalFonts s.
Proof. apply generateElementId_loop_draws. Qed.

Section PageSettings.
Import Converter.
Variable random : nat -> Q.

Lemma mapi_from_cons {A B} (f : A -> nat -> M B) (index : nat) (a : A)
      (l : list A) (s : St) :
  mapi_from index f (a :: l) s
  = (fst (f a index s) :: fst (mapi_from (S index) f l (snd (f a index s))),
     snd (mapi_from (S index) f l (snd (f a index s)))).
Proof.
  cbn [mapi_from]. unfold bind, ret.
  destruct (f a index s) as [b s1]. cbn [fst snd].
  destruct (mapi_from (S index) f l s1). reflexivity.
Qed.

Lemma mapi_from_ids (key : string) (g : string -> nat -> string -> Js)
      (f : string -> nat -> M Js) (l : list string) :
  (forall a i id, get key (g a i id) = JStr a) ->
  (forall a i s, f a i s = (g a i (fst (generateElementId random s)),
                            snd (generateElementId random s))) ->
  forall (index : nat) (s : St),
    let r := mapi_from index f l s in
    map (get key) (fst r) = map JStr l /\
    draws (snd r) = (draws s + 8 * List.length l)%nat /\
    globalColors (snd r) = globalColors s /\
    globalFonts (snd r) = globalFonts s.
Proof.
  intros Hg Hf. induction l as [|a l IH]; intros index s; cbv zeta.
  - cbn. repeat split; lia.
  - rewrite mapi_from_cons. rewrite Hf. cbn [fst snd map List.length].
    destruct (generateElementId_draws random s) as [D1 [D2 D3]].
    destruct (IH (S index) (snd (generateElementId random s))) as [A [B [C C']]].
    rewrite Hg, A. split; [reflexivity|].
    split; [rewrite B, D1; lia|]. split; congruence.
Qed.

Lemma id_then_ret (g : string -> Js) (s : St) :
  (id <- generateElementId random ;; ret (g id)) s
  = (g (fst (generateElementId random s)), snd (generateElementId random s)).
Proof. unfold bind, ret. destruct (generateElementId random s). reflexivity. Qed.

(** X16. The page settings list the first eight colors and the first
    six fonts of the converter's sets, in the order they entered them,
    and the four system colors; each entry draws one identifier. *)
Theorem buildPageSettings_palette (s : St) :
  let pageSettings := fst (buildPageSettings random s) in
  let s' := snd (buildPageSettings random s) in
  map (get "color") (items_of (get "custom_colors" pageSettings))
  = map JStr (firstn 8 (globalColors s)) /\
  map (get "font_family") (items_of (get "custom_fonts" pageSettings))
  = map JStr (firstn 6 (globalFonts s)) /\
  map (get "title") (items_of (get "system_colors" pageSettings))
  = map JStr ["Primary"; "Secondary"; "Text"; "Accent"] /\
  draws s' = (draws s + 8 * (Nat.min 8 (List.length (globalColors s)) +
                             Nat.min 6 (List.length (globalFonts s)) + 4))%nat /\
  globalColors s' = globalColors s /\ globalFonts s' = globalFonts s.
Proof.
  cbv zeta.
  assert (H : exists cs fs sc s',
             buildPageSettings random s
             = (JObj [("template", jstr "elementor_canvas");
                      ("custom_colors", JArr cs); ("custom_fonts", JArr fs);
                      ("system_colors", JArr sc)], s') /\
             map (get "color") cs = map JStr (firstn 8 (globalColors s)) /\
             map (get "font_family") fs = map JStr (firstn 6 (globalFonts s)) /\
             map (get "title") sc
             = map JStr ["Primary"; "Secondary"; "Text"; "Accent"] /\
             draws s' = (draws s + 8 * (Nat.min 8 (List.length (globalColors s)) +
                                        Nat.min 6 (List.length (globalFonts s)) + 4))%nat /\
             globalColors s' = globalColors s /\ globalFonts s' = globalFonts s).
  { unfold buildPageSettings.
    unfold bind at 1. unfold get_state at 1.
    unfold bind at 1.
    match goal with
    | |- context [mapi_from 0 ?f (firstn 8 (globalColors s)) s] =>
        pose proof (mapi_from_ids "color"
                      (fun color index id =>
                         JObj [("_id", jstr id);
                               ("title", jstr ("Color " ++ nat_toString (index + 1)));
                               ("color", jstr color)])
                      f (firstn 8 (globalColors s))
                      (fun _ _ _ => eq_refl)
                      (fun a i s => id_then_ret _ s) 0%nat s) as Hc;
        cbv zeta in Hc;
        destruct (mapi_from 0 f (firstn 8 (globalColors s)) s) as [cs s1]
    end.
    cbn [fst snd] in Hc. destruct Hc as [C1 [C2 [C3 C4]]].
    unfold bind at 1.
    match goal with
    | |- context [mapi_from 0 ?f (firstn 6 (globalFonts s)) s1] =>
        pose proof (mapi_from_ids "font_family"
                      (fun font index id =>
                         JObj [("_id", jstr id);
                               ("title", jstr ("Font " ++ nat_toString (index + 1)));
                               ("font_family", jstr font);
                               ("font_weight", jstr "400")])
                      f (firstn 6 (globalFonts s))
                      (fun _ _ _ => eq_refl)
                      (fun a i s => id_then_ret _ s) 0%nat s1) as Hf;
        cbv zeta in Hf;
        destruct (mapi_from 0 f (firstn 6 (globalFonts s)) s1) as [fs s2]
    end.
    cbn [fst snd] in Hf. destruct Hf as [F1 [F2 [F3 F4]]].
    cbn [mapM]. unfold bind, ret.
    repeat match goal with
      | |- context [generateElementId random ?st] =>
          let D := fresh "D" in
          pose proof (generateElementId_draws random st) as D; cbv zeta in D;
          destruct (generateElementId random st); cbn [snd fst] in D
      end.
    rewrite length_firstn in C2, F2.
    do 4 eexists. split; [reflexivity|].
    split; [exact C1|]. split; [exact F1|]. split; [reflexivity|].
    destruct D as [Da [Db Dc]], D0 as [D0a [D0b D0c]], D1 as [D1a [D1b D1c]],
             D2 as [D2a [D2b D2c]].
    split; [lia|]. split; congruence. }
  destruct H as [cs [fs [sc [s' [E H]]]]]. rewrite E. exact H.
Qed.

End PageSettings.

(** ** Classification *)

(** X17. The classification keeps the nesting of the format: an element
    is a section only directly under the body, a column only directly
    under a section, and under a column every element is a widget. *)
Theorem determineElementorType_nesting
        (element : Converter.ElementNode) (parentType : string) :
  (Converter.determineElementorType element parentType = "section" ->
   parentType = "body") /\
  (Converter.determineElementorType element parentType = "column" ->
   parentType = "section") /\
  (parentType = "column" ->
   Converter.determineElementorType element parentType = "widget").
Proof.
  unfold Converter.determineElementorType.
  destruct (parentType =? "body")%string eqn:B;
    destruct (parentType =? "section")%string eqn:S;
    destruct (parentType =? "column")%string eqn:C;
    cbn [andb];
    repeat match goal with
      | |- context [if ?c then _ else _] => destruct c
      end;
    (split; [|split]); intros E;
    first [ reflexivity
          | discriminate E
          | apply String.eqb_eq; assumption
          | rewrite E in *; discriminate ].
Qed.

(** ** The search for a pre-built structure *)

Lemma Node_nested_ind (P : Converter.ElementNode -> Prop) :
  (forall tag cls txt inner outer a l,
      P (Converter.mkNode tag cls txt inner outer a l None)) ->
  (forall tag cls txt inner outer a l cs,
      Forall P cs -> P (Converter.mkNode tag cls txt inner outer a l (Some cs))) ->
  forall n, P n.
Proof.
  intros HN HS. fix IH 1.
  intros [tag cls txt inner outer a l [cs|]]; [|apply HN].
  apply HS. induction cs as [|c r IHr]; constructor; [apply IH|exact IHr].
Qed.

Lemma findElementorStructure_node :
  forall n, Converter.findElementorStructure (Converter.node_js n) = JNull.
Proof.
  assert (Sp : forall sp, is_object (Converter.spacing_js sp) = true ->
                          Converter.findElementorStructure (Converter.spacing_js sp)
                          = JNull)
    by (intros [sp|] _; reflexivity).
  assert (La : forall l, Converter.findElementorStructure (Converter.layout_js l)
                         = JNull).
  { intros l. unfold Converter.layout_js.
    cbn [Converter.findElementorStructure lookup String.eqb Ascii.eqb Bool.eqb
         truthy is_object Converter.jstr].
    destruct (Converter.margin l) as [m|], (Converter.padding l) as [p|];
      reflexivity. }
  assert (At : forall a, Converter.findElementorStructure (Converter.attributes_js a)
                         = JNull).
  { intros a. unfold Converter.attributes_js, Converter.opt_js.
    destruct (Converter.src a), (Converter.href a), (Converter.alt a),
      (Converter.type_ a), (Converter.value a), (Converter.placeholder a);
      reflexivity. }
  induction n as [tag cls txt inner outer a l|tag cls txt inner outer a l cs IH]
    using Node_nested_ind.
  - cbn [Converter.node_js Converter.tagName Converter.className
         Converter.textContent Converter.innerHTML Converter.outerHTML
         Converter.attributes Converter.layout Converter.children].
    cbn [Converter.findElementorStructure lookup String.eqb Ascii.eqb Bool.eqb
         truthy is_object Converter.jstr].
    destruct a as [a|], l as [l|]; cbn [is_object Converter.attributes_js
                                         Converter.layout_js truthy];
      rewrite ?At, ?La; reflexivity.
  - cbn [Converter.node_js Converter.tagName Converter.className
         Converter.textContent Converter.innerHTML Converter.outerHTML
         Converter.attributes Converter.layout Converter.children].
    cbn [Converter.findElementorStructure lookup String.eqb Ascii.eqb Bool.eqb
         truthy is_object Converter.jstr].
    destruct a as [a|], l as [l|]; cbn [is_object Converter.attributes_js
                                         Converter.layout_js truthy];
      rewrite ?At, ?La; cbn [truthy];
      match goal with
      | |- (if truthy ?X then _ else _) = _ =>
          assert (K : X = JNull);
          [induction IH as [|c r Hc Hr IHr]; [reflexivity|];
           rewrite Hc; cbn [truthy];
           destruct (is_object (Converter.node_js c)); exact IHr
          |rewrite K; reflexivity]
      end.
Qed.

(** X18. A captured tree handed over as it is holds no pre-built
    structure: the search finds nothing in it, whatever the tree is, so
    it is always converted by the classification walk. *)
Theorem raw_tree_is_walked (root : Converter.ElementNode) :
  Converter.findElementorStructure (Converter.visual_js (Converter.Tree root))
  = JNull /\
  Converter.preBuiltSections (Converter.Tree root) = None.
Proof.
  assert (F : Converter.findElementorStructure
                (Converter.visual_js (Converter.Tree root)) = JNull)
    by apply findElementorStructure_node.
  split; [exact F|].
  unfold Converter.preBuiltSections. rewrite F. reflexivity.
Qed.

(** ** Widgets *)

Section Widgets.
Import Converter.
Variable random : nat -> Q.

(** X19. [createWidget] drops an element only when it has no text:
    when it returns [null], both the text content and the inner HTML of
    the element are blank.  What it returns otherwise is a widget of one
    of seven types. *)
Theorem createWidget_drops_only_blank (element : ElementNode) (s : St) :
  match fst (createWidget random element s) with
  | Some w =>
      get "elType" w = JStr "widget" /\
      In (get "widgetType" w)
         (map JStr ["heading"; "image"; "button"; "text-editor"; "html";
                    "video"; "nav-menu"])
  | None =>
      nonblank (textContent element) = false /\
      nonblank (innerHTML element) = false
  end.
Proof.
  unfold createWidget, nonblank.
  unfold bind at 1. destruct (generateElementId random s) as [eid s1].
  set (base := baseStyling (layout element) (JObj [("_element_id", jstr eid)])).
  clearbody base.
  set (rich := str_truthy (innerHTML element) &&
               str_truthy (trim (innerHTML element))).
  assert (W : forall ty extra,
             In ty ["heading"; "image"; "button"; "text-editor"; "html";
                    "video"; "nav-menu"] ->
             match fst (widget random ty base extra s1) with
             | Some w =>
                 get "elType" w = JStr "widget" /\
                 In (get "widgetType" w)
                    (map JStr ["heading"; "image"; "button"; "text-editor";
                               "html"; "video"; "nav-menu"])
             | None => str_truthy (textContent element) &&
                       str_truthy (trim (textContent element)) = false /\
                       rich = false
             end).
  { intros ty extra I. unfold widget, bind, ret.
    destruct (generateElementId random s1) as [id s2]. cbn [fst].
    split; [reflexivity|].
    cbn [get lookup String.eqb Ascii.eqb Bool.eqb].
    apply (in_map JStr). exact I. }
  repeat match goal with
    | |- context [if ?c then _ else _] =>
        lazymatch c with
        | context [widget] => fail
        | _ => destruct c eqn:?
        end
    end;
    try (apply W; cbn; tauto).
  all: cbn [fst ret]; unfold ret; cbn [fst].
  - destruct rich eqn:R; [subst rich; congruence|].
    split; [assumption|reflexivity].
  - match goal with
    | H : (_ || _) || _ = false |- _ => apply orb_false_iff in H; destruct H as [H _]
    | H : _ || _ = false |- _ => idtac
    end.
    match goal with
    | H : rich || _ = false |- _ =>
        apply orb_false_iff in H; destruct H as [H1 H2]; split; assumption
    end.
Qed.
End Widgets.

(** ** Columns *)

Section Columns.
Import Converter.
Variable random : nat -> Q.

Lemma closeColumn_good (cs : list ElementNode) (columns : list Js) (s : St) :
  Forall (fun c => isColumn c = true /\ hasElements c = true /\
                   is_column c = true) columns ->
  Forall (fun c => isColumn c = true /\ hasElements c = true /\
                   is_column c = true)
         (fst (closeColumn random cs columns s)).
Proof.
  intros F. unfold closeColumn. unfold bind at 1.
  destruct (createColumn_shape random None s) as [id E].
  destruct (createColumn random None s) as [column s1]. cbn [fst] in E. subst column.
  unfold bind at 1.
  destruct (mapM (createWidget random) cs s1) as [ws s2].
  unfold ret. cbn [fst].
  destruct (somes ws) as [|w widgets]; [exact F|].
  cbn [List.length Nat.ltb Nat.leb].
  apply Forall_app. split; [exact F|].
  constructor; [|constructor]. repeat split; reflexivity.
Qed.

Lemma groupChildren_good (cs : list ElementNode) (a : LayoutAnalysis) :
  forall (columns : list Js) (current : list ElementNode) (s : St),
    Forall (fun c => isColumn c = true /\ hasElements c = true /\
                     is_column c = true) columns ->
    Forall (fun c => isColumn c = true /\ hasElements c = true /\
                     is_column c = true)
           (fst (fst (groupChildren random cs a columns current s))).
Proof.
  induction cs as [|child r IH]; intros columns current s F; [exact F|].
  cbn [groupChildren].
  destruct (shouldStartNewColumn child current a &&
            (0 <? List.length current)%nat).
  - unfold bind.
    pose proof (closeColumn_good current columns s F) as G.
    destruct (closeColumn random current columns s) as [columns' s1].
    apply IH. exact G.
  - apply IH. exact F.
Qed.

Lemma setColumnSize_keeps (w : Z) (c : Js) :
  isColumn c = true /\ hasElements c = true /\ is_column c = true ->
  isColumn (setColumnSize w c) = true /\
  hasElements (setColumnSize w c) = true.
Proof.
  intros [A [B C]]. destruct c as [| | | | | | |ps]; try discriminate.
  unfold setColumnSize, isColumn, hasElements in *.
  cbn [set get] in *.
  rewrite !lookup_update_other by discriminate. split; assumption.
Qed.

Lemma assignWidths_keeps :
  forall (columns : list Js) (ws : list Q) (total : Q) (used : Z),
    Forall (fun c => isColumn c = true /\ hasElements c = true /\
                     is_column c = true) columns ->
    Forall (fun c => isColumn c = true /\ hasElements c = true)
           (assignWidths columns ws total used).
Proof.
  induction columns as [|c r IH]; intros ws total used F; [constructor|].
  inversion F as [|? ? Hc Hr]; subst.
  destruct r as [|c' r'].
  - cbn [assignWidths]. constructor; [apply setColumnSize_keeps; exact Hc|constructor].
  - destruct ws as [|w ws']; [constructor|].
    change (assignWidths (c :: c' :: r') (w :: ws') total used)
      with (setColumnSize (proportionalWidth w total) c
              :: assignWidths (c' :: r') ws' total
                              (used + proportionalWidth w total)).
    constructor; [apply setColumnSize_keeps; exact Hc|apply IH; exact Hr].
Qed.

Lemma assignWidths_length :
  forall (columns : list Js) (ws : list Q) (total : Q) (used : Z),
    List.length ws = List.length columns ->
    List.length (assignWidths columns ws total used) = List.length columns.
Proof.
  induction columns as [|c r IH]; intros ws total used L; [destruct ws; reflexivity|].
  destruct r as [|c' r'].
  - reflexivity.
  - destruct ws as [|w ws']; [discriminate|].
    change (assignWidths (c :: c' :: r') (w :: ws') total used)
      with (setColumnSize (proportionalWidth w total) c
              :: assignWidths (c' :: r') ws' total
                              (used + proportionalWidth w total)).
    cbn [List.length]. f_equal. apply IH. cbn [List.length] in *. lia.
Qed.

(** X20. The columns made of the children of a section are never none.
    Each is a column holding at least one widget: a group of children of
    which none converts to a widget gives no column.  When no group
    gives one, the result is the single default column, empty and 100
    wide. *)
Theorem createColumnsFromChildren_columns (children : list ElementNode) (s : St) :
  let columns := fst (createColumnsFromChildren random children s) in
  columns <> [] /\
  (Forall (fun c => isColumn c = true /\ hasElements c = true) columns \/
   exists c, columns = [c] /\ isColumn c = true /\
             get "elements" c = JArr [] /\ columnSize c = jnum 100).
Proof.
  cbv zeta.
  assert (D : forall st,
             exists c, fst (bind (createDefaultColumn random)
                                 (fun c => ret [c]) st) = [c] /\
                       isColumn c = true /\ get "elements" c = JArr [] /\
                       columnSize c = jnum 100).
  { intro st. unfold bind, ret.
    destruct (createDefaultColumn_shape random st) as [id E].
    destruct (createDefaultColumn random st) as [c st']. cbn [fst] in *. subst c.
    eexists. split; [reflexivity|]. repeat split; reflexivity. }
  set (P := fun columns : list Js =>
              columns <> [] /\
              (Forall (fun c => isColumn c = true /\ hasElements c = true) columns \/
               exists c, columns = [c] /\ isColumn c = true /\
                         get "elements" c = JArr [] /\ columnSize c = jnum 100)).
  change (P (fst (createColumnsFromChildren random children s))).
  unfold createColumnsFromChildren.
  destruct children as [|child rest].
  { destruct (D s) as [c [E H]]. rewrite E.
    split; [discriminate|]. right. exists c. split; [reflexivity|exact H]. }
  set (children := child :: rest).
  unfold bind at 1.
  pose proof (groupChildren_good children (analyzeChildrenLayout children)
                [] [] s (Forall_nil _)) as G.
  destruct (groupChildren random children (analyzeChildrenLayout children) [] [] s)
    as [[columns current] s1].
  cbn [fst] in G.
  unfold bind at 1.
  assert (G' : forall st,
             Forall (fun c => isColumn c = true /\ hasElements c = true /\
                              is_column c = true)
                    (fst ((if (0 <? List.length current)%nat
                           then closeColumn random current columns
                           else ret columns) st))).
  { intro st. destruct (0 <? List.length current)%nat;
      [apply closeColumn_good; exact G|exact G]. }
  specialize (G' s1).
  destruct ((if (0 <? List.length current)%nat
             then closeColumn random current columns else ret columns) s1)
    as [columns' s2].
  cbn [fst] in G'.
  destruct columns' as [|c1 r1].
  { destruct (D s2) as [c [E H]]. rewrite E.
    split; [discriminate|]. right. exists c. split; [reflexivity|exact H]. }
  unfold ret. cbn [fst].
  split.
  - unfold calculateIntelligentColumnWidths.
    destruct r1 as [|c2 r2]; [discriminate|].
    intro E. apply (f_equal (@List.length Js)) in E.
    rewrite assignWidths_length in E by (rewrite length_map; reflexivity).
    discriminate E.
  - left. unfold calculateIntelligentColumnWidths.
    destruct r1 as [|c2 r2].
    + inversion G' as [|? ? Hc _]; subst.
      constructor; [apply setColumnSize_keeps; exact Hc|constructor].
    + apply assignWidths_keeps. exact G'.
Qed.

End Columns.

(** *** Sections on the raw path *)

Section RawSections.
Import Converter.
Variable random : nat -> Q.

Lemma createColumnsFromChildren_all_columns (children : list ElementNode) (s : St) :
  let columns := fst (createColumnsFromChildren random children s) in
  columns <> [] /\ forallb isColumn columns = true.
Proof.
  cbv zeta.
  assert (D : forall st,
             exists c, fst (bind (createDefaultColumn random)
                                 (fun c => ret [c]) st) = [c] /\
                       isColumn c = true).
  { intro st. unfold bind, ret.
    destruct (createDefaultColumn_shape random st) as [id E].
    destruct (createDefaultColumn random st) as [c st']. cbn [fst] in *. subst c.
    eexists. split; reflexivity. }
  set (P := fun columns : list Js =>
              columns <> [] /\ forallb isColumn columns = true).
  change (P (fst (createColumnsFromChildren random children s))).
  unfold createColumnsFromChildren.
  destruct children as [|child rest].
  { destruct (D s) as [c [E H]]. rewrite E.
    split; [discriminate|]. cbn [forallb]. rewrite H. reflexivity. }
  set (children := child :: rest).
  unfold bind at 1.
  pose proof (groupChildren_good random children (analyzeChildrenLayout children)
                [] [] s (Forall_nil _)) as G.
  destruct (groupChildren random children (analyzeChildrenLayout children) [] [] s)
    as [[columns current] s1].
  cbn [fst] in G.
  unfold bind at 1.
  assert (G' : forall st,
             Forall (fun c => isColumn c = true /\ hasElements c = true /\
                              is_column c = true)
                    (fst ((if (0 <? List.length current)%nat
                           then closeColumn random current columns
                           else ret columns) st))).
  { intro st. destruct (0 <? List.length current)%nat;
      [apply closeColumn_good; exact G|exact G]. }
  specialize (G' s1).
  destruct ((if (0 <? List.length current)%nat
             then closeColumn random current columns else ret columns) s1)
    as [columns' s2].
  cbn [fst] in G'.
  destruct columns' as [|c1 r1].
  { destruct (D s2) as [c [E H]]. rewrite E.
    split; [discriminate|]. cbn [forallb]. rewrite H. reflexivity. }
  unfold ret. cbn [fst].
  assert (K : Forall (fun c => isColumn c = true /\ hasElements c = true)
                     (calculateIntelligentColumnWidths (c1 :: r1))).
  { unfold calculateIntelligentColumnWidths.
    destruct r1 as [|c2 r2].
    - inversion G' as [|? ? Hc _]; subst.
      constructor; [apply setColumnSize_keeps; exact Hc|constructor].
    - apply assignWidths_keeps. exact G'. }
  split.
  - unfold calculateIntelligentColumnWidths.
    destruct r1 as [|c2 r2]; [discriminate|].
    intro E. apply (f_equal (@List.length Js)) in E.
    rewrite assignWidths_length in E by (rewrite length_map; reflexivity).
    discriminate E.
  - apply forallb_forall. intros x Hx.
    rewrite Forall_forall in K. exact (proj1 (K x Hx)).
Qed.

(** What [processElement] returns is no array, and when it is a section
    its [elements] is an array of columns. *)
Lemma processElement_columns (element : ElementNode) (parentType : string)
      (depth : nat) (s : St) :
  let x := fst (processElement random element parentType depth s) in
  is_array x = false /\
  (isSection x = true ->
   exists l, get "elements" x = JArr l /\ forallb isColumn l = true).
Proof.
  destruct element as [tag cls txt ih oh at_ ly ch].
  cbn -[determineElementorType createSection createColumnsFromChildren
        createColumn createWidget String.eqb Nat.ltb].
  destruct (30 <? depth)%nat; [split; [reflexivity|discriminate]|].
  set (el := mkNode tag cls txt ih oh at_ ly ch).
  destruct (determineElementorType_cases el parentType) as [E|[E|E]];
    rewrite E; cbn [String.eqb Ascii.eqb Bool.eqb].
  - unfold bind.
    destruct (createSection_shape random el s) as [id [settings Sh]].
    destruct (createSection random el s) as [section s1].
    simpl in Sh. subst section.
    unfold kids. cbn [children el].
    destruct ch as [[|c r]|];
      try (split; [reflexivity|]; intros _; exists []; split; reflexivity).
    pose proof (createColumnsFromChildren_all_columns (c :: r) s1) as [_ F].
    destruct (createColumnsFromChildren random (c :: r) s1) as [columns s2].
    cbn [fst] in F. split; [reflexivity|]. intros _.
    exists columns. split; [reflexivity | exact F].
  - unfold bind.
    destruct (createColumn_shape random ly s) as [id Sh].
    cbn [layout el].
    destruct (createColumn random ly s) as [column s1].
    simpl in Sh. subst column.
    destruct ch as [[|c r]|]; try (split; [reflexivity|discriminate]).
    match goal with
    | |- context [let '(a, s') := ?m in _] => destruct m as [results s2]
    end.
    split; [reflexivity|discriminate].
  - unfold bind.
    destruct (createWidget random el s) as [[w|] s1] eqn:W;
      [|split; [reflexivity|discriminate]].
    destruct (createWidget_shape random el s w) as [id [wt [st ->]]];
      [rewrite W; reflexivity | split; [reflexivity|discriminate]].
Qed.

Lemma pushResult_columns (P : Js -> Prop) (sections : list Js) (result : Js) :
  Forall P sections -> is_array result = false -> P result ->
  Forall P (pushResult sections result).
Proof.
  intros F A Pr. unfold pushResult.
  destruct (truthy result); [|exact F].
  destruct result; try (apply Forall_app; split; [exact F | constructor; auto]).
  discriminate.
Qed.

Lemma processChildren_columns (cs : list ElementNode) :
  forall (sections : list Js) (s : St),
    Forall (fun x => isSection x = true ->
                     exists l, get "elements" x = JArr l /\
                               forallb isColumn l = true) sections ->
    Forall (fun x => isSection x = true ->
                     exists l, get "elements" x = JArr l /\
                               forallb isColumn l = true)
           (fst (processChildren random cs sections s)).
Proof.
  induction cs as [|child r IH]; intros sections s F; [exact F|].
  cbn [processChildren]. unfold bind.
  pose proof (processElement_columns child "body" 0 s) as [A Sh].
  destruct (processElement random child "body" 0 s) as [result s1].
  apply IH. apply pushResult_columns; assumption.
Qed.

Lemma topLevelWalk_columns (vs : VisualStructure) (s : St) :
  Forall (fun x => isSection x = true ->
                   exists l, get "elements" x = JArr l /\
                             forallb isColumn l = true)
         (fst (topLevelWalk random vs s)).
Proof.
  unfold topLevelWalk.
  destruct (match vs with Tree root => Some root | Captured _ n => n end)
    as [a|]; [|constructor].
  destruct (children a) as [[|c r]|].
  - destruct (str_truthy (tagName a)); [|constructor].
    unfold bind.
    pose proof (processElement_columns a "body" 0 s) as [A Sh].
    destruct (processElement random a "body" 0 s) as [result s1].
    apply pushResult_columns; [constructor | exact A | exact Sh].
  - apply processChildren_columns. constructor.
  - destruct (str_truthy (tagName a)); [|constructor].
    unfold bind.
    pose proof (processElement_columns a "body" 0 s) as [A Sh].
    destruct (processElement random a "body" 0 s) as [result s1].
    apply pushResult_columns; [constructor | exact A | exact Sh].
Qed.

Lemma ensureColumns_holds_columns (x : Js) (s : St) :
  (isSection x = true ->
   exists l, get "elements" x = JArr l /\ forallb isColumn l = true) ->
  isSection (fst (ensureColumns random x s)) = true ->
  exists column rest,
    get "elements" (fst (ensureColumns random x s)) = JArr (column :: rest) /\
    forallb isColumn (column :: rest) = true.
Proof.
  intros H. unfold ensureColumns. fold (isSection x).
  destruct (isSection x) eqn:T.
  - destruct (H eq_refl) as [l [E F]]. rewrite E.
    destruct l as [|c r]; cbn [andb List.length Nat.eqb].
    + unfold bind, ret.
      destruct (createDefaultColumn_shape random s) as [id D].
      destruct (createDefaultColumn random s) as [col s1]. cbn [fst] in D. subst col.
      intros _. cbn [fst].
      destruct x as [| | | | | | |ps]; try discriminate.
      cbn [set get]. rewrite lookup_update_same.
      eexists. eexists. split; reflexivity.
    + intros _. unfold ret. cbn [fst]. exists c, r. split; assumption.
  - cbn [andb]. unfold ret. cbn [fst]. rewrite T. discriminate.
Qed.

(** When no pre-built structure is found, every section of the content
    list holds at least one element, and what it holds are columns. *)
Lemma raw_sections_hold_columns (vs : VisualStructure) (s : St) :
  preBuiltSections vs = None ->
  Forall (fun x => isSection x = true ->
                   exists column rest,
                     get "elements" x = JArr (column :: rest) /\
                     forallb isColumn (column :: rest) = true)
         (fst (buildElementorFromVisual random (Some vs) s)).
Proof.
  intros NP. unfold buildElementorFromVisual. rewrite NP. unfold bind.
  pose proof (topLevelWalk_columns vs s) as Sh.
  destruct (topLevelWalk random vs s) as [sections s1]. cbn [fst] in *.
  destruct sections as [|x r].
  - destruct (createDefaultSection_shape random s1) as [id [cid E]].
    destruct (createDefaultSection random s1) as [d s2]. cbn [fst] in E.
    subst d. unfold ret. cbn [mapM]. unfold bind, ret, ensureColumns.
    cbn. constructor; [|constructor].
    intros _. eexists. eexists. split; reflexivity.
  - unfold ret.
    apply (mapM_Forall
             (ensureColumns random)
             (fun x => isSection x = true ->
                       exists l, get "elements" x = JArr l /\
                                 forallb isColumn l = true));
      [|exact Sh].
    intros a st Sa. apply ensureColumns_holds_columns. exact Sa.
Qed.

End RawSections.

(** ** Settings and the JSON copy *)

Section PlainSettings.
Import Converter.

Lemma plain_update (k : string) (x : Js) (ps : list (string * Js)) :
  plain x = true -> plain (JObj ps) = true -> plain (JObj (update k x ps)) = true.
Proof.
  intros Hx. cbn [plain]. induction ps as [|[k' v] r IH]; intros H.
  - cbn [update]. rewrite Hx. reflexivity.
  - apply andb_true_iff in H. destruct H as [Hv Hr].
    cbn [update]. destruct (k' =? k)%string.
    + rewrite Hx, Hr. reflexivity.
    + rewrite Hv. apply IH. exact Hr.
Qed.

Lemma plain_set (k : string) (x v : Js) :
  plain x = true -> plain v = true -> plain (set k x v) = true.
Proof.
  intros Hx Hv. destruct v; try exact Hv. apply plain_update; assumption.
Qed.

Lemma plain_spread (extra : list (string * Js)) :
  forall base,
    forallb (fun kv => plain (snd kv)) extra = true -> plain base = true ->
    plain (spread base extra) = true.
Proof.
  unfold spread. induction extra as [|[k x] r IH]; intros base He Hb; [exact Hb|].
  cbn [forallb snd] in He. apply andb_true_iff in He. destruct He as [Hx Hr].
  cbn [fold_left fst snd]. apply IH; [exact Hr|]. apply plain_set; assumption.
Qed.

Lemma plain_when (c : bool) (extra : list (string * Js)) (settings : Js) :
  forallb (fun kv => plain (snd kv)) extra = true -> plain settings = true ->
  plain (when c extra settings) = true.
Proof.
  intros He Hs. unfold when. destruct c; [apply plain_spread; assumption|exact Hs].
Qed.

Lemma plain_jint_or_0 (s : string) : plain (jint_or_0 s) = true.
Proof. unfold jint_or_0. destruct (parseInt s); reflexivity. Qed.

Lemma plain_convertSpacing (sp : option Spacing) : plain (convertSpacing sp) = true.
Proof.
  destruct sp as [sp|]; [|reflexivity]. unfold convertSpacing. cbn [plain].
  rewrite !plain_jint_or_0. reflexivity.
Qed.

Lemma plain_radius_box (r : string) : plain (radius_box r) = true.
Proof. unfold radius_box. cbn [plain]. rewrite !plain_jint_or_0. reflexivity. Qed.

Lemma plain_sectionSettings (l : option Layout) : plain (sectionSettings l) = true.
Proof.
  unfold sectionSettings. destruct l as [l|]; [|reflexivity].
  apply plain_when; [reflexivity|].
  apply plain_spread;
    [cbn [forallb snd]; rewrite !plain_convertSpacing; reflexivity|].
  destruct (str_truthy (backgroundImage l) &&
            negb (backgroundImage l =? "none")%string).
  - destruct (extractImageUrl (backgroundImage l)) as [u|].
    + destruct (str_truthy u).
      * apply plain_spread; [reflexivity|].
        apply plain_set; [reflexivity|]. apply plain_when; reflexivity.
      * apply plain_set; [reflexivity|]. apply plain_when; reflexivity.
    + apply plain_set; [reflexivity|]. apply plain_when; reflexivity.
  - apply plain_when; reflexivity.
Qed.

Lemma plain_columnSettings (l : option Layout) : plain (columnSettings l) = true.
Proof.
  unfold columnSettings. destruct l as [l|]; [|reflexivity].
  apply plain_when; [cbn [forallb snd]; rewrite plain_radius_box; reflexivity|].
  apply plain_when; [reflexivity|].
  apply plain_spread;
    [cbn [forallb snd]; rewrite !plain_convertSpacing; reflexivity|].
  apply plain_when; reflexivity.
Qed.

(** X21. The sections and the columns the converter creates hold neither
    [undefined] nor [NaN], whatever the computed styles of the element:
    unparsable spacings and radii become 0.  The JSON copy of such a
    section or column is the section or column itself. *)
Theorem sections_and_columns_are_plain
        (random : nat -> Q) (element : ElementNode) (s : St) :
  let section := fst (createSection random element s) in
  let column := fst (createColumn random (layout element) s) in
  plain section = true /\ plain column = true /\
  Json.roundtrip section = section /\ Json.roundtrip column = column.
Proof.
  cbv zeta.
  assert (S : plain (fst (createSection random element s)) = true).
  { unfold createSection, bind, ret.
    destruct (generateElementId random s) as [id s1]. cbn [fst plain jstr].
    rewrite plain_sectionSettings. reflexivity. }
  assert (C : plain (fst (createColumn random (layout element) s)) = true).
  { unfold createColumn, bind, ret.
    destruct (generateElementId random s) as [id s1]. cbn [fst plain jstr].
    rewrite plain_columnSettings. reflexivity. }
  repeat split; try assumption; apply roundtrip_plain; assumption.
Qed.

End PlainSettings.

Lemma stringify_roundtrip :
  forall v, v <> JUndefined -> Json.stringify (Json.roundtrip v) = Json.stringify v.
Proof.
  induction v as [| | | | | |items IH|props IH] using Js_nested_ind;
    intros N; try reflexivity; [congruence| |].
  - cbn [Json.roundtrip Json.stringify].
    match goal with
    | |- Some (_ ++ String.concat _ ?a ++ _) = Some (_ ++ String.concat _ ?b ++ _) =>
        assert (E : a = b); [|rewrite E; reflexivity]
    end.
    clear N. induction IH as [|x r Hx Hr IHr]; [reflexivity|].
    rewrite IHr. f_equal.
    destruct x; try (rewrite Hx by discriminate; reflexivity). reflexivity.
  - cbn [Json.roundtrip Json.stringify].
    match goal with
    | |- Some (_ ++ String.concat _ ?a ++ _) = Some (_ ++ String.concat _ ?b ++ _) =>
        assert (E : a = b); [|rewrite E; reflexivity]
    end.
    clear N. induction IH as [|[k x] r Hx Hr IHr]; [reflexivity|].
    cbn [snd] in Hx.
    destruct x; try (rewrite Hx by discriminate; rewrite IHr; reflexivity).
    exact IHr.
Qed.

(** X22. The JSON copy the smart cleaning makes of a template
    serializes to the same text as the template: copying changes
    neither the text nor the size by which the template is judged. *)
Theorem roundtrip_keeps_the_text (template : Js) :
  template <> JUndefined ->
  Json.stringify (Json.roundtrip template) = Json.stringify template /\
  Json.size (Json.roundtrip template) = Json.size template /\
  Json.roundtrip (Json.roundtrip template) = Json.roundtrip template.
Proof.
  intros N. pose proof (stringify_roundtrip template N) as E.
  split; [exact E|]. split; [unfold Json.size; rewrite E; reflexivity|].
  apply roundtrip_plain.
  clear. induction template as [| | | | | |items IH|props IH] using Js_nested_ind;
    try reflexivity.
  - cbn [Json.roundtrip Converter.plain].
    induction IH as [|x r Hx Hr IHr]; [reflexivity|]. rewrite Hx, IHr. reflexivity.
  - cbn [Json.roundtrip Converter.plain].
    induction IH as [|[k x] r Hx Hr IHr]; [reflexivity|]. cbn [snd] in Hx.
    destruct x; try exact IHr; rewrite Hx, IHr; reflexivity.
Qed.

Lemma roundtrip_keeps_the_text_witness :
  Samples.helloTemplate <> JUndefined /\
  Json.size (Json.roundtrip Samples.helloTemplate) = Json.size Samples.helloTemplate.
Proof.
  assert (N : Samples.helloTemplate <> JUndefined) by (vm_compute; discriminate).
  split; [exact N|].
  exact (proj1 (proj2 (roundtrip_keeps_the_text Samples.helloTemplate N))).
Defined.

(** ** The emergency cleaning *)

Section Minimal.
Import Converter.
Variable random : nat -> Q.

Lemma createMinimalColumn_shape (s : St) :
  exists id wid eid,
    fst (createMinimalColumn random s)
    = JObj [("id", JStr id); ("elType", JStr "column");
            ("settings",
             JObj [("_column_size", jnum 100); ("_inline_size", JNull)]);
            ("elements",
             JArr [JObj [("id", JStr wid); ("elType", JStr "widget");
                         ("widgetType", JStr "text-editor");
                         ("settings",
                          JObj [("_element_id", JStr eid);
                                ("editor",
                                 JStr "<p>Content Successfully Cloned</p>")])]])].
Proof.
  unfold createMinimalColumn, bind, ret.
  destruct (generateElementId random s) as [id s1].
  destruct (generateElementId random s1) as [wid s2].
  destruct (generateElementId random s2) as [eid s3].
  exists id, wid, eid. reflexivity.
Qed.

Lemma minimalLoop_spec (rounds : nat) :
  forall (content acc : list Js) (s : St),
    match fst (minimalLoop random rounds content acc s) with
    | Returns sections =>
        Forall (fun x => x <> JNull /\ x <> JUndefined) (firstn rounds content) /\
        exists new,
          sections = (acc ++ new)%list /\
          List.length new = Nat.min rounds (List.length content) /\
          Forall (fun section =>
                    isSection section = true /\
                    exists column widget,
                      get "elements" section = JArr [column] /\
                      isColumn column = true /\
                      columnSize column = jnum 100 /\
                      get "elements" column = JArr [widget] /\
                      get "widgetType" widget = JStr "text-editor") new
    | Throws _ =>
        Exists (fun x => x = JNull \/ x = JUndefined) (firstn rounds content)
    end.
Proof.
  induction rounds as [|rounds IH]; intros content acc s.
  - cbn. split; [constructor|]. exists []. rewrite app_nil_r.
    repeat split. constructor.
  - destruct content as [|section rest].
    + cbn. split; [constructor|]. exists []. rewrite app_nil_r.
      repeat split. constructor.
    + cbn [minimalLoop firstn]. unfold bind at 1.
      destruct (generateElementId random s) as [id s1].
      assert (Go : forall s1,
                 section <> JNull -> section <> JUndefined ->
                 match
                   fst ((column <- createMinimalColumn random ;;
                         minimalLoop random rounds rest
                           (acc ++
                            [JObj [("id", jstr id); ("elType", jstr "section");
                                   ("settings",
                                    JObj [("content_width", jstr "boxed")]);
                                   ("elements", JArr [column])]])%list) s1)
                 with
                 | Returns sections =>
                     Forall (fun x => x <> JNull /\ x <> JUndefined)
                            (section :: firstn rounds rest) /\
                     exists new,
                       sections = (acc ++ new)%list /\
                       List.length new
                       = Nat.min (S rounds) (List.length (section :: rest)) /\
                       Forall (fun section =>
                                 isSection section = true /\
                                 exists column widget,
                                   get "elements" section = JArr [column] /\
                                   isColumn column = true /\
                                   columnSize column = jnum 100 /\
                                   get "elements" column = JArr [widget] /\
                                   get "widgetType" widget = JStr "text-editor")
                              new
                 | Throws _ =>
                     Exists (fun x => x = JNull \/ x = JUndefined)
                            (section :: firstn rounds rest)
                 end).
      { clear s1. intros s1 N1 N2. unfold bind.
        destruct (createMinimalColumn_shape s1) as [cid [wid [eid E]]].
        destruct (createMinimalColumn random s1) as [column s2].
        cbn [fst] in E. subst column.
        match goal with
        | |- match fst (minimalLoop random rounds rest ?a s2) with _ => _ end =>
            specialize (IH rest a s2);
            destruct (fst (minimalLoop random rounds rest a s2)) as [sections|msg]
        end.
        - destruct IH as [F [new [E [L Sh]]]].
          split; [constructor; [split; assumption|exact F]|].
          eexists (_ :: new). split; [rewrite E, <- app_assoc; reflexivity|].
          split; [cbn [List.length Nat.min]; rewrite L; reflexivity|].
          constructor; [|exact Sh].
          split; [reflexivity|]. do 2 eexists. repeat split; reflexivity.
        - apply Exists_cons_tl. exact IH. }
      destruct section;
        [ unfold ret; cbn [fst]; apply Exists_cons_hd; right; reflexivity
        | unfold ret; cbn [fst]; apply Exists_cons_hd; left; reflexivity
        | apply Go; discriminate .. ].
Qed.

(** X23. The emergency cleaning keeps at most three sections and never
    returns none: for an array of [n] items it gives [min 3 n] minimal
    sections, or the default section when the array is empty; each
    minimal section has one column, 100 wide, with one text widget.  It
    throws exactly when one of the first three items is [null] or
    [undefined]. *)
Theorem createMinimalContent_at_most_three (content : list Js) (s : St) :
  match fst (createMinimalContent random content s) with
  | Returns sections =>
      Forall (fun x => x <> JNull /\ x <> JUndefined) (firstn 3 content) /\
      List.length sections = Nat.max 1 (Nat.min 3 (List.length content)) /\
      Forall (fun section =>
                isSection section = true /\
                exists column,
                  get "elements" section = JArr [column] /\
                  isColumn column = true /\ columnSize column = jnum 100)
             sections
  | Throws _ =>
      Exists (fun x => x = JNull \/ x = JUndefined) (firstn 3 content)
  end.
Proof.
  unfold createMinimalContent. unfold bind at 1.
  pose proof (minimalLoop_spec 3 content [] s) as H.
  destruct (minimalLoop random 3 content [] s) as [[sections|msg] s1];
    cbn [fst] in H; [|exact H].
  destruct H as [F [new [E [L Sh]]]]. cbn [app] in E. subst new.
  destruct sections as [|sec rest].
  - unfold bind, ret.
    destruct (createDefaultSection_shape random s1) as [id [cid D]].
    destruct (createDefaultSection random s1) as [d s2]. cbn [fst] in *. subst d.
    split; [exact F|]. split; [rewrite <- L; reflexivity|].
    constructor; [|constructor]. split; [reflexivity|].
    eexists. repeat split; reflexivity.
  - unfold ret. cbn [fst]. split; [exact F|].
    split; [rewrite L; cbn [List.length] in L;
            destruct (Nat.min 3 (List.length content)); [discriminate|reflexivity]|].
    eapply Forall_impl; [|exact Sh].
    intros a [Ha [column [widget [E1 [E2 [E3 _]]]]]].
    split; [exact Ha|]. exists column. repeat split; assumption.
Qed.

End Minimal.

(** ** The structure the scraper builds *)

Section ScraperStructure.
Import Converter.
Variable random : nat -> Q.

Lemma lacks_jint (k s : string) : lacks_key k (jint s) = true.
Proof. unfold jint. destruct (parseInt s); reflexivity. Qed.

Lemma lacks_jint_or_0 (k s : string) : lacks_key k (jint_or_0 s) = true.
Proof. unfold jint_or_0. destruct (parseInt s); reflexivity. Qed.

Lemma lacks_boxOf (sp : option Spacing) : lacks_key "id" (Scraper.boxOf sp) = true.
Proof.
  destruct sp as [sp|]; [|reflexivity]. unfold Scraper.boxOf.
  cbn [lacks_key String.eqb Ascii.eqb Bool.eqb negb andb jstr].
  rewrite !lacks_jint_or_0. reflexivity.
Qed.

Lemma lacks_opt_js (k : string) (o : option string) : lacks_key k (opt_js o) = true.
Proof. destruct o; reflexivity. Qed.

Lemma buildWidget_shape (element : ElementNode) (s : St) :
  exists ps, fst (Scraper.buildWidget random element s) = JObj ps /\
             lookup "elType" ps = JStr "widget" /\
             lacks_key "id" (JObj ps) = true.
Proof.
  unfold Scraper.buildWidget, Scraper.generateElementId.
  unfold bind at 1.
  destruct (generateElementId_loop random 8 "" s) as [eid s1].
  repeat match goal with
    | |- context [if ?c then _ else _] =>
        lazymatch c with
        | context [ret] => fail
        | _ => destruct c
        end
    end;
    unfold ret; cbn [fst]; eexists; (split; [reflexivity|]);
    (split; [reflexivity|]);
    cbn [lacks_key String.eqb Ascii.eqb Bool.eqb negb andb jstr];
    rewrite ?lacks_jint, ?lacks_boxOf;
    repeat match goal with
      | |- context [match ?x with Some _ => _ | None => _ end] => destruct x
      end;
    rewrite ?lacks_opt_js; reflexivity.
Qed.

Lemma buildElementorStructure_shape :
  forall (element : ElementNode) (parentType : string) (s : St),
  exists ps,
    fst (Scraper.buildElementorStructure random element parentType s) = JObj ps /\
    (exists type, lookup "elType" ps = JStr type /\
                  In type ["section"; "column"; "widget"]) /\
    lacks_key "id" (JObj ps) = true.
Proof.
  induction element as [tag cls txt inner outer a l|tag cls txt inner outer a l cs IH]
    using Node_nested_ind; intros parentType s.
  - destruct (buildWidget_shape (mkNode tag cls txt inner outer a l None) s)
      as [ps [E [T L]]].
    cbn [Scraper.buildElementorStructure children].
    set (n := mkNode tag cls txt inner outer a l None) in *.
    destruct (Scraper.determineElementorType n parentType =? "section")%string.
    { unfold bind, ret. cbn [fst truthy_only filter].
      eexists. split; [reflexivity|]. split; [exists "section"; cbn; tauto|].
      cbn [lacks_key String.eqb Ascii.eqb Bool.eqb negb andb jstr].
      unfold Scraper.buildSectionSettings.
      cbn [lacks_key String.eqb Ascii.eqb Bool.eqb negb andb jstr].
      rewrite !lacks_boxOf.
      destruct (negb _); reflexivity. }
    destruct (Scraper.determineElementorType n parentType =? "column")%string.
    { unfold bind, ret. cbn [fst truthy_only filter].
      eexists. split; [reflexivity|]. split; [exists "column"; cbn; tauto|].
      cbn [lacks_key String.eqb Ascii.eqb Bool.eqb negb andb jstr].
      unfold Scraper.buildColumnSettings.
      cbn [lacks_key String.eqb Ascii.eqb Bool.eqb negb andb jstr].
      rewrite !lacks_boxOf. reflexivity. }
    exists ps. split; [exact E|]. split; [exists "widget"; cbn; tauto|exact L].
  - assert (Kids : forall (childType : string) (st : St),
               lacks_key "id"
                 (JArr (truthy_only
                          (fst ((fix each (cs : list ElementNode) : M (list Js) :=
                                   match cs with
                                   | [] => ret []
                                   | c :: r =>
                                       v <- Scraper.buildElementorStructure
                                              random c childType ;;
                                       vs <- each r ;;
                                       ret (v :: vs)
                                   end) cs st)))) = true).
    { intros childType. induction IH as [|c r Hc Hr IHr]; intros st; [reflexivity|].
      unfold bind at 1.
      destruct (Hc childType st) as [ps [E [_ L]]].
      destruct (Scraper.buildElementorStructure random c childType st) as [v st1].
      cbn [fst] in E. subst v.
      unfold bind at 1. specialize (IHr st1).
      match goal with
      | |- context [let '(a, s') := ?m st1 in _] => destruct (m st1) as [vs st2]
      end.
      unfold ret. cbn [fst] in *. unfold truthy_only in *.
      cbn [filter truthy].
      change (lacks_key "id" (JArr (JObj ps :: filter truthy vs)))
        with (lacks_key "id" (JObj ps) && lacks_key "id" (JArr (filter truthy vs))).
      rewrite L, IHr. reflexivity. }
    cbn [Scraper.buildElementorStructure children].
    set (n := mkNode tag cls txt inner outer a l (Some cs)) in *.
    destruct (Scraper.determineElementorType n parentType =? "section")%string.
    { unfold bind at 1. specialize (Kids "section" s).
      match goal with
      | |- context [let '(a, s') := ?m s in _] => destruct (m s) as [vs st2]
      end.
      unfold ret. cbn [fst] in *.
      eexists. split; [reflexivity|]. split; [exists "section"; cbn; tauto|].
      change (lacks_key "id"
                (JObj [("elType", jstr "section");
                       ("settings", Scraper.buildSectionSettings n);
                       ("elements", JArr (truthy_only vs))]))
        with (true && true && (lacks_key "id" (Scraper.buildSectionSettings n) &&
              (true && lacks_key "id" (JArr (truthy_only vs)) && true))).
      rewrite Kids.
      unfold Scraper.buildSectionSettings.
      cbn [lacks_key String.eqb Ascii.eqb Bool.eqb negb andb jstr].
      rewrite !lacks_boxOf.
      destruct (negb _); reflexivity. }
    destruct (Scraper.determineElementorType n parentType =? "column")%string.
    { unfold bind at 1. specialize (Kids "column" s).
      match goal with
      | |- context [let '(a, s') := ?m s in _] => destruct (m s) as [vs st2]
      end.
      unfold ret. cbn [fst] in *.
      eexists. split; [reflexivity|]. split; [exists "column"; cbn; tauto|].
      change (lacks_key "id"
                (JObj [("elType", jstr "column");
                       ("settings", Scraper.buildColumnSettings n);
                       ("elements", JArr (truthy_only vs))]))
        with (true && true && (lacks_key "id" (Scraper.buildColumnSettings n) &&
              (true && lacks_key "id" (JArr (truthy_only vs)) && true))).
      rewrite Kids.
      unfold Scraper.buildColumnSettings.
      cbn [lacks_key String.eqb Ascii.eqb Bool.eqb negb andb jstr].
      rewrite !lacks_boxOf. reflexivity. }
    destruct (buildWidget_shape n s) as [ps [E [T L]]].
    exists ps. split; [exact E|]. split; [exists "widget"; cbn; tauto|exact L].
Qed.

End ScraperStructure.

Section ScraperToConverter.
Import Converter.
Variable random : nat -> Q.

Lemma each_child_shape (childType : string) (cs : list ElementNode) :
  forall st : St,
  exists vs st',
    (fix each (cs : list ElementNode) : M (list Js) :=
       match cs with
       | [] => ret []
       | c :: r =>
           v <- Scraper.buildElementorStructure random c childType ;;
           vs <- each r ;;
           ret (v :: vs)
       end) cs st = (vs, st') /\
    List.length vs = List.length cs /\
    Forall (fun v => truthy v = true /\ lacks_key "id" v = true) vs.
Proof.
  induction cs as [|c r IH]; intros st.
  - exists [], st. split; [reflexivity|]. split; [reflexivity|constructor].
  - unfold bind at 1.
    destruct (buildElementorStructure_shape random c childType st) as [ps [E [_ L]]].
    destruct (Scraper.buildElementorStructure random c childType st) as [v st1].
    cbn [fst] in E. subst v.
    unfold bind at 1. destruct (IH st1) as [vs [st2 [E [IL IF]]]].
    rewrite E. unfold ret.
    exists (JObj ps :: vs), st2. split; [reflexivity|].
    split; [cbn [List.length]; rewrite IL; reflexivity|].
    constructor; [split; [reflexivity|exact L]|exact IF].
Qed.

Lemma filter_all {A} (f : A -> bool) (l : list A) :
  Forall (fun x => f x = true) l -> filter f l = l.
Proof.
  induction 1 as [|x l Hx Hl IH]; [reflexivity|].
  cbn [filter]. rewrite Hx, IH. reflexivity.
Qed.

(** X24. No element of the structure the scraper builds has an [id]:
    sections, columns and widgets alike are made without one, at every
    depth (a widget has an [_element_id] among its settings, and nothing
    else). *)
Theorem scraper_structure_has_no_id
        (element : ElementNode) (parentType : string) (s : St) :
  captured element = true ->
  let built := fst (Scraper.buildElementorStructure random element parentType s) in
  lacks_key "id" built = true /\
  get "id" built = JUndefined /\
  exists type, get "elType" built = JStr type /\
               In type ["section"; "column"; "widget"].
Proof.
  intros _. cbv zeta.
  destruct (buildElementorStructure_shape random element parentType s)
    as [ps [E [T L]]].
  rewrite E. split; [exact L|]. split; [|exact T].
  cbn [get]. clear E T. cbn [lacks_key] in L.
  induction ps as [|[k v] r IH]; [reflexivity|].
  apply andb_true_iff in L. destruct L as [L Lr].
  apply andb_true_iff in L. destruct L as [Lk _].
  apply negb_true_iff in Lk. cbn [lookup]. rewrite Lk. apply IH. exact Lr.
Qed.

(** X25. When the scraper returns and the body it captured on the
    desktop has children, the converter does not classify anything: the
    content of the template is the list of elements of the scraper's
    [elementorStructure], one for each child of the body, as the scraper
    made them (without identifiers), and the converter's state is left
    as it was. *)
Theorem scraped_sections_are_returned_as_they_are
        (sb : Scraper.Browser) (url : string) (s : St)
        (visualData : Scraper.VisualData) (body c : ElementNode)
        (r : list ElementNode) :
  snd (fst (Scraper.scrapeVisualLayout random sb url s)) = Returns visualData ->
  Scraper.structure (Scraper.desktop visualData) = Some body ->
  captured body = true ->
  children body = Some (c :: r) ->
  exists sections,
    get "elements" (lookup "elementorStructure" (Scraper.visualStructure visualData))
    = JArr sections /\
    List.length sections = S (List.length r) /\
    Forall (fun section => lacks_key "id" section = true) sections /\
    forall (random' : nat -> Q) (s' : St),
      buildElementorFromVisual
        random' (Some (itself (Route.for_converter visualData))) s'
      = (sections, s').
Proof.
  intros H Hb _ Hc.
  assert (V : Scraper.visualStructure visualData
              = fst (Scraper.buildVisualStructureMap
                       random (Scraper.desktop visualData) s)).
  { revert H. unfold Scraper.scrapeVisualLayout, bind, ret.
    destruct (Scraper.launch sb) as [u0|]; [|discriminate].
    destruct (Scraper.newPage sb) as [u1|]; [|discriminate].
    destruct (Scraper.goto sb _) as [u2|]; [|discriminate].
    destruct (Scraper.scroll sb) as [u3|]; [|discriminate].
    destruct (Scraper.pageInfo sb) as [title|]; [|discriminate].
    destruct (Scraper.breakpoint sb Verifier.mobile) as [m|]; [|discriminate].
    destruct (Scraper.breakpoint sb Verifier.tablet) as [t|]; [|discriminate].
    destruct (Scraper.breakpoint sb Verifier.desktop) as [d|]; [|discriminate].
    destruct (Scraper.harvest sb) as [pa|]; [|discriminate].
    destruct (Scraper.buildVisualStructureMap random d s) as [vs s1] eqn:B.
    cbn [fst snd]. intros E. injection E as <-.
    cbn [Scraper.visualStructure Scraper.desktop]. rewrite B. reflexivity. }
  unfold Scraper.buildVisualStructureMap in V. rewrite Hb in V.
  unfold bind at 1 in V.
  destruct body as [tag cls txt inner outer a l ch]. cbn [children] in Hc. subst ch.
  cbn [Scraper.buildElementorStructure children] in V.
  change (Scraper.determineElementorType
            (mkNode tag cls txt inner outer a l (Some (c :: r))) "body")
    with "section" in V.
  cbn [String.eqb Ascii.eqb Bool.eqb] in V.
  unfold bind at 1 in V.
  destruct (each_child_shape "section" (c :: r) s) as [vs [s1 [K [KL KF]]]].
  rewrite K in V.
  unfold ret in V. cbn [fst] in V.
  assert (T : truthy_only vs = vs).
  { unfold truthy_only. apply filter_all.
    eapply Forall_impl; [|exact KF]. intros v [Tv _]. exact Tv. }
  rewrite T in V.
  exists vs. rewrite V. cbn [lookup String.eqb Ascii.eqb Bool.eqb get].
  split; [reflexivity|]. split; [exact KL|].
  split; [eapply Forall_impl; [|exact KF]; intros v [_ Lv]; exact Lv|].
  intros random' s'.
  unfold buildElementorFromVisual, Route.for_converter. cbn [itself].
  assert (P : preBuiltSections (Captured (Route.own_properties visualData) None)
              = Some vs).
  { unfold preBuiltSections, visual_js, Route.own_properties. rewrite V.
    cbn [findElementorStructure lookup String.eqb Ascii.eqb Bool.eqb truthy
         is_object jstr get andb].
    destruct vs as [|v vs']; [discriminate KL|reflexivity]. }
  rewrite P. reflexivity.
Qed.

End ScraperToConverter.

Lemma scraper_structure_has_no_id_witness :
  Converter.captured Samples.helloBody = true /\
  lacks_key "id"
    (fst (Scraper.buildElementorStructure
            Samples.sampleRandom Samples.helloBody "body" Converter.constructor))
  = true.
Proof.
  split; [reflexivity|].
  exact (proj1 (scraper_structure_has_no_id
                  Samples.sampleRandom Samples.helloBody "body"
                  Converter.constructor eq_refl)).
Defined.

Lemma scraped_sections_are_returned_as_they_are_witness :
  exists visualData sections,
    snd (fst (Scraper.scrapeVisualLayout
                Samples.sampleRandom (Samples.loads []) "https://example.com"
                Converter.constructor)) = Returns visualData /\
    List.length sections = 2%nat /\
    Converter.buildElementorFromVisual
      Samples.stuckRandom
      (Some (Converter.itself (Route.for_converter visualData)))
      Converter.constructor
    = (sections, Converter.constructor).
Proof.
  eexists.
  assert (H : snd (fst (Scraper.scrapeVisualLayout
                          Samples.sampleRandom (Samples.loads [])
                          "https://example.com" Converter.constructor))
              = Returns ?[vd]) by (vm_compute; reflexivity).
  destruct (scraped_sections_are_returned_as_they_are
              Samples.sampleRandom (Samples.loads []) "https://example.com"
              Converter.constructor _ Samples.helloBody _ _
              H eq_refl eq_refl eq_refl) as [sections [_ [L [_ B]]]].
  exists sections. split; [exact H|]. split; [exact L|apply B].
Defined.

(** ** The responses of the scan route *)

Section Responses.
Variable random : nat -> Q.
Variable now : string.

Lemma criticalValidationFailed_none (data : Converter.VisualData)
      (report : option (Q * bool)) (s : Converter.St) :
  Route.criticalValidationFailed
    (fst (Converter.convertVisualToElementor random now data report s)) = [].
Proof.
  destruct (convertVisualToElementor_content random now data report s)
    as [ps [content [E [C N]]]].
  rewrite E. unfold Route.criticalValidationFailed. cbn [get truthy].
  rewrite C. cbn [truthy andb length_or_0 app].
  destruct content; [congruence|reflexivity].
Qed.

Lemma verifyFidelity_throws (b : Verifier.Browser) (d : option Verifier.ScannedData)
      (e : string) :
  snd (Verifier.verifyFidelity b d) = Throws e -> Verifier.launch b = Throws e.
Proof.
  unfold Verifier.verifyFidelity.
  destruct (Verifier.launch b); [|cbn [snd]; intros H; injection H as ->; reflexivity].
  destruct (snd (Verifier.captureOriginalSite b)); [|discriminate].
  destruct (Verifier.renderClonedStructure b d); [|discriminate].
  destruct d; discriminate.
Qed.

(** X26. The scan route never answers with a rejection.  The fidelity
    score is at least 0.5, so the quality test (a score below 0.3) never
    holds, and the template always has a content list with a section, so
    the final validation never fails: the answer is the template
    whenever the scraper returns and the verifier's browser starts, and a
    server error otherwise. *)
Theorem scan_never_rejects
        (skipVerification : bool) (sb : Scraper.Browser)
        (vb : Verifier.Browser) (url : string) (s : Converter.St) :
  match snd (fst (Route.scan random now skipVerification sb vb url s)) with
  | Route.Cloned template report =>
      (exists sections, get "content" template = JArr sections /\ sections <> []) /\
      5 # 10 <= Verifier.fidelityScore report /\
      (exists visualData,
          snd (fst (Scraper.scrapeVisualLayout random sb url s))
          = Returns visualData) /\
      Verifier.launch vb = Returns tt
  | Route.Rejected _ _ => False
  | Route.ServerError details =>
      snd (fst (Scraper.scrapeVisualLayout random sb url s)) = Throws details \/
      Verifier.launch vb = Throws details
  end.
Proof.
  unfold Route.scan. unfold Converter.bind at 1.
  destruct (Scraper.scrapeVisualLayout random sb url s)
    as [[[scraperEvents nav] [visualData|e]] s1];
    cbn [fst snd]; [|unfold Converter.ret; cbn [fst snd]; left; reflexivity].
  destruct (Verifier.verifyFidelity vb (Some (Route.for_verifier visualData)))
    as [verifierEvents [report|e]] eqn:V;
    [|unfold Converter.ret; cbn [fst snd]; right;
      apply (verifyFidelity_throws vb (Some (Route.for_verifier visualData)));
      rewrite V; reflexivity].
  destruct (verifyFidelity_verdict _ _ _ _ V) as [Hf _].
  assert (F : 5 # 10 <= Verifier.fidelityScore report)
    by (rewrite Hf; apply calculateOverallScore_floor).
  assert (Low : Qlt_bool (Verifier.fidelityScore report) (3 # 10) = false)
    by (apply Qlt_bool_false; lra).
  rewrite Low, andb_false_r. cbn [andb].
  unfold Converter.bind.
  match goal with
  | |- context [Converter.convertVisualToElementor ?r ?n ?d ?v ?st] =>
      pose proof (criticalValidationFailed_none d v st) as K;
      pose proof (convertVisualToElementor_content r n d v st) as C;
      destruct (Converter.convertVisualToElementor r n d v st) as [template s2]
  end.
  cbn [fst] in K, C. rewrite K. unfold Converter.ret. cbn [fst snd].
  split.
  - destruct C as [ps [content [E [C N]]]]. subst template.
    exists content. split; assumption.
  - split; [exact F|]. split; [eexists; reflexivity|].
    unfold Verifier.verifyFidelity in V.
    destruct (Verifier.launch vb) as [[]|]; [reflexivity|discriminate V].
Qed.

End Responses.

Section Warning.
Variable random : nat -> Q.
Variable now : string.

Lemma warned_app (a b : list ProgressEvent) :
  Route.warned (a ++ b) = Route.warned a || Route.warned b.
Proof. unfold Route.warned. apply existsb_app. Qed.

Lemma scraper_never_warns (sb : Scraper.Browser) (url : string) (s : Converter.St) :
  Route.warned
    (map Route.capScraper
         (fst (fst (fst (Scraper.scrapeVisualLayout random sb url s))))) = false.
Proof.
  unfold Scraper.scrapeVisualLayout, Converter.bind, Converter.ret.
  destruct (Scraper.launch sb) as [u0|]; [|reflexivity].
  destruct (Scraper.newPage sb) as [u1|]; [|reflexivity].
  destruct (Scraper.goto sb _) as [u2|]; [|reflexivity].
  destruct (Scraper.scroll sb) as [u3|]; [|reflexivity].
  destruct (Scraper.pageInfo sb) as [title|]; [|reflexivity].
  destruct (Scraper.breakpoint sb Verifier.mobile) as [m|]; [|reflexivity].
  destruct (Scraper.breakpoint sb Verifier.tablet) as [t|]; [|reflexivity].
  destruct (Scraper.breakpoint sb Verifier.desktop) as [d|]; [|reflexivity].
  destruct (Scraper.harvest sb) as [pa|]; [|reflexivity].
  destruct (Scraper.buildVisualStructureMap random d s) as [vs s1].
  reflexivity.
Qed.

Lemma verifier_never_warns (b : Verifier.Browser)
      (d : option Verifier.ScannedData) :
  Route.warned (map Route.capVerifier (fst (Verifier.verifyFidelity b d))) = false.
Proof.
  unfold Verifier.verifyFidelity.
  destruct (Verifier.launch b); [|reflexivity].
  destruct (snd (Verifier.captureOriginalSite b)); [|reflexivity].
  destruct (Verifier.renderClonedStructure b d); [|reflexivity].
  destruct d; reflexivity.
Qed.

(** X27. The verification warning, after which the reported progress
    goes down to 90, is given exactly when verification is not skipped,
    the verifier fell back without enough content to pass, and more than
    one of the initial checks on the scraped data fails. *)
Theorem scan_warns_exactly_when
        (skipVerification : bool) (sb : Scraper.Browser)
        (vb : Verifier.Browser) (url : string) (s : Converter.St) :
  Route.warned (fst (fst (Route.scan random now skipVerification sb vb url s)))
  = true <->
  skipVerification = false /\
  exists visualData report,
    snd (fst (Scraper.scrapeVisualLayout random sb url s)) = Returns visualData /\
    snd (Verifier.verifyFidelity vb (Some (Route.for_verifier visualData)))
    = Returns report /\
    Verifier.fallback report = true /\
    Verifier.passed report = false /\
    (1 < List.length (Route.failedInitialChecks visualData))%nat.
Proof.
  unfold Route.scan. unfold Converter.bind at 1.
  pose proof (scraper_never_warns sb url s) as Ws.
  destruct (Scraper.scrapeVisualLayout random sb url s)
    as [[[scraperEvents nav] [visualData|e]] s1];
    cbn [fst snd] in *.
  2:{ unfold Converter.ret. cbn [fst snd]. rewrite warned_app, Ws.
      split; [discriminate|]. intros [_ [vd [rep [H _]]]]. discriminate H. }
  pose proof (verifier_never_warns vb (Some (Route.for_verifier visualData))) as Wv.
  destruct (Verifier.verifyFidelity vb (Some (Route.for_verifier visualData)))
    as [verifierEvents [report|e]] eqn:V; cbn [fst snd] in *.
  2:{ unfold Converter.ret. cbn [fst snd]. rewrite !warned_app, Ws, Wv.
      split; [discriminate|]. intros [_ [vd [rep [E1 [H _]]]]].
      injection E1 as <-. rewrite V in H. discriminate H. }
  destruct (verifyFidelity_verdict _ _ _ _ V) as [Hf Hp].
  assert (F : 5 # 10 <= Verifier.fidelityScore report)
    by (rewrite Hf; apply calculateOverallScore_floor).
  assert (Low : Qlt_bool (Verifier.fidelityScore report) (3 # 10) = false)
    by (apply Qlt_bool_false; lra).
  assert (Mid : Qle_bool (4 # 10) (Verifier.fidelityScore report) = true)
    by (apply Qle_bool_iff; lra).
  assert (Thr : Qle_bool Verifier.toleranceThreshold (Verifier.fidelityScore report)
                = true)
    by (apply Qle_bool_iff; unfold Verifier.toleranceThreshold; lra).
  rewrite Thr in Hp. cbn [andb] in Hp.
  rewrite Low, andb_false_r, Mid. cbn [andb].
  unfold Converter.bind.
  match goal with
  | |- context [Converter.convertVisualToElementor ?r ?n ?d ?v ?st] =>
      pose proof (criticalValidationFailed_none r n d v st) as K;
      destruct (Converter.convertVisualToElementor r n d v st) as [template s2]
  end.
  cbn [fst] in K. rewrite K. unfold Converter.ret. cbn [fst snd].
  set (failed := Route.failedInitialChecks visualData) in *.
  destruct skipVerification; cbn [orb].
  { rewrite !warned_app, Ws, Wv. cbn.
    split; [discriminate|]. intros [H _]. discriminate H. }
  destruct (Verifier.passed report) eqn:P; cbn [orb].
  { rewrite !warned_app, Ws, Wv. cbn.
    split; [discriminate|]. intros [_ [vd [rep [E1 [E2 [_ [E3 _]]]]]]].
    injection E1 as <-. rewrite V in E2. injection E2 as <-. congruence. }
  destruct (List.length failed <=? 1)%nat eqn:L.
  { rewrite !warned_app, Ws, Wv. cbn.
    split; [discriminate|]. intros [_ [vd [rep [E1 [_ [_ [_ E3]]]]]]].
    injection E1 as <-. apply Nat.leb_le in L. fold failed in E3. lia. }
  rewrite !warned_app, Ws, Wv. cbn.
  split; [|reflexivity]. intros _. split; [reflexivity|].
  exists visualData, report. rewrite V.
  repeat split; try reflexivity; try assumption.
  - destruct (Verifier.fallback report); [reflexivity|cbn in Hp; discriminate Hp].
  - apply Nat.leb_gt in L. exact L.
Qed.

End Warning.

(** ** The counts of the response *)

(** X28. In the metadata of a response the sections, columns and
    widgets counted by type are together no more than the elements
    counted in all; each count by a type that is not the empty string is
    no more than the count of all.  (The count of all takes every object
    with a truthy [elType], whatever the type is.) *)
Theorem counts_by_type_within_total (template : Js) :
  (Route.countElementsByType "section" template +
   Route.countElementsByType "column" template +
   Route.countElementsByType "widget" template
   <= Route.countAllElements template)%nat /\
  (forall type, type <> "" ->
                (Route.countElementsByType type template
                 <= Route.countAllElements template)%nat).
Proof.
  split.
  - induction template as [| | | | | |items IH|props IH] using Js_nested_ind;
      try (cbn; lia).
    + cbn [Route.countElementsByType Route.countAllElements].
      induction IH as [|x r Hx Hr IHr]; [cbn; lia|]. lia.
    + cbn [Route.countElementsByType Route.countAllElements].
      assert (Own : ((if str_is "section" (lookup "elType" props) then 1 else 0) +
                     (if str_is "column" (lookup "elType" props) then 1 else 0) +
                     (if str_is "widget" (lookup "elType" props) then 1 else 0)
                     <= (if truthy (lookup "elType" props) then 1 else 0))%nat).
      { destruct (lookup "elType" props) as [| | | | |t| |];
          try (cbn; lia).
        unfold str_is, truthy, str_truthy.
        destruct (t =? "section")%string eqn:E1;
          [apply String.eqb_eq in E1; subst t; cbn; lia|].
        destruct (t =? "column")%string eqn:E2;
          [apply String.eqb_eq in E2; subst t; cbn; lia|].
        destruct (t =? "widget")%string eqn:E3;
          [apply String.eqb_eq in E3; subst t; cbn; lia|].
        destruct (negb (t =? "")%string); lia. }
      revert Own. generalize (lookup "elType" props). intros e Own.
      induction IH as [|[k x] r Hx Hr IHr]; [lia|].
      cbn [snd] in Hx. destruct (is_object x); lia.
  - intros type Ht.
    induction template as [| | | | | |items IH|props IH] using Js_nested_ind;
      try (cbn; lia).
    + cbn [Route.countElementsByType Route.countAllElements].
      induction IH as [|x r Hx Hr IHr]; [cbn; lia|]. lia.
    + cbn [Route.countElementsByType Route.countAllElements].
      assert (Own : ((if str_is type (lookup "elType" props) then 1 else 0)
                     <= (if truthy (lookup "elType" props) then 1 else 0))%nat).
      { destruct (lookup "elType" props) as [| | | | |t| |];
          try (cbn; lia).
        unfold str_is, truthy, str_truthy.
        destruct (t =? type)%string eqn:E1; [|lia].
        apply String.eqb_eq in E1. subst t.
        apply String.eqb_neq in Ht. rewrite Ht. cbn. lia. }
      revert Own. generalize (lookup "elType" props). intros e Own.
      induction IH as [|[k x] r Hx Hr IHr]; [lia|].
      cbn [snd] in Hx. destruct (is_object x); lia.
Qed.

(** ** Witnesses for the navigation cascade and the progress of a scan *)

Lemma captureOriginalSite_cascade_witness :
  Verifier.newPage Samples.unreachable = Returns tt /\
  fst (Verifier.captureOriginalSite Samples.unreachable)
  = [Goto ["networkidle0"] 60000%Z; Goto ["networkidle2"] 45000%Z;
     Goto ["domcontentloaded"] 30000%Z] /\
  snd (Verifier.captureOriginalSite Samples.unreachable)
  = Throws "net::ERR_NAME_NOT_RESOLVED".
Proof.
  split; [reflexivity|].
  exact (captureOriginalSite_cascade Samples.unreachable eq_refl).
Defined.

Lemma scan_progress_monotone_unless_warned_witness :
  let events :=
    fst (fst (Route.scan Samples.sampleRandom Samples.sampleNow true
                         Samples.untitledPage Samples.unreachable
                         "https://example.com" Converter.constructor)) in
  Route.warned events = false /\
  Route.nondecreasing (map progress events) = true.
Proof.
  cbv zeta.
  assert (W : Route.warned
                (fst (fst (Route.scan Samples.sampleRandom Samples.sampleNow true
                                      Samples.untitledPage Samples.unreachable
                                      "https://example.com" Converter.constructor)))
              = false) by (vm_compute; reflexivity).
  split; [exact W|].
  exact (scan_progress_monotone_unless_warned
           Samples.sampleRandom Samples.sampleNow true
           Samples.untitledPage Samples.unreachable
           "https://example.com" Converter.constructor W).
Defined.
